(** * Pullus BI dashboard: the parsing and aggregation core

    A shallow embedding of [helpers.py], [weekly_purchase.py], [doc_price.py],
    [competitor_selling.py], [competitor_buying.py] and the buying step of
    [dashboard.py], followed by the properties of the specification.

    Modelling conventions.
    - Cell text is ASCII text ([string]); the sheet API returns every cell as
      a [str].  Non-string values ([None], [int], [bytes]) exist as [pyval]
      because [parse_date] and [safe_float] guard against them.
    - A Python exception is a value of [exn]; code that can raise returns a
      [result].  A [try/except] catches exactly the classes its source names.
    - A Python [float] is [pyfloat]: an exact rational, an infinity or NaN.
      Finite arithmetic is exact (no rounding error, no overflow, one zero),
      so [round] ties are the ties of the decimal value.
    - [datetime.now().year] is the parameter [current_year].
    - [datetime.strptime] is the matcher of [_strptime] for the directives
      of [parse_date]'s patterns in the C locale; [datetime.strftime], which
      the sources do not call, is modelled for the same directives to state
      the round trip of a date.
    - [print] calls and the [kept] counters that only feed them are left out. *)

From Stdlib Require Import List String Ascii ZArith NArith QArith Qround Bool Lia.
From Stdlib Require Import Qabs Qcanon DecimalString Permutation Sorted Lqa.
Import ListNotations.
Local Open Scope string_scope.
Local Open Scope list_scope.
Local Open Scope Z_scope.

(* ================================================================== *)
(** * Part I. The embedding *)
(* ================================================================== *)

(** ** Exceptions *)

Inductive exn : Type :=
| ValueError | AttributeError | TypeError | IndexError
| ZeroDivisionError | OverflowError.

Inductive result (A : Type) : Type :=
| Ok (a : A)
| Raise (e : exn).
Arguments Ok {A} a.
Arguments Raise {A} e.

Definition bind {A B : Type} (r : result A) (k : A -> result B) : result B :=
  match r with
  | Ok a => k a
  | Raise e => Raise e
  end.

Notation "x <- c ;; k" := (bind c (fun x => k))
  (at level 61, c at next level, right associativity).
Notation "' pat <- c ;; k" := (bind c (fun x => match x with pat => k end))
  (at level 61, pat pattern, c at next level, right associativity).

Definition exn_eqb (a b : exn) : bool :=
  match a, b with
  | ValueError, ValueError | AttributeError, AttributeError
  | TypeError, TypeError | IndexError, IndexError
  | ZeroDivisionError, ZeroDivisionError | OverflowError, OverflowError => true
  | _, _ => false
  end.

(** [try: body  except (classes): handler]. *)
Definition try_except {A : Type} (body : result A) (classes : list exn)
  (handler : result A) : result A :=
  match body with
  | Ok a => Ok a
  | Raise e => if existsb (exn_eqb e) classes then handler else Raise e
  end.

(** [xs[i]] on a list. *)
Definition py_index {A : Type} (xs : list A) (i : nat) : result A :=
  match nth_error xs i with
  | Some x => Ok x
  | None => Raise IndexError
  end.

(** A loop body run over a list, stopping at the first exception. *)
Fixpoint for_each {T A : Type} (body : T -> A -> result T) (xs : list A)
  (s : T) : result T :=
  match xs with
  | [] => Ok s
  | x :: xs' => s' <- body s x ;; for_each body xs' s'
  end.

(** ** Characters and strings *)

Definition code (c : ascii) : N := N_of_ascii c.

Definition in_range (lo hi : N) (c : ascii) : bool :=
  ((lo <=? code c) && (code c <=? hi))%N.

(** [str.isspace] on ASCII: TAB..CR, FS..US and the blank. *)
Definition is_space (c : ascii) : bool := in_range 9 13 c || in_range 28 32 c.

(** C's [isspace], which [float()] strips by. *)
Definition is_c_space (c : ascii) : bool := in_range 9 13 c || in_range 32 32 c.

Definition is_digit (c : ascii) : bool := in_range 48 57 c.
Definition is_upper (c : ascii) : bool := in_range 65 90 c.
Definition is_lower (c : ascii) : bool := in_range 97 122 c.
Definition is_alpha (c : ascii) : bool := is_upper c || is_lower c.

Definition digit_val (c : ascii) : Z := Z.of_N (code c) - 48.

Definition lower_char (c : ascii) : ascii :=
  if is_upper c then ascii_of_N (code c + 32) else c.
Definition upper_char (c : ascii) : ascii :=
  if is_lower c then ascii_of_N (code c - 32) else c.

Fixpoint str_map (f : ascii -> ascii) (s : string) : string :=
  match s with
  | EmptyString => EmptyString
  | String c s' => String (f c) (str_map f s')
  end.

(** [s.lower()]. *)
Definition lower (s : string) : string := str_map lower_char s.

(** [s.title()]: a letter is upper-cased after a non-letter and lower-cased
    after a letter. *)
Fixpoint title_from (prev_cased : bool) (s : string) : string :=
  match s with
  | EmptyString => EmptyString
  | String c s' =>
      String (if prev_cased then lower_char c else upper_char c)
             (title_from (is_alpha c) s')
  end.
Definition title (s : string) : string := title_from false s.

Fixpoint lstrip_by (sp : ascii -> bool) (s : string) : string :=
  match s with
  | EmptyString => EmptyString
  | String c s' => if sp c then lstrip_by sp s' else s
  end.

Fixpoint rstrip_by (sp : ascii -> bool) (s : string) : string :=
  match s with
  | EmptyString => EmptyString
  | String c s' =>
      match rstrip_by sp s' with
      | EmptyString => if sp c then EmptyString else String c EmptyString
      | r => String c r
      end
  end.

(** [s.strip()]. *)
Definition strip (s : string) : string := rstrip_by is_space (lstrip_by is_space s).

(** [s.replace(c, "")] for a one-character [c]. *)
Fixpoint remove_char (x : ascii) (s : string) : string :=
  match s with
  | EmptyString => EmptyString
  | String c s' => if Ascii.eqb c x then remove_char x s' else String c (remove_char x s')
  end.

(** [sub in s]. *)
Fixpoint contains (sub s : string) : bool :=
  String.prefix sub s ||
  match s with
  | EmptyString => false
  | String _ s' => contains sub s'
  end.

Fixpoint rev_string (acc s : string) : string :=
  match s with
  | EmptyString => acc
  | String c s' => rev_string (String c acc) s'
  end.

(** [s.split(sep)] for a non-empty [sep]: left to right, matches do not
    overlap.  [skip] counts the characters of a matched separator still to
    pass; [cur] is the current piece, reversed. *)
Fixpoint split_go (sep : string) (skip : nat) (cur : string) (s : string) : list string :=
  match s with
  | EmptyString => [rev_string EmptyString cur]
  | String c s' =>
      match skip with
      | S k => split_go sep k cur s'
      | O =>
          if String.prefix sep s
          then rev_string EmptyString cur :: split_go sep (String.length sep - 1) EmptyString s'
          else split_go sep O (String c cur) s'
      end
  end.
Definition split (sep s : string) : list string := split_go sep O EmptyString s.

(** Truth value of a [str]. *)
Definition nonempty (s : string) : bool :=
  match s with EmptyString => false | _ => true end.

(** ** Floats *)

Inductive pyfloat : Type :=
| Fin (q : Q)
| Inf (negative : bool)
| NaN.

Definition of_int (z : Z) : pyfloat := Fin (inject_Z z).

Definition q_is_zero (q : Q) : bool := Qnum q =? 0.
Definition q_is_neg (q : Q) : bool := Qnum q <? 0.

(** Truth value of a float: [0.0] is false, everything else true. *)
Definition truthy (x : pyfloat) : bool :=
  match x with
  | Fin q => negb (q_is_zero q)
  | _ => true
  end.

Definition fneg (x : pyfloat) : pyfloat :=
  match x with
  | Fin q => Fin (Qred (- q))
  | Inf s => Inf (negb s)
  | NaN => NaN
  end.

Definition fadd (x y : pyfloat) : pyfloat :=
  match x, y with
  | Fin a, Fin b => Fin (Qred (a + b))
  | NaN, _ | _, NaN => NaN
  | Inf s, Inf t => if Bool.eqb s t then Inf s else NaN
  | Inf s, Fin _ | Fin _, Inf s => Inf s
  end.

Definition fsub (x y : pyfloat) : pyfloat := fadd x (fneg y).

Definition fmul (x y : pyfloat) : pyfloat :=
  match x, y with
  | Fin a, Fin b => Fin (Qred (a * b))
  | NaN, _ | _, NaN => NaN
  | Inf s, Inf t => Inf (xorb s t)
  | Inf s, Fin b | Fin b, Inf s =>
      if q_is_zero b then NaN else Inf (xorb s (q_is_neg b))
  end.

(** [x / y]: Python raises on a zero divisor, whatever the dividend. *)
Definition fdiv (x y : pyfloat) : result pyfloat :=
  match y with
  | Fin b =>
      if q_is_zero b then Raise ZeroDivisionError
      else Ok match x with
              | Fin a => Fin (Qred (a / b))
              | Inf s => Inf (xorb s (q_is_neg b))
              | NaN => NaN
              end
  | Inf _ => Ok match x with Fin _ => Fin 0 | _ => NaN end
  | NaN => Ok NaN
  end.

(** [x < y]. *)
Definition flt (x y : pyfloat) : bool :=
  match x, y with
  | Fin a, Fin b => match (a ?= b)%Q with Lt => true | _ => false end
  | NaN, _ | _, NaN => false
  | Inf s, Inf t => s && negb t
  | Inf s, Fin _ => s
  | Fin _, Inf t => negb t
  end.

(** [x > 0]. *)
Definition fpos (x : pyfloat) : bool := flt (Fin 0) x.

(** [sum(xs)]. *)
Definition fsum (xs : list pyfloat) : pyfloat := fold_left fadd xs (Fin 0).

(** [min(xs)] and [max(xs)]: the first element no later one beats; an empty
    sequence raises. *)
Definition fmin (xs : list pyfloat) : result pyfloat :=
  match xs with
  | [] => Raise ValueError
  | x :: xs' => Ok (fold_left (fun m y => if flt y m then y else m) xs' x)
  end.
Definition fmax (xs : list pyfloat) : result pyfloat :=
  match xs with
  | [] => Raise ValueError
  | x :: xs' => Ok (fold_left (fun m y => if flt m y then y else m) xs' x)
  end.

(** Nearest integer, ties to even. *)
Definition round_half_even (q : Q) : Z :=
  let f := Qfloor q in
  match (q - inject_Z f ?= 1 # 2)%Q with
  | Lt => f
  | Gt => f + 1
  | Eq => if Z.even f then f else f + 1
  end.

(** [round(x, ndigits)] on a float: still a float. *)
Definition py_round (x : pyfloat) (ndigits : nat) : pyfloat :=
  match x with
  | Fin q =>
      let p := inject_Z (10 ^ Z.of_nat ndigits) in
      Fin (Qred (inject_Z (round_half_even (q * p)) / p))
  | _ => x
  end.

(** [int(x)]: truncation toward zero. *)
Definition py_int (x : pyfloat) : result Z :=
  match x with
  | Fin q => Ok (Z.quot (Qnum q) (Z.pos (Qden q)))
  | Inf _ => Raise OverflowError
  | NaN => Raise ValueError
  end.

(** *** [float(text)] *)

Fixpoint read_digits (s : string) : list Z * string :=
  match s with
  | EmptyString => ([], s)
  | String c s' =>
      if is_digit c
      then let '(ds, r) := read_digits s' in (digit_val c :: ds, r)
      else ([], s)
  end.

Definition digits_value (ds : list Z) : Z := fold_left (fun a d => 10 * a + d) ds 0.

Definition read_sign (s : string) : bool * string :=
  match s with
  | String "-" r => (true, r)
  | String "+" r => (false, r)
  | _ => (false, s)
  end.

(** An underscore is accepted only between two digits. *)
Fixpoint underscores_ok (prev : option ascii) (s : string) : bool :=
  let digit_opt o := match o with Some d => is_digit d | None => false end in
  match s with
  | EmptyString => negb match prev with Some "_"%char => true | _ => false end
  | String c s' =>
      (if Ascii.eqb c "_" then digit_opt prev
       else match prev with Some "_"%char => is_digit c | _ => true end)
      && underscores_ok (Some c) s'
  end.

Definition read_inf_nan (s : string) : option pyfloat :=
  let '(neg, r) := read_sign s in
  let w := lower r in
  if String.eqb w "inf" || String.eqb w "infinity" then Some (Inf neg)
  else if String.eqb w "nan" then Some NaN
  else None.

(** Sign, digits, optional point and digits (a digit somewhere), optional
    exponent; an [e] with no digits after it is not part of the number. *)
Definition read_decimal (s : string) : option Q :=
  let '(neg, s1) := read_sign s in
  let '(ip, s2) := read_digits s1 in
  let '(fp, s3) := match s2 with
                   | String "." r => read_digits r
                   | _ => ([], s2)
                   end in
  match (ip ++ fp)%list with
  | [] => None
  | mant =>
      let '(ex, s4) :=
        match s3 with
        | String c r =>
            if Ascii.eqb (lower_char c) "e" then
              let '(eneg, r1) := read_sign r in
              let '(ed, r2) := read_digits r1 in
              match ed with
              | [] => (0, s3)
              | _ => (if eneg then - digits_value ed else digits_value ed, r2)
              end
            else (0, s3)
        | EmptyString => (0, s3)
        end in
      match s4 with
      | EmptyString =>
          let m := digits_value mant in
          let q := (inject_Z (if neg then - m else m)
                    * Qpower (inject_Z 10) (ex - Z.of_nat (List.length fp)))%Q in
          Some (Qred q)
      | _ => None
      end
  end.

(** The decimal value as a double: beyond the largest double it reads as an
    infinity, below half the smallest one as zero; in between the value is
    kept exactly. *)
Definition to_double (q : Q) : pyfloat :=
  if Qle_bool (inject_Z (2 ^ 1024 - 2 ^ 970)) (Qabs q) then Inf (q_is_neg q)
  else if Qle_bool (Qabs q) (1 # 2 ^ 1075)%positive then Fin 0
  else Fin q.

Definition py_float (s : string) : result pyfloat :=
  if underscores_ok None s then
    let t := rstrip_by is_c_space (lstrip_by is_c_space (remove_char "_" s)) in
    match read_inf_nan t with
    | Some x => Ok x
    | None =>
        match read_decimal t with
        | Some q => Ok (to_double q)
        | None => Raise ValueError
        end
    end
  else Raise ValueError.


(** ** Values a cell-reading function can be handed *)

Inductive pyval : Type :=
| PyNone
| PyStr (s : string)
| PyInt (z : Z)
| PyBytes (b : string).

Definition hex_digit (n : N) : ascii :=
  if (n <? 10)%N then ascii_of_N (48 + n) else ascii_of_N (87 + n).

Definition quote1 : ascii := ascii_of_N 39.
Definition quote2 : ascii := ascii_of_N 34.
Definition backslash : ascii := ascii_of_N 92.

Fixpoint has_char (x : ascii) (s : string) : bool :=
  match s with
  | EmptyString => false
  | String c s' => Ascii.eqb c x || has_char x s'
  end.

Fixpoint bytes_escape (q : ascii) (b : string) : string :=
  match b with
  | EmptyString => EmptyString
  | String c b' =>
      let tail := bytes_escape q b' in
      if Ascii.eqb c q || Ascii.eqb c backslash then String backslash (String c tail)
      else if Ascii.eqb c (ascii_of_N 9) then String backslash (String "t" tail)
      else if Ascii.eqb c (ascii_of_N 10) then String backslash (String "n" tail)
      else if Ascii.eqb c (ascii_of_N 13) then String backslash (String "r" tail)
      else if in_range 32 126 c then String c tail
      else String backslash (String "x" (String (hex_digit (code c / 16))
                                                (String (hex_digit (code c mod 16)) tail)))
  end.

(** [repr] of a [bytes]: double quotes only when the content holds a single
    quote and no double quote. *)
Definition bytes_repr (b : string) : string :=
  let q := if has_char quote1 b && negb (has_char quote2 b) then quote2 else quote1 in
  String "b" (String q (bytes_escape q b ++ String q EmptyString)%string).

(** [str(val)]; an [int] is taken below the interpreter's digit limit for
    the conversion. *)
Definition py_str (v : pyval) : string :=
  match v with
  | PyNone => "None"
  | PyStr s => s
  | PyInt z => NilZero.string_of_int (Z.to_int z)
  | PyBytes b => bytes_repr b
  end.

(** [val.strip()]: only [str] and [bytes] have the method. *)
Definition val_strip (v : pyval) : result pyval :=
  match v with
  | PyStr s => Ok (PyStr (strip s))
  | PyBytes b => Ok (PyBytes (rstrip_by is_c_space (lstrip_by is_c_space b)))
  | PyNone | PyInt _ => Raise AttributeError
  end.

(** ** Dates: [datetime] at midnight *)

Record datetime : Type := mkdt { year : Z; month : Z; day : Z }.

Definition is_leap (y : Z) : bool :=
  (y mod 4 =? 0) && (negb (y mod 100 =? 0) || (y mod 400 =? 0)).

Definition days_in_month (y m : Z) : Z :=
  if m =? 2 then (if is_leap y then 29 else 28)
  else if (m =? 4) || (m =? 6) || (m =? 9) || (m =? 11) then 30
  else 31.

(** The check of the [datetime] constructor ([MINYEAR = 1], [MAXYEAR = 9999]). *)
Definition valid_date (y m d : Z) : bool :=
  (1 <=? y) && (y <=? 9999) && (1 <=? m) && (m <=? 12)
  && (1 <=? d) && (d <=? days_in_month y m).

Definition days_before_year (y : Z) : Z :=
  let p := y - 1 in p * 365 + p / 4 - p / 100 + p / 400.

Fixpoint days_before_month_nat (y : Z) (m : nat) : Z :=
  match m with
  | O => 0
  | S k => days_before_month_nat y k + days_in_month y (Z.of_nat (S k))
  end.
Definition days_before_month (y m : Z) : Z := days_before_month_nat y (Z.to_nat (m - 1)).

Definition toordinal (d : datetime) : Z :=
  days_before_year (year d) + days_before_month (year d) (month d) + day d.

Definition isoweek1monday (y : Z) : Z :=
  let firstday := days_before_year y + 1 in
  let firstweekday := (firstday + 6) mod 7 in
  let week1monday := firstday - firstweekday in
  if 3 <? firstweekday then week1monday + 7 else week1monday.

(** [dt.isocalendar()]: ISO year, ISO week, ISO weekday. *)
Definition isocalendar (d : datetime) : Z * Z * Z :=
  let y := year d in
  let today := toordinal d in
  let w := (today - isoweek1monday y) / 7 in
  let wd := (today - isoweek1monday y) mod 7 in
  if w <? 0 then
    let m1 := isoweek1monday (y - 1) in
    (y - 1, (today - m1) / 7 + 1, (today - m1) mod 7 + 1)
  else if (52 <=? w) && (isoweek1monday (y + 1) <=? today) then (y + 1, 1, wd + 1)
  else (y, w + 1, wd + 1).

Definition dt_eqb (a b : datetime) : bool :=
  (year a =? year b) && (month a =? month b) && (day a =? day b).

(** [a < b] on datetimes. *)
Definition dt_ltb (a b : datetime) : bool :=
  (year a <? year b)
  || ((year a =? year b)
      && ((month a <? month b) || ((month a =? month b) && (day a <? day b)))).

Definition dt_min (xs : list datetime) : result datetime :=
  match xs with
  | [] => Raise ValueError
  | x :: xs' => Ok (fold_left (fun m y => if dt_ltb y m then y else m) xs' x)
  end.
Definition dt_max (xs : list datetime) : result datetime :=
  match xs with
  | [] => Raise ValueError
  | x :: xs' => Ok (fold_left (fun m y => if dt_ltb m y then y else m) xs' x)
  end.

(** [len(set(d.date() for d in dates))]. *)
Fixpoint distinct_dates (xs : list datetime) : list datetime :=
  match xs with
  | [] => []
  | x :: xs' =>
      let r := distinct_dates xs' in
      if existsb (dt_eqb x) r then r else x :: r
  end.

(** ** [datetime.strptime]

    [_strptime] turns the format into a regular expression (one group per
    directive, [\s+] for white space, the other characters literally, case
    ignored), takes the first match in the order a backtracking matcher
    finds it, refuses a match that leaves text over, and builds the date. *)

Inductive directive : Type := DDay | DMonth | DYear | DAbbr | DFull.

Inductive token : Type :=
| TDir (d : directive)
| TSpace
| TLit (c : ascii).

Fixpoint compile_from (prev_space : bool) (fmt : string) : option (list token) :=
  match fmt with
  | EmptyString => Some []
  | String "%" (String c r) =>
      match (match c with
             | "d" => Some DDay | "m" => Some DMonth | "Y" => Some DYear
             | "b" => Some DAbbr | "B" => Some DFull | _ => None
             end)%char with
      | Some d => option_map (cons (TDir d)) (compile_from false r)
      | None => None
      end
  | String c r =>
      if is_space c
      then (if prev_space then compile_from true r
            else option_map (cons TSpace) (compile_from true r))
      else option_map (cons (TLit c)) (compile_from false r)
  end.
Definition compile_format (fmt : string) : option (list token) := compile_from false fmt.

(** The month names of the C locale, in the order of the compiled
    alternation: as listed for [%b], longest first for [%B]. *)
Definition abbr_names : list (string * Z) :=
  [("jan", 1); ("feb", 2); ("mar", 3); ("apr", 4); ("may", 5); ("jun", 6);
   ("jul", 7); ("aug", 8); ("sep", 9); ("oct", 10); ("nov", 11); ("dec", 12)].
Definition full_names : list (string * Z) :=
  [("september", 9); ("february", 2); ("november", 11); ("december", 12);
   ("january", 1); ("october", 10); ("august", 8); ("march", 3); ("april", 4);
   ("june", 6); ("july", 7); ("may", 5)].

(** [name] matched at the head of [s], case ignored: the text after it. *)
Fixpoint ci_prefix (name s : string) : option string :=
  match name, s with
  | EmptyString, _ => Some s
  | String n name', String c s' =>
      if Ascii.eqb (lower_char c) (lower_char n) then ci_prefix name' s' else None
  | String _ _, EmptyString => None
  end.

Definition name_alts (names : list (string * Z)) (s : string) : list (Z * string) :=
  flat_map (fun '(name, v) =>
              match ci_prefix name s with
              | Some r => [(v, r)]
              | None => []
              end) names.

Definition is_digit19 (c : ascii) : bool := in_range 49 57 c.

(** [3[0-1]|[1-2]\d|0[1-9]|[1-9]| [1-9]] *)
Definition day_alts (s : string) : list (Z * string) :=
  match s with
  | String a r1 =>
      (match r1 with
       | String b r2 =>
           (if Ascii.eqb a "3" && in_range 48 49 b then [(30 + digit_val b, r2)] else [])
           ++ (if in_range 49 50 a && is_digit b
               then [(10 * digit_val a + digit_val b, r2)] else [])
           ++ (if Ascii.eqb a "0" && is_digit19 b then [(digit_val b, r2)] else [])
       | EmptyString => []
       end)
      ++ (if is_digit19 a then [(digit_val a, r1)] else [])
      ++ (match r1 with
          | String b r2 => if Ascii.eqb a " " && is_digit19 b then [(digit_val b, r2)] else []
          | EmptyString => []
          end)
  | EmptyString => []
  end.

(** [1[0-2]|0[1-9]|[1-9]] *)
Definition month_alts (s : string) : list (Z * string) :=
  match s with
  | String a r1 =>
      (match r1 with
       | String b r2 =>
           (if Ascii.eqb a "1" && in_range 48 50 b then [(10 + digit_val b, r2)] else [])
           ++ (if Ascii.eqb a "0" && is_digit19 b then [(digit_val b, r2)] else [])
       | EmptyString => []
       end)
      ++ (if is_digit19 a then [(digit_val a, r1)] else [])
  | EmptyString => []
  end.

(** [\d\d\d\d] *)
Definition year_alts (s : string) : list (Z * string) :=
  match s with
  | String a (String b (String c (String d r))) =>
      if is_digit a && is_digit b && is_digit c && is_digit d
      then [(1000 * digit_val a + 100 * digit_val b + 10 * digit_val c + digit_val d, r)]
      else []
  | _ => []
  end.

(** [\s+], greedy: the text after the longest run first. *)
Fixpoint space_alts (s : string) : list (Z * string) :=
  match s with
  | String c r => if is_space c then space_alts r ++ [(0, r)] else []
  | EmptyString => []
  end.

Definition lit_alts (c : ascii) (s : string) : list (Z * string) :=
  match s with
  | String a r => if Ascii.eqb (lower_char a) (lower_char c) then [(0, r)] else []
  | EmptyString => []
  end.

(** What a token can match at the head of [s], in the matcher's order: the
    value read and the text left. *)
Definition alts (t : token) (s : string) : list (Z * string) :=
  match t with
  | TDir DDay => day_alts s
  | TDir DMonth => month_alts s
  | TDir DYear => year_alts s
  | TDir DAbbr => name_alts abbr_names s
  | TDir DFull => name_alts full_names s
  | TSpace => space_alts s
  | TLit c => lit_alts c s
  end.

(** The groups read so far: year, month, day. *)
Record fields : Type := mkfields { f_year : Z; f_month : Z; f_day : Z }.

Definition default_fields : fields := mkfields 1900 1 1.

Definition store (t : token) (v : Z) (f : fields) : fields :=
  match t with
  | TDir DDay => mkfields (f_year f) (f_month f) v
  | TDir DMonth | TDir DAbbr | TDir DFull => mkfields (f_year f) v (f_day f)
  | TDir DYear => mkfields v (f_month f) (f_day f)
  | TSpace | TLit _ => f
  end.

Section FirstMatch.
Variable continue : string -> fields -> option (fields * string).
Variable t : token.
Variable f : fields.

Fixpoint first_match (al : list (Z * string)) : option (fields * string) :=
  match al with
  | [] => None
  | (v, r) :: al' =>
      match continue r (store t v f) with
      | Some m => Some m
      | None => first_match al'
      end
  end.
End FirstMatch.

Fixpoint match_tokens (ts : list token) (s : string) (f : fields)
  : option (fields * string) :=
  match ts with
  | [] => Some (f, s)
  | t :: ts' => first_match (match_tokens ts') t f (alts t s)
  end.

Definition strptime (s fmt : string) : result datetime :=
  match compile_format fmt with
  | None => Raise ValueError
  | Some ts =>
      match match_tokens ts s default_fields with
      | Some (f, EmptyString) =>
          if valid_date (f_year f) (f_month f) (f_day f)
          then Ok (mkdt (f_year f) (f_month f) (f_day f))
          else Raise ValueError
      | _ => Raise ValueError
      end
  end.

(** [datetime.strptime(x, fmt)]: a [TypeError] unless [x] is a [str]. *)
Definition datetime_strptime (x : pyval) (fmt : string) : result datetime :=
  match x with
  | PyStr s => strptime s fmt
  | _ => Raise TypeError
  end.

(** ** helpers.py *)

Definition FORMATS : list string :=
  ["%d-%b-%Y"; "%Y-%m-%d"; "%m/%d/%Y"; "%d/%m/%Y";
   "%d %b %Y"; "%b %d, %Y"; "%Y/%m/%d"; "%d-%m-%Y";
   "%d %B %Y"; "%B %d, %Y"].

Fixpoint parse_date_from (fmts : list string) (val : pyval) : result (option datetime) :=
  match fmts with
  | [] => Ok None
  | fmt :: rest =>
      try_except
        (x <- val_strip val ;; d <- datetime_strptime x fmt ;; Ok (Some d))
        [ValueError; AttributeError]
        (parse_date_from rest val)
  end.

Definition parse_date (val : pyval) : result (option datetime) :=
  parse_date_from FORMATS val.

Definition safe_float (val : pyval) : result pyfloat :=
  try_except
    (py_float (strip (remove_char "," (py_str val))))
    [ValueError; TypeError]
    (Ok (Fin 0)).

(** ** Dictionaries, in insertion order, and [sorted] *)

Section Dict.
Context {K V : Type}.
Variable keq : K -> K -> bool.

Fixpoint dict_get (d : list (K * V)) (k : K) : option V :=
  match d with
  | [] => None
  | (k', v) :: d' => if keq k k' then Some v else dict_get d' k
  end.

(** [d[k] = v]: an existing key keeps its place, a new one goes last. *)
Fixpoint dict_set (d : list (K * V)) (k : K) (v : V) : list (K * V) :=
  match d with
  | [] => [(k, v)]
  | (k', v') :: d' => if keq k k' then (k', v) :: d' else (k', v') :: dict_set d' k v
  end.

(** [d[k]] on a [defaultdict] whose factory gives [dflt]. *)
Definition dict_default (d : list (K * V)) (k : K) (dflt : V) : V :=
  match dict_get d k with
  | Some v => v
  | None => dflt
  end.
End Dict.

Section Sorted.
Context {A : Type}.
Variable ltb : A -> A -> bool.

Fixpoint insert_sorted (x : A) (xs : list A) : list A :=
  match xs with
  | [] => [x]
  | y :: ys => if ltb y x then y :: insert_sorted x ys else x :: y :: ys
  end.

(** [sorted(xs)]: ascending and stable. *)
Definition sorted (xs : list A) : list A := fold_right insert_sorted [] xs.

(** [x] may stand before [y]: [y] is not below [x]. *)
Definition not_after (x y : A) : Prop := ltb y x = false.
End Sorted.

(** Items compared by their keys, as [sorted(d.items())] does when no key
    repeats. *)
Definition by_key {K V : Type} (ltb : K -> K -> bool) (a b : K * V) : bool :=
  ltb (fst a) (fst b).

(** ISO (year, week) keys. *)
Definition week_key : Type := (Z * Z)%type.
Definition week_key_eqb (a b : week_key) : bool := (fst a =? fst b) && (snd a =? snd b).
Definition week_key_ltb (a b : week_key) : bool :=
  (fst a <? fst b) || ((fst a =? fst b) && (snd a <? snd b)).

(** [a if a is present]: the truth value of a float-or-None. *)
Definition truthy_opt (o : option pyfloat) : bool :=
  match o with
  | Some x => truthy x
  | None => false
  end.

(** [round(sum(xs) / len(xs), ndigits)]. *)
Definition rounded_mean (xs : list pyfloat) (ndigits : nat) : result pyfloat :=
  m <- fdiv (fsum xs) (of_int (Z.of_nat (List.length xs))) ;;
  Ok (py_round m ndigits).

(** [round((a - b) / b * 100, 1)]. *)
Definition pct_diff (a b : pyfloat) : result pyfloat :=
  q <- fdiv (fsub a b) b ;;
  Ok (py_round (fmul q (of_int 100)) 1).

(** [[safe_float(p) for p in cells if safe_float(p) > 0]]: the cells that
    parse to a positive number, in order. *)
Fixpoint positive_floats (cells : list string) : result (list pyfloat) :=
  match cells with
  | [] => Ok []
  | val :: rest =>
      p <- safe_float (PyStr val) ;;
      ps <- positive_floats rest ;;
      Ok (if fpos p then p :: ps else ps)
  end.

(** [round(sum(parts) / len(parts), 0) if parts else None]. *)
Definition mean_or_none (parts : list pyfloat) : result (option pyfloat) :=
  match parts with
  | [] => Ok None
  | _ => m <- rounded_mean parts 0 ;; Ok (Some m)
  end.

(** [p if p > 0 else None] on [p = safe_float(val)]. *)
Definition positive_or_none (val : string) : result (option pyfloat) :=
  p <- safe_float (PyStr val) ;;
  Ok (if fpos p then Some p else None).

(** [{h.strip(): i for i, h in enumerate(header)}]: a repeated header text
    keeps its last column. *)
Fixpoint col_map_from (i : nat) (header : list string) (m : list (string * nat))
  : list (string * nat) :=
  match header with
  | [] => m
  | h :: rest => col_map_from (S i) rest (dict_set String.eqb m (strip h) i)
  end.
Definition col_map_of (header : list string) : list (string * nat) :=
  col_map_from 0 header [].

(** [col_map.get(name, dflt)]. *)
Definition col_get (m : list (string * nat)) (name : string) (dflt : nat) : nat :=
  dict_default String.eqb m name dflt.

(** ** weekly_purchase.py *)

Module weekly_purchase.

Definition COL_DATE : nat := 0.
Definition COL_BIRDS : nat := 5.
Definition COL_CHICKEN_WT : nat := 8.
Definition COL_GIZZARD_WT : nat := 9.

(** A value of the [weeks] defaultdict. *)
Record week_acc : Type := mkacc {
  acc_birds : Z;
  acc_chicken_wt : pyfloat;
  acc_gizzard_wt : pyfloat;
  acc_dates : list datetime
}.
Definition week_default : week_acc := mkacc 0 (Fin 0) (Fin 0) [].

Definition weeks_t : Type := list (week_key * week_acc).

(** The body of the first loop of [aggregate_weekly]. *)
Definition weekly_step (current_year : Z) (weeks : weeks_t) (row : list string)
  : result weeks_t :=
  c_date <- py_index row COL_DATE ;;
  dt <- parse_date (PyStr c_date) ;;
  match dt with
  | None => Ok weeks
  | Some dt =>
      if negb (year dt =? current_year) then Ok weeks
      else
        let '(iso_year, iso_week, _) := isocalendar dt in
        let key := (iso_year, iso_week) in
        let w := dict_default week_key_eqb weeks key week_default in
        c_birds <- py_index row COL_BIRDS ;;
        b <- (if nonempty c_birds
              then x <- safe_float (PyStr c_birds) ;; py_int x
              else Ok 0) ;;
        c_chicken <- py_index row COL_CHICKEN_WT ;;
        ch <- safe_float (PyStr c_chicken) ;;
        c_gizzard <- py_index row COL_GIZZARD_WT ;;
        gz <- safe_float (PyStr c_gizzard) ;;
        Ok (dict_set week_key_eqb weeks key
              (mkacc (acc_birds w + b)
                     (fadd (acc_chicken_wt w) ch)
                     (fadd (acc_gizzard_wt w) gz)
                     (acc_dates w ++ [dt])))
  end.

Definition group_weeks (current_year : Z) (data : list (list string)) : result weeks_t :=
  for_each (weekly_step current_year) data [].

(** A bucket as the second loop appends it. *)
Record week_stats : Type := mkstats {
  w_year : Z;
  w_week : Z;
  w_start : datetime;
  w_end : datetime;
  purchase_days : Z;
  birds : Z;
  chicken_wt : pyfloat;
  gizzard_wt : pyfloat;
  total_wt : pyfloat;
  avg_birds_day : pyfloat;
  avg_wt_day : pyfloat
}.

Definition emit_week (kv : week_key * week_acc) : result week_stats :=
  let '((yr, wk), vals) := kv in
  mn <- dt_min (acc_dates vals) ;;
  mx <- dt_max (acc_dates vals) ;;
  let purchase_days := Z.of_nat (List.length (distinct_dates (acc_dates vals))) in
  let birds := acc_birds vals in
  let chicken_wt := py_round (acc_chicken_wt vals) 2 in
  let gizzard_wt := py_round (acc_gizzard_wt vals) 2 in
  let total_wt := py_round (fadd (acc_chicken_wt vals) (acc_gizzard_wt vals)) 2 in
  a <- fdiv (of_int birds) (of_int purchase_days) ;;
  b <- fdiv total_wt (of_int purchase_days) ;;
  Ok (mkstats yr wk mn mx purchase_days birds chicken_wt gizzard_wt total_wt
              (py_round a 1) (py_round b 2)).

Fixpoint emit_weeks (items : list (week_key * week_acc)) : result (list week_stats) :=
  match items with
  | [] => Ok []
  | kv :: rest => w <- emit_week kv ;; ws <- emit_weeks rest ;; Ok (w :: ws)
  end.

(** A bucket after the third loop has set its two week-over-week keys. *)
Record week_row : Type := mkrow {
  stats : week_stats;
  birds_wow : option pyfloat;
  wt_wow : option pyfloat
}.

(** [round((cur - prev) / prev * 100, 1) if prev else None]. *)
Definition wow (cur prev : pyfloat) : result (option pyfloat) :=
  if truthy prev then p <- pct_diff cur prev ;; Ok (Some p) else Ok None.

(** The third loop; [prev] is [result[i - 1]], absent at [i = 0]. *)
Fixpoint add_wow (prev : option week_stats) (ws : list week_stats)
  : result (list week_row) :=
  match ws with
  | [] => Ok []
  | w :: rest =>
      r <- match prev with
           | None => Ok (mkrow w None None)
           | Some p =>
               bw <- wow (avg_birds_day w) (avg_birds_day p) ;;
               ww <- wow (avg_wt_day w) (avg_wt_day p) ;;
               Ok (mkrow w bw ww)
           end ;;
      rs <- add_wow (Some w) rest ;;
      Ok (r :: rs)
  end.

Definition aggregate_weekly (current_year : Z) (data : list (list string))
  : result (list week_row) :=
  weeks <- group_weeks current_year data ;;
  result <- emit_weeks (sorted (by_key week_key_ltb) weeks) ;;
  add_wow None result.

End weekly_purchase.

(** ** doc_price.py *)

Module doc_price.

(** One appended entry of [weeks[key]["prices"]]. *)
Record day_price : Type := mkday { avg : pyfloat; min : pyfloat; max : pyfloat }.

Record week_acc : Type := mkacc { acc_prices : list day_price; acc_dates : list datetime }.
Definition week_default : week_acc := mkacc [] [].

Definition weeks_t : Type := list (week_key * week_acc).

Definition price_step (current_year : Z) (weeks : weeks_t) (row : list string)
  : result weeks_t :=
  c_date <- py_index row 0 ;;
  dt <- parse_date (PyStr c_date) ;;
  match dt with
  | None => Ok weeks
  | Some dt =>
      if negb (year dt =? current_year) then Ok weeks
      else
        day_prices <- positive_floats (tl row) ;;
        match day_prices with
        | [] => Ok weeks
        | _ =>
            let '(iso_year, iso_week, _) := isocalendar dt in
            let key := (iso_year, iso_week) in
            let w := dict_default week_key_eqb weeks key week_default in
            a <- fdiv (fsum day_prices) (of_int (Z.of_nat (List.length day_prices))) ;;
            lo <- fmin day_prices ;;
            hi <- fmax day_prices ;;
            Ok (dict_set week_key_eqb weeks key
                  (mkacc (acc_prices w ++ [mkday a lo hi]) (acc_dates w ++ [dt])))
        end
  end.

Definition group_weeks (current_year : Z) (data : list (list string)) : result weeks_t :=
  for_each (price_step current_year) data [].

Record week_stats : Type := mkstats {
  w_year : Z;
  w_week : Z;
  w_start : datetime;
  w_end : datetime;
  entries : Z;
  avg_price : pyfloat;
  min_price : pyfloat;
  max_price : pyfloat;
  spread : pyfloat
}.

Definition emit_week (kv : week_key * week_acc) : result week_stats :=
  let '((yr, wk), vals) := kv in
  mn_date <- dt_min (acc_dates vals) ;;
  mx_date <- dt_max (acc_dates vals) ;;
  let entries := Z.of_nat (List.length (acc_prices vals)) in
  let all_avgs := map avg (acc_prices vals) in
  let all_mins := map min (acc_prices vals) in
  let all_maxs := map max (acc_prices vals) in
  week_avg <- rounded_mean all_avgs 0 ;;
  week_min <- fmin all_mins ;;
  week_max <- fmax all_maxs ;;
  Ok (mkstats yr wk mn_date mx_date entries week_avg week_min week_max
              (py_round (fsub week_max week_min) 0)).

Fixpoint emit_weeks (items : list (week_key * week_acc)) : result (list week_stats) :=
  match items with
  | [] => Ok []
  | kv :: rest => w <- emit_week kv ;; ws <- emit_weeks rest ;; Ok (w :: ws)
  end.

Record week_row : Type := mkrow {
  stats : week_stats;
  wow_pct : option pyfloat;
  wow_abs : option pyfloat
}.

(** The week-over-week loop; [prev] is [result[i - 1]], absent at [i = 0]. *)
Fixpoint add_wow (prev : option week_stats) (ws : list week_stats)
  : result (list week_row) :=
  match ws with
  | [] => Ok []
  | w :: rest =>
      r <- match prev with
           | None => Ok (mkrow w None None)
           | Some p =>
               if truthy (avg_price p) then
                 pct <- pct_diff (avg_price w) (avg_price p) ;;
                 Ok (mkrow w (Some pct)
                           (Some (py_round (fsub (avg_price w) (avg_price p)) 0)))
               else Ok (mkrow w None None)
           end ;;
      rs <- add_wow (Some w) rest ;;
      Ok (r :: rs)
  end.

Definition aggregate_weekly_prices (current_year : Z) (data : list (list string))
  : result (list week_row) :=
  weeks <- group_weeks current_year data ;;
  result <- emit_weeks (sorted (by_key week_key_ltb) weeks) ;;
  add_wow None result.

End doc_price.

(** ** competitor_selling.py *)

Module competitor_selling.

Definition LOCATION_NAMES : list (string * string) :=
  [("Abuja_Entry", "Abuja"); ("Kaduna_Entry", "Kaduna"); ("Kano_Entry", "Kano")].

Inductive product : Type := WholeChicken | Gizzard.

Definition product_name (p : product) : string :=
  match p with
  | WholeChicken => "Whole Chicken"
  | Gizzard => "Gizzard"
  end.

Definition PRODUCTS : list product := [WholeChicken; Gizzard].

Definition parse_price (val : string) : result (option pyfloat) :=
  if negb (nonempty val) || negb (nonempty (strip val)) then Ok None
  else
    let val := strip val in
    if contains "/" val then
      parts <- positive_floats (split "/" val) ;;
      mean_or_none parts
    else positive_or_none val.

(** A fetched record: [price r p] is [r[product_name p]]. *)
Record record : Type := mkrec {
  date : datetime;
  location : string;
  brand : string;
  price : product -> option pyfloat
}.

(** [record[product_name] = ...] for one product of one row. *)
Definition product_cell (col_map : list (string * nat)) (row : list string) (p : product)
  : result (option pyfloat) :=
  match dict_get String.eqb col_map (product_name p) with
  | Some idx =>
      if (idx <? List.length row)%nat
      then c <- py_index row idx ;; parse_price c
      else Ok None
  | None => Ok None
  end.

Definition fetch_step (current_year : Z) (loc : string) (col_map : list (string * nat))
  (all_records : list record) (row : list string) : result (list record) :=
  c_date <- py_index row 0 ;;
  dt <- parse_date (PyStr c_date) ;;
  match dt with
  | None => Ok all_records
  | Some dt =>
      if negb (year dt =? current_year) then Ok all_records
      else
        brand <- (if (1 <? List.length row)%nat
                  then c <- py_index row 1 ;; Ok (strip c)
                  else Ok EmptyString) ;;
        if negb (nonempty brand) then Ok all_records
        else
          wc <- product_cell col_map row WholeChicken ;;
          gz <- product_cell col_map row Gizzard ;;
          Ok (all_records ++
              [mkrec dt loc brand
                     (fun p => match p with WholeChicken => wc | Gizzard => gz end)])%list
  end.

(** One pass of the loop over the configured tabs; [rows] is what
    [ws.get_all_values()] returns for the tab. *)
Definition fetch_tab (current_year : Z) (all_records : list record)
  (tab : string * list (list string)) : result (list record) :=
  let '(tab_name, rows) := tab in
  let tab_name := strip tab_name in
  if negb (nonempty tab_name) then Ok all_records
  else
    let loc := dict_default String.eqb LOCATION_NAMES tab_name tab_name in
    header <- py_index rows 0 ;;
    for_each (fetch_step current_year loc (col_map_of header)) (tl rows) all_records.

Definition fetch_competitor_data (current_year : Z)
  (tabs : list (string * list (list string))) : result (list record) :=
  for_each (fetch_tab current_year) tabs [].

Definition group_key : Type := (datetime * string)%type.
Definition group_key_eqb (a b : group_key) : bool :=
  dt_eqb (fst a) (fst b) && String.eqb (snd a) (snd b).
Definition group_key_ltb (a b : group_key) : bool :=
  dt_ltb (fst a) (fst b) || (dt_eqb (fst a) (fst b) && String.ltb (snd a) (snd b)).

Definition product_eqb (a b : product) : bool :=
  match a, b with
  | WholeChicken, WholeChicken | Gizzard, Gizzard => true
  | _, _ => false
  end.

(** A value of [groups]: two [defaultdict(list)] keyed by product and the
    set of competitor brands. *)
Record group : Type := mkgroup {
  pullus : product -> list pyfloat;
  competitors : product -> list pyfloat;
  comp_brands : list string
}.
Definition group_default : group := mkgroup (fun _ => []) (fun _ => []) [].

Definition groups_t : Type := list (group_key * group).

(** [d[p].append(x)]. *)
Definition append_at (d : product -> list pyfloat) (p : product) (x : pyfloat)
  : product -> list pyfloat :=
  fun p' => if product_eqb p p' then d p' ++ [x] else d p'.

(** [s.add(b)]. *)
Definition set_add (b : string) (s : list string) : list string :=
  if existsb (String.eqb b) s then s else s ++ [b].

Definition is_pullus (r : record) : bool := String.eqb (lower (brand r)) "pullus".

(** The body of the inner loop over [PRODUCTS]. *)
Definition add_price (r : record) (groups : groups_t) (p : product) : groups_t :=
  match price r p with
  | None => groups
  | Some x =>
      let key := (date r, location r) in
      let g := dict_default group_key_eqb groups key group_default in
      dict_set group_key_eqb groups key
        (if is_pullus r
         then mkgroup (append_at (pullus g) p x) (competitors g) (comp_brands g)
         else mkgroup (pullus g) (append_at (competitors g) p x)
                      (set_add (brand r) (comp_brands g)))
  end.

Definition group_records (records : list record) : groups_t :=
  fold_left (fun groups r => fold_left (add_price r) PRODUCTS groups) records [].

(** The three keys a product contributes to an output row. *)
Record product_cols : Type := mkcols {
  pullus_price : option pyfloat;
  comp_avg : option pyfloat;
  diff_pct : option pyfloat
}.

Definition product_cols_of (pullus_prices comp_prices : list pyfloat)
  : result product_cols :=
  pullus_price <- mean_or_none pullus_prices ;;
  comp_avg <- mean_or_none comp_prices ;;
  d <- match pullus_price, comp_avg with
       | Some p, Some c =>
           if truthy p && truthy c && fpos c
           then x <- pct_diff p c ;; Ok (Some x)
           else Ok None
       | _, _ => Ok None
       end ;;
  Ok (mkcols pullus_price comp_avg d).

Record agg_row : Type := mkagg {
  a_date : datetime;
  a_location : string;
  a_comp_brands : Z;
  whole_chicken : product_cols;
  gizzard : product_cols
}.

Definition cols (row : agg_row) (p : product) : product_cols :=
  match p with
  | WholeChicken => whole_chicken row
  | Gizzard => gizzard row
  end.

Definition emit_row (kv : group_key * group) : result agg_row :=
  let '((dt, loc), vals) := kv in
  wc <- product_cols_of (pullus vals WholeChicken) (competitors vals WholeChicken) ;;
  gz <- product_cols_of (pullus vals Gizzard) (competitors vals Gizzard) ;;
  Ok (mkagg dt loc (Z.of_nat (List.length (comp_brands vals))) wc gz).

Fixpoint emit_rows (items : list (group_key * group)) : result (list agg_row) :=
  match items with
  | [] => Ok []
  | kv :: rest => r <- emit_row kv ;; rs <- emit_rows rest ;; Ok (r :: rs)
  end.

Definition aggregate_by_date_location (records : list record) : result (list agg_row) :=
  emit_rows (sorted (by_key group_key_ltb) (group_records records)).

End competitor_selling.

(** ** competitor_buying.py *)

Module competitor_buying.

Definition parse_buying_price (val : string) : result (option pyfloat) :=
  if negb (nonempty val) || negb (nonempty (strip val)) then Ok None
  else
    let val := remove_char "," (strip val) in
    if contains " - " val then
      parts <- positive_floats (split " - " val) ;;
      mean_or_none parts
    else positive_or_none val.

Record record : Type := mkrec {
  date : datetime;
  state : string;
  competitor : string;
  product_type : string;
  comp_price : option pyfloat;
  pullus_price : option pyfloat;
  notes : string
}.

(** [any("Entry ID" in cell for cell in row)]. *)
Definition is_header (row : list string) : bool := existsb (contains "Entry ID") row.

(** The index of the first header row, if any. *)
Fixpoint find_header (i : nat) (rows : list (list string)) : option nat :=
  match rows with
  | [] => None
  | row :: rest => if is_header row then Some i else find_header (S i) rest
  end.

Definition fetch_step (current_year : Z) (col_map : list (string * nat))
  (records : list record) (row : list string) : result (list record) :=
  c_date <- py_index row (col_get col_map "Date" 1) ;;
  dt <- parse_date (PyStr c_date) ;;
  match dt with
  | None => Ok records
  | Some dt =>
      if negb (year dt =? current_year) then Ok records
      else
        c_comp <- py_index row (col_get col_map "Competitor Name" 5) ;;
        let competitor := strip c_comp in
        c_type <- py_index row (col_get col_map "Product Type" 6) ;;
        let product_type := title (strip c_type) in
        c_cprice <- py_index row (col_get col_map "Competitor Price (N)" 7) ;;
        comp_price <- parse_buying_price c_cprice ;;
        c_pprice <- py_index row (col_get col_map "Pullus Price (N)" 8) ;;
        pullus_price <- parse_buying_price c_pprice ;;
        notes <- (if (col_get col_map "Notes" 9 <? List.length row)%nat
                  then c <- py_index row (col_get col_map "Notes" 9) ;; Ok (strip c)
                  else Ok EmptyString) ;;
        c_state <- py_index row (col_get col_map "State" 4) ;;
        let state := strip c_state in
        if negb (nonempty competitor) then Ok records
        else Ok (records ++
                 [mkrec dt state competitor product_type comp_price pullus_price notes])%list
  end.

(** [rows] is what [ws.get_all_values()] returns. *)
Definition fetch_buying_data (current_year : Z) (rows : list (list string))
  : result (list record) :=
  match find_header 0 rows with
  | None => Ok []
  | Some header_idx =>
      header <- py_index rows header_idx ;;
      let data := skipn (header_idx + 1) rows in
      for_each (fetch_step current_year (col_map_of header)) data []
  end.

Record summary : Type := mksummary {
  avg_pullus : pyfloat;
  avg_comp : pyfloat;
  diff_pct : pyfloat;
  diff_abs : pyfloat;
  total_entries : Z;
  dressed_entries : Z;
  live_entries : Z;
  live_comp_prices : list pyfloat
}.

(** [[r[field] for r in rs if r.get(field)]]: the prices that are present
    and not zero. *)
Definition truthy_prices (field : record -> option pyfloat) (rs : list record)
  : list pyfloat :=
  flat_map (fun r => match field r with
                     | Some x => if truthy x then [x] else []
                     | None => []
                     end) rs.

(** [round(sum(xs) / len(xs), 0) if xs else 0]; the integer [0] of the
    source is the float [0.0] here. *)
Definition mean_or_zero (xs : list pyfloat) : result pyfloat :=
  match xs with
  | [] => Ok (Fin 0)
  | _ => rounded_mean xs 0
  end.

Definition compute_summary (records : list record) : result summary :=
  let dressed := filter (fun r => String.eqb (product_type r) "Dressed Birds") records in
  let live := filter (fun r => String.eqb (product_type r) "Live Birds") records in
  let pullus_prices := truthy_prices pullus_price dressed in
  let comp_prices := truthy_prices comp_price dressed in
  avg_pullus <- mean_or_zero pullus_prices ;;
  avg_comp <- mean_or_zero comp_prices ;;
  diff_pct <- (if truthy avg_comp then pct_diff avg_pullus avg_comp else Ok (Fin 0)) ;;
  let diff_abs := py_round (fsub avg_pullus avg_comp) 0 in
  Ok (mksummary avg_pullus avg_comp diff_pct diff_abs
                (Z.of_nat (List.length records))
                (Z.of_nat (List.length dressed))
                (Z.of_nat (List.length live))
                (truthy_prices comp_price live)).

End competitor_buying.

(** ** dashboard.py: the competitor-buying step of [main] *)

Module dashboard.

Inductive step_outcome : Type :=
| Unchanged    (* "No changes detected, skipping" *)
| NoData       (* "No current-year data found, skipping" *)
| Built.       (* build_dashboard ran and the sheet was updated *)

(** [changed] is what [data_changed("competitor_buying", ...)] answers. *)
Definition buying_step (changed : bool) (buying_records : list competitor_buying.record)
  : step_outcome :=
  if changed then
    match buying_records with
    | [] => NoData
    | _ => Built
    end
  else Unchanged.

End dashboard.


(** ** dashboard.py: [main] and the fetch functions it starts from

    The Google Sheets client is left out: a fetch function takes what
    [ws.get_all_values()] returns, and [main] takes the four sheets it reads
    and the hash file, [None] when there is no such file; a file that is
    there holds what [save_hashes] wrote, a digest for each of its keys.
    The digest of [compute_hash] is a function of the data; it, the run mode
    [IS_CI] and the four [build_dashboard] functions, which write to the
    dashboard and may raise, are variables.  Printing is left out. *)

Module dashboard_run.

(** What [main] hands to [data_changed]. *)
Inductive payload : Type :=
| RowData (rows : list (list string))
| SellingData (records : list competitor_selling.record)
| BuyingData (records : list competitor_buying.record).

(** The hash file as [save_hashes] writes it: a digest for each key. *)
Definition hashes : Type := list (string * string).

Record sheets : Type := mksheets {
  purchase_rows : list (list string);
  doc_price_rows : list (list string);
  selling_tabs : list (string * list (list string));
  buying_rows : list (list string)
}.

(** [new_hashes] and [updated], the two objects [main] fills in. *)
Record run_state : Type := mkstate {
  new_hashes : hashes;
  updated : list string
}.

(** [weekly_purchase.fetch_raw_data]. *)
Definition fetch_raw_data (rows : list (list string)) : result (list (list string)) :=
  header <- py_index rows 0 ;;
  let data := tl rows in
  Ok data.

(** [doc_price.fetch_price_data]. *)
Definition fetch_price_data (rows : list (list string))
  : result (list (list string) * list string) :=
  header <- py_index rows 0 ;;
  let data := tl rows in
  let suppliers := tl header in
  Ok (data, suppliers).

Definition load_hashes (hash_file : option hashes) : hashes :=
  match hash_file with
  | Some h => h
  | None => []
  end.

Section Main.
Variable compute_hash : payload -> string.
Variable IS_CI : bool.
Variable current_year : Z.
Variable build_weekly_purchase : list weekly_purchase.week_row -> result unit.
Variable build_doc_price : list doc_price.week_row -> result unit.
Variable build_competitor_selling : list competitor_selling.agg_row -> result unit.
Variable build_competitor_buying : list competitor_buying.record -> result unit.

(** The answer and [new_hashes] after [new_hashes[key] = h]. *)
Definition data_changed (key : string) (data : payload) (prev_hashes new_hashes : hashes)
  : bool * hashes :=
  let h := compute_hash data in
  let new_hashes := dict_set String.eqb new_hashes key h in
  if negb IS_CI then (true, new_hashes)
  else
    match dict_get String.eqb prev_hashes key with
    | Some h' => if negb (String.eqb h h') then (true, new_hashes) else (false, new_hashes)
    | None => (true, new_hashes)
    end.

Definition weekly_purchase_step (sh : sheets) (prev_hashes : hashes) (st : run_state)
  : result run_state :=
  raw <- fetch_raw_data (purchase_rows sh) ;;
  let (changed, new_hashes) :=
    data_changed "weekly_purchase" (RowData raw) prev_hashes (new_hashes st) in
  if changed then
    weeks <- weekly_purchase.aggregate_weekly current_year raw ;;
    match weeks with
    | [] => Ok (mkstate new_hashes (updated st))
    | _ :: _ =>
        _ <- build_weekly_purchase weeks ;;
        Ok (mkstate new_hashes (updated st ++ ["Weekly Purchase"]))
    end
  else Ok (mkstate new_hashes (updated st)).

Definition doc_price_step (sh : sheets) (prev_hashes : hashes) (st : run_state)
  : result run_state :=
  fetched <- fetch_price_data (doc_price_rows sh) ;;
  let price_data := fst fetched in
  let (changed, new_hashes) :=
    data_changed "doc_price" (RowData price_data) prev_hashes (new_hashes st) in
  if changed then
    price_weeks <- doc_price.aggregate_weekly_prices current_year price_data ;;
    match price_weeks with
    | [] => Ok (mkstate new_hashes (updated st))
    | _ :: _ =>
        _ <- build_doc_price price_weeks ;;
        Ok (mkstate new_hashes (updated st ++ ["DOC Price Trends"]))
    end
  else Ok (mkstate new_hashes (updated st)).

Definition competitor_selling_step (sh : sheets) (prev_hashes : hashes) (st : run_state)
  : result run_state :=
  comp_records <- competitor_selling.fetch_competitor_data current_year (selling_tabs sh) ;;
  let (changed, new_hashes) :=
    data_changed "competitor_selling" (SellingData comp_records) prev_hashes
                 (new_hashes st) in
  if changed then
    comp_aggregated <- competitor_selling.aggregate_by_date_location comp_records ;;
    match comp_aggregated with
    | [] => Ok (mkstate new_hashes (updated st))
    | _ :: _ =>
        _ <- build_competitor_selling comp_aggregated ;;
        Ok (mkstate new_hashes (updated st ++ ["Competitor Selling Prices"]))
    end
  else Ok (mkstate new_hashes (updated st)).

Definition competitor_buying_step (sh : sheets) (prev_hashes : hashes) (st : run_state)
  : result run_state :=
  buying_records <- competitor_buying.fetch_buying_data current_year (buying_rows sh) ;;
  let (changed, new_hashes) :=
    data_changed "competitor_buying" (BuyingData buying_records) prev_hashes
                 (new_hashes st) in
  if changed then
    match buying_records with
    | [] => Ok (mkstate new_hashes (updated st))
    | _ :: _ =>
        _ <- build_competitor_buying buying_records ;;
        Ok (mkstate new_hashes (updated st ++ ["Competitor Buying Prices"]))
    end
  else Ok (mkstate new_hashes (updated st)).

(** [main]: the sheets it updated and the hash file it leaves. *)
Definition main (sh : sheets) (hash_file : option hashes)
  : result (list string * option hashes) :=
  let prev_hashes := if IS_CI then load_hashes hash_file else [] in
  st <- weekly_purchase_step sh prev_hashes (mkstate [] []) ;;
  st <- doc_price_step sh prev_hashes st ;;
  st <- competitor_selling_step sh prev_hashes st ;;
  st <- competitor_buying_step sh prev_hashes st ;;
  Ok (updated st, if IS_CI then Some (new_hashes st) else hash_file).

End Main.
End dashboard_run.


(** ** The specification's formulas *)

(** The week-over-week rule: [o] is the percentage change from [prev] to
    [cur], [(cur - prev) / prev * 100] rounded to one decimal, and absent
    when [prev] is zero. *)
Definition pct_change (cur prev : pyfloat) (o : option pyfloat) : Prop :=
  if truthy prev
  then exists q, fdiv (fsub cur prev) prev = Ok q
                 /\ o = Some (py_round (fmul q (of_int 100)) 1)
  else o = None.

(** The week-over-week keys of a weekly-purchase bucket, given the bucket
    before it in the output. *)
Definition purchase_wow_rule (prev : option weekly_purchase.week_stats)
  (r : weekly_purchase.week_row) : Prop :=
  match prev with
  | None => weekly_purchase.birds_wow r = None /\ weekly_purchase.wt_wow r = None
  | Some p =>
      pct_change (weekly_purchase.avg_birds_day (weekly_purchase.stats r))
                 (weekly_purchase.avg_birds_day p) (weekly_purchase.birds_wow r)
      /\ pct_change (weekly_purchase.avg_wt_day (weekly_purchase.stats r))
                    (weekly_purchase.avg_wt_day p) (weekly_purchase.wt_wow r)
  end.

(** The same for a weekly-price bucket: the absolute change is present exactly
    when the percentage is. *)
Definition price_wow_rule (prev : option doc_price.week_stats)
  (r : doc_price.week_row) : Prop :=
  match prev with
  | None => doc_price.wow_pct r = None /\ doc_price.wow_abs r = None
  | Some p =>
      let cur := doc_price.avg_price (doc_price.stats r) in
      pct_change cur (doc_price.avg_price p) (doc_price.wow_pct r)
      /\ doc_price.wow_abs r =
         if truthy (doc_price.avg_price p)
         then Some (py_round (fsub cur (doc_price.avg_price p)) 0)
         else None
  end.

(** [rule] holds of every row of a series, each against the one before it. *)
Fixpoint chained {R T : Type} (get : R -> T) (rule : option T -> R -> Prop)
  (prev : option T) (rows : list R) : Prop :=
  match rows with
  | [] => True
  | r :: rest => rule prev r /\ chained get rule (Some (get r)) rest
  end.



(** Consecutive keys of a series strictly ascend. *)
Definition ascending {K : Type} (ltb : K -> K -> bool) (keys : list K) : Prop :=
  forall i a b, nth_error keys i = Some a -> nth_error keys (S i) = Some b ->
                ltb a b = true.

(** The arithmetic and the parsers stay folded under [simpl]. *)
Arguments fdiv : simpl never.
Arguments fadd : simpl never.
Arguments fsub : simpl never.
Arguments fmul : simpl never.
Arguments fsum : simpl never.
Arguments py_round : simpl never.
Arguments py_int : simpl never.
Arguments py_float : simpl never.
Arguments safe_float : simpl never.
Arguments parse_date : simpl never.
Arguments strptime : simpl never.
Arguments isocalendar : simpl never.
Arguments strip : simpl never.
Arguments of_int : simpl never.
Arguments rounded_mean : simpl never.
Arguments pct_diff : simpl never.
Arguments weekly_purchase.emit_week : simpl never.
Arguments doc_price.emit_week : simpl never.
Arguments competitor_selling.emit_row : simpl never.

(** The row filter's condition on a date: it is the parse of the date cell
    of one of the source rows, and its year is the current year. *)
Definition current_year_date (current_year : Z) (data : list (list string))
  (date_col : list string -> nat) (d : datetime) : Prop :=
  year d = current_year
  /\ exists row cell,
       In row data /\ nth_error row (date_col row) = Some cell
       /\ parse_date (PyStr cell) = Ok (Some d).

(** The percentage differential of the specification: [o] is
    [(own - comp) / comp * 100] rounded to one decimal. *)
Definition differential (own comp : pyfloat) (o : option pyfloat) : Prop :=
  exists q, fdiv (fsub own comp) comp = Ok q
            /\ o = Some (py_round (fmul q (of_int 100)) 1).


(** A mean as the claim words it: absent over no values, never zero for
    their lack. *)
Definition claimed_mean (xs : list pyfloat) (o : option pyfloat) : Prop :=
  match xs with
  | [] => o = None
  | _ => exists m, rounded_mean xs 0 = Ok m /\ o = Some m
  end.

(** A mean as [compute_summary] reports it: zero over no values. *)
Definition zero_or_mean (xs : list pyfloat) (m : pyfloat) : Prop :=
  match xs with
  | [] => m = Fin 0
  | _ => rounded_mean xs 0 = Ok m
  end.


(** A float that is zero, positive or plus infinity. *)
Definition fnonneg (x : pyfloat) : bool :=
  match x with
  | Fin q => Qle_bool 0 q
  | Inf s => negb s
  | NaN => false
  end.



(** The present prices of product [p] in the records of the bucket [key]:
    those of the Pullus brand ([own = true]) or of the competitors. *)
Definition contributing (records : list competitor_selling.record)
  (key : competitor_selling.group_key) (own : bool) (p : competitor_selling.product)
  : list pyfloat :=
  flat_map (fun r =>
              if competitor_selling.group_key_eqb
                   key (competitor_selling.date r, competitor_selling.location r)
                 && Bool.eqb (competitor_selling.is_pullus r) own
              then match competitor_selling.price r p with
                   | Some x => [x]
                   | None => []
                   end
              else []) records.

(** The prices of the dressed-birds records that count for a mean of
    [compute_summary]: present and not zero. *)
Definition dressed_prices (field : competitor_buying.record -> option pyfloat)
  (records : list competitor_buying.record) : list pyfloat :=
  flat_map (fun r =>
              if String.eqb (competitor_buying.product_type r) "Dressed Birds"
              then match field r with
                   | Some x => if truthy x then [x] else []
                   | None => []
                   end
              else []) records.

(** Every character of [s] satisfies [P]. *)
Fixpoint all_chars (P : ascii -> bool) (s : string) : bool :=
  match s with
  | EmptyString => true
  | String c s' => P c && all_chars P s'
  end.


(** ** Writing a date: [datetime.strftime]

    The directives of [parse_date]'s patterns in the C locale.  [%Y] is
    written with four digits, which is what every platform does for the
    years from 1000 on. *)

Definition digit_char (n : Z) : ascii := ascii_of_N (48 + Z.to_N n).

Definition two_digits (n : Z) : string :=
  String (digit_char (n / 10)) (String (digit_char (n mod 10)) EmptyString).

Definition four_digits (n : Z) : string :=
  String (digit_char (n / 1000))
    (String (digit_char (n / 100 mod 10))
       (String (digit_char (n / 10 mod 10))
          (String (digit_char (n mod 10)) EmptyString))).

Definition month_abbr (m : Z) : string :=
  nth (Z.to_nat (m - 1))
    ["Jan"; "Feb"; "Mar"; "Apr"; "May"; "Jun"; "Jul"; "Aug"; "Sep"; "Oct"; "Nov"; "Dec"]
    EmptyString.

Definition month_name (m : Z) : string :=
  nth (Z.to_nat (m - 1))
    ["January"; "February"; "March"; "April"; "May"; "June"; "July"; "August";
     "September"; "October"; "November"; "December"]
    EmptyString.

Definition format_directive (c : ascii) (dt : datetime) : string :=
  match c with
  | "d" => two_digits (day dt)
  | "m" => two_digits (month dt)
  | "Y" => four_digits (year dt)
  | "b" => month_abbr (month dt)
  | "B" => month_name (month dt)
  | _ => String "%" (String c EmptyString)
  end%char.

Fixpoint strftime (fmt : string) (dt : datetime) : string :=
  match fmt with
  | EmptyString => EmptyString
  | String "%" (String c r) => (format_directive c dt ++ strftime r dt)%string
  | String c r => String c (strftime r dt)
  end.

(** The dates [strftime] is read back from: valid, year of four digits. *)
Definition encodable (dt : datetime) : Prop :=
  valid_date (year dt) (month dt) (day dt) = true /\ 1000 <= year dt.

(** ** The shape of a text

    What the compiled patterns can tell apart: a digit, a letter, white
    space, or one given other character.  [shape_match] holds of every
    text some head of which the pattern matches. *)

Inductive kind : Type :=
| KDigit
| KAlpha
| KSpace
| KOther (c : ascii).

Definition kind_of (c : ascii) : kind :=
  if is_digit c then KDigit
  else if is_alpha c then KAlpha
  else if is_space c then KSpace
  else KOther c.

Fixpoint shape (s : string) : list kind :=
  match s with
  | EmptyString => []
  | String c r => kind_of c :: shape r
  end.

Fixpoint drop_letters (n : nat) (sh : list kind) : list (list kind) :=
  match n with
  | O => [sh]
  | S k => match sh with KAlpha :: r => drop_letters k r | _ => [] end
  end.

Definition shape_names (names : list (string * Z)) (sh : list kind) : list (list kind) :=
  flat_map (fun '(name, _) => drop_letters (String.length name) sh) names.

Fixpoint shape_spaces (sh : list kind) : list (list kind) :=
  match sh with
  | KSpace :: r => shape_spaces r ++ [r]
  | _ => []
  end.

Definition plain (c : ascii) : bool := negb (is_digit c || is_alpha c || is_space c).

Definition shape_alts (t : token) (sh : list kind) : list (list kind) :=
  match t with
  | TDir DDay =>
      match sh with
      | KDigit :: KDigit :: r => [r; KDigit :: r]
      | KDigit :: r => [r]
      | KSpace :: KDigit :: r => [r]
      | _ => []
      end
  | TDir DMonth =>
      match sh with
      | KDigit :: KDigit :: r => [r; KDigit :: r]
      | KDigit :: r => [r]
      | _ => []
      end
  | TDir DYear =>
      match sh with
      | KDigit :: KDigit :: KDigit :: KDigit :: r => [r]
      | _ => []
      end
  | TDir DAbbr => shape_names abbr_names sh
  | TDir DFull => shape_names full_names sh
  | TSpace => shape_spaces sh
  | TLit c =>
      match sh with
      | k :: r =>
          if plain c
          then match k with
               | KOther a => if Ascii.eqb a c then [r] else []
               | _ => []
               end
          else [r]
      | [] => []
      end
  end.

Fixpoint shape_match (ts : list token) (sh : list kind) : bool :=
  match ts with
  | [] => true
  | t :: ts' => existsb (shape_match ts') (shape_alts t sh)
  end.

(** No pattern of [fmts] can match a text of shape [sh]. *)
Definition refused_by (fmts : list string) (sh : list kind) : bool :=
  forallb (fun fmt =>
             match compile_format fmt with
             | Some ts => negb (shape_match ts sh)
             | None => true
             end) fmts.

(** ** Further notions for the properties of Part III *)

(** [sum(xs)] on integers. *)
Definition Zsum (xs : list Z) : Z := fold_right Z.add 0 xs.

(** The ISO (year, week) of a date. *)
Definition iso_week_of (d : datetime) : week_key :=
  (fst (fst (isocalendar d)), snd (fst (isocalendar d))).

(** [a <= b] on datetimes. *)
Definition dt_leb (a b : datetime) : bool := negb (dt_ltb b a).

(** The purchase row is passed over by [aggregate_weekly]: its date cell is
    no date of the current year. *)
Definition passed_over (current_year : Z) (row : list string) : Prop :=
  exists cell,
    nth_error row 0 = Some cell
    /\ forall d, parse_date (PyStr cell) = Ok (Some d) -> year d <> current_year.

(** The birds a purchase row brings when it is aggregated alone. *)
Definition row_birds (current_year : Z) (row : list string) : Z :=
  match weekly_purchase.aggregate_weekly current_year [row] with
  | Ok [r] => weekly_purchase.birds (weekly_purchase.stats r)
  | _ => 0
  end.

(** The price row is passed over by [aggregate_weekly_prices]: its date
    cell is no date of the current year, or none of its price cells reads as
    a positive number. *)
Definition price_passed_over (current_year : Z) (row : list string) : Prop :=
  exists cell,
    nth_error row 0 = Some cell
    /\ forall d, parse_date (PyStr cell) = Ok (Some d) -> year d = current_year ->
                 positive_floats (tl row) = Ok [].


(** The (date, location) an output row of [aggregate_by_date_location] is
    for. *)
Definition selling_key (row : competitor_selling.agg_row) : competitor_selling.group_key :=
  (competitor_selling.a_date row, competitor_selling.a_location row).

(** The record has a price for some product. *)
Definition has_price (r : competitor_selling.record) : Prop :=
  exists p x, competitor_selling.price r p = Some x.

(** [b] is the brand of a record of the group [key] that is not Pullus'
    and has a price. *)
Definition competitor_brand (records : list competitor_selling.record)
  (key : competitor_selling.group_key) (b : string) : Prop :=
  exists r,
    In r records
    /\ (competitor_selling.date r, competitor_selling.location r) = key
    /\ competitor_selling.brand r = b
    /\ competitor_selling.is_pullus r = false
    /\ has_price r.

(** The date is one the [datetime] constructor accepts. *)
Definition valid (d : datetime) : Prop := valid_date (year d) (month d) (day d) = true.

(** The days of the year [y]. *)
Definition year_length (y : Z) : Z := if is_leap y then 366 else 365.

(** The display name [fetch_competitor_data] gives the tab's records. *)
Definition tab_location (tab_name : string) : string :=
  dict_default String.eqb competitor_selling.LOCATION_NAMES (strip tab_name) (strip tab_name).

(** The data a run of [main] fetches, and the digests it files them under. *)
Record fetched : Type := mkfetched {
  f_raw : list (list string);
  f_price_data : list (list string);
  f_comp_records : list competitor_selling.record;
  f_buying_records : list competitor_buying.record
}.

Definition fetch_all (current_year : Z) (sh : dashboard_run.sheets) : result fetched :=
  raw <- dashboard_run.fetch_raw_data (dashboard_run.purchase_rows sh) ;;
  price <- dashboard_run.fetch_price_data (dashboard_run.doc_price_rows sh) ;;
  comp <- competitor_selling.fetch_competitor_data current_year
            (dashboard_run.selling_tabs sh) ;;
  buying <- competitor_buying.fetch_buying_data current_year
              (dashboard_run.buying_rows sh) ;;
  Ok (mkfetched raw (fst price) comp buying).

Definition hashes_of (compute_hash : dashboard_run.payload -> string) (f : fetched)
  : dashboard_run.hashes :=
  [("weekly_purchase", compute_hash (dashboard_run.RowData (f_raw f)));
   ("doc_price", compute_hash (dashboard_run.RowData (f_price_data f)));
   ("competitor_selling", compute_hash (dashboard_run.SellingData (f_comp_records f)));
   ("competitor_buying", compute_hash (dashboard_run.BuyingData (f_buying_records f)))].

(** ** Proof tactics *)

(** Splits a hypothesis [bind r k = Ok b] into its two steps. *)
Ltac inv_bind H :=
  match type of H with
  | bind ?r ?k = Ok ?b =>
      let a := fresh "a" in
      let Ha := fresh "Ha" in
      let H' := fresh "H" in
      assert (exists a, r = Ok a /\ k a = Ok b) as (a & Ha & H')
        by (destruct r; [eexists; split; [reflexivity | exact H] | discriminate H]);
      clear H; rename H' into H; cbv beta in H
  end.


(** [Ok a = Ok b] gives [a = b] with the terms left as they are. *)
Ltac inv_ok :=
  repeat match goal with
         | H : Ok ?a = Ok ?b |- _ =>
             let E := fresh "E" in
             assert (E : a = b) by congruence; clear H; rename E into H; try subst
         | H : Some ?a = Some ?b |- _ =>
             let E := fresh "E" in
             assert (E : a = b) by congruence; clear H; rename E into H; try subst
         | H : Raise _ = Ok _ |- _ => discriminate H
         | H : Ok _ = Raise _ |- _ => discriminate H
         | H : None = Some _ |- _ => discriminate H
         | H : Some _ = None |- _ => discriminate H
         end.

(** Case analysis on an integer [d] known to lie in [lo .. lo + n - 1]:
    one goal for each value. *)
Ltac zcases d lo n :=
  lazymatch n with
  | O => exfalso; lia
  | S ?k =>
      let H := fresh "Hc" in
      destruct (Z.eq_dec d lo) as [H|H];
      [ subst d
      | let lo' := eval compute in (lo + 1) in
        assert (lo' <= d) by lia; clear H; zcases d lo' k ]
  end.

(** ** Sample sheets *)

(** A competitor-buying sheet with no "Entry ID" cell. *)
Definition c10_rows : list (list string) :=
  [["Competitor prices"; ""]; ["ID"; "Date"; "Name"]; ["1"; "2025-03-01"; "Acme"]].

(** The purchase rows of the end-to-end scenario: date in column 0, birds in
    column 5, chicken weight in column 8, gizzard weight in column 9. *)
Definition c6_rows : list (list string) :=
  [["2025-01-06"; ""; ""; ""; ""; "100"; ""; ""; "50.0"; "10.0"];
   ["2025-01-08"; ""; ""; ""; ""; "200"; ""; ""; "90.0"; "15.0"]].

(** The same week with a second row for 6 January. *)
Definition c6_rows_repeated_day : list (list string) :=
  c6_rows ++ [["06-Jan-2025"; ""; ""; ""; ""; "60"; ""; ""; "30.5"; "5.0"]].


(** A competitor-buying sheet: a title row, the header row, a kept row, a row
    with a blank competitor, a row of another year and a row with no date. *)
Definition c7_rows : list (list string) :=
  [["Competitor buying prices"];
   ["Entry ID"; "Date"; "Week"; "Officer"; "State"; "Competitor Name"; "Product Type";
    "Competitor Price (N)"; "Pullus Price (N)"; "Notes"];
   ["1"; "01-Mar-2025"; ""; ""; "Kano"; "Acme"; "dressed birds"; "3,300 - 3,500"; "4000"; ""];
   ["2"; "02-Mar-2025"; ""; ""; "Kano"; "  "; "dressed birds"; "3,300"; "4000"; ""];
   ["3"; "02-Mar-2024"; ""; ""; "Kano"; "Bolt"; "live birds"; "3,300"; "4000"; ""];
   ["4"; "31 Feb 2025"; ""; ""; "Kano"; "Bolt"; "live birds"; "3,300"; "4000"; ""]].





(** 1 February 2025: its day is a month number too. *)
Definition c5_date : datetime := mkdt 2025 2 1.

(** 17 May 2025. *)
Definition c5_date_may : datetime := mkdt 2025 5 17.

(** *** Further samples *)

(** Purchase rows of another year, and a purchase row cut short after its
    date. *)
Definition x_rows_other_year : list (list string) :=
  [["2024-12-30"; ""; ""; ""; ""; "100"; ""; ""; "50.0"; "10.0"];
   ["not a date"; ""; ""; ""; ""; "200"; ""; ""; "90.0"; "15.0"]].
Definition x_rows_short : list (list string) :=
  [["2025-01-06"; ""; ""; ""; ""; "100"; ""; ""; "50.0"; "10.0"];
   ["2025-01-07"; ""; ""]].

(** Price rows: two days of one week, a day with no price, a day of another
    year. *)
Definition x_price_rows : list (list string) :=
  [["2025-01-06"; "1,200"; ""; "1,300"];
   ["2025-01-07"; "n/a"; "0"; ""];
   ["2025-01-08"; "1,250"; "1,150"; "-5"];
   ["2024-01-08"; "900"; "950"; "1,000"]].

(** Selling records of two dates and two places; one brand twice, Pullus
    in capitals, one record with no price. *)
Definition x_selling_records : list competitor_selling.record :=
  [competitor_selling.mkrec (mkdt 2025 1 7) "Kano" "Acme"
     (fun p => match p with
               | competitor_selling.WholeChicken => Some (Fin 3400)
               | competitor_selling.Gizzard => None
               end);
   competitor_selling.mkrec (mkdt 2025 1 6) "Kano" "PULLUS"
     (fun p => match p with
               | competitor_selling.WholeChicken => Some (Fin 4000)
               | competitor_selling.Gizzard => Some (Fin 900)
               end);
   competitor_selling.mkrec (mkdt 2025 1 6) "Abuja" "Acme"
     (fun p => match p with
               | competitor_selling.WholeChicken => Some (Fin 3500)
               | competitor_selling.Gizzard => None
               end);
   competitor_selling.mkrec (mkdt 2025 1 6) "Abuja" "Bolt" (fun _ => None);
   competitor_selling.mkrec (mkdt 2025 1 6) "Abuja" "Acme"
     (fun p => match p with
               | competitor_selling.WholeChicken => None
               | competitor_selling.Gizzard => Some (Fin 800)
               end)].

(** Selling tabs with no Gizzard column. *)
Definition x_selling_tabs : list (string * list (list string)) :=
  [("Kano_Entry",
    [["Date"; "Brand"; "Whole Chicken"];
     ["2025-01-06"; "Pullus"; "4000"];
     ["2025-01-06"; "Acme"; "3,300/3,500"]])].

(** A competitor-buying sheet: two title rows, the header row, three rows
    with the product type in different letter cases. *)
Definition x_buying_rows : list (list string) :=
  [["Competitor buying prices"];
   ["2025"; "Date"];
   ["Entry ID"; "Date"; "Week"; "Officer"; "State"; "Competitor Name"; "Product Type";
    "Competitor Price (N)"; "Pullus Price (N)"; "Notes"];
   ["1"; "01-Mar-2025"; ""; ""; "Kano"; "Acme"; "DRESSED BIRDS"; "3,300 - 3,500"; "4000"; ""];
   ["2"; "02-Mar-2025"; ""; ""; "Kano"; "Bolt"; " live birds "; "3,300"; ""; ""];
   ["3"; "03-Mar-2025"; ""; ""; "Kano"; "Core"; "Frozen"; "3,100"; "4000"; ""]].

(** The tabs of [x_selling_tabs], a tab with no name and a tab with a name
    that [LOCATION_NAMES] does not list. *)
Definition x_selling_tabs_more : list (string * list (list string)) :=
  x_selling_tabs
  ++ [("  ", []);
      (" Lagos ",
       [["Date"; "Brand"; "Gizzard"];
        ["2025-01-09"; "Bolt"; "850"];
        ["2025-01-09"; ""; "900"]])].

(** A stand-in for the digest, four sheets, and builders that succeed. *)
Definition x_hash (d : dashboard_run.payload) : string :=
  match d with
  | dashboard_run.RowData rows => String.concat ";" (map (String.concat ",") rows)
  | dashboard_run.SellingData rs => String.concat "," (map competitor_selling.brand rs)
  | dashboard_run.BuyingData rs => String.concat "," (map competitor_buying.competitor rs)
  end.

Definition x_sheets : dashboard_run.sheets :=
  dashboard_run.mksheets
    (["Date"; ""; ""; ""; ""; "Birds"; ""; ""; "Chicken"; "Gizzard"] :: c6_rows)
    (["Date"; "Farm A"; "Farm B"; "Farm C"] :: x_price_rows)
    x_selling_tabs
    x_buying_rows.

Definition x_build {A : Type} (x : A) : result unit := Ok tt.
(* ================================================================== *)
(** * Part II. Properties *)
(* ================================================================== *)

(** ** The error monad and loops *)

Lemma bind_ok {A B : Type} (r : result A) (k : A -> result B) (b : B) :
  bind r k = Ok b -> exists a, r = Ok a /\ k a = Ok b.
Proof.
  destruct r as [a|e]; simpl; intros H; [exists a; auto | discriminate].
Qed.

Lemma bind_ret {A B : Type} (a : A) (k : A -> result B) : bind (Ok a) k = k a.
Proof. reflexivity. Qed.

Lemma for_each_invariant {T A : Type} (P : T -> Prop) (body : T -> A -> result T)
  (xs : list A) :
  (forall s x s', In x xs -> P s -> body s x = Ok s' -> P s') ->
  forall s s', P s -> for_each body xs s = Ok s' -> P s'.
Proof.
  induction xs as [|x xs IH]; simpl; intros Hstep s s' Hs H.
  - inv_ok. exact Hs.
  - inv_bind H. eapply IH; [ | | exact H].
    + intros; eauto.
    + eapply Hstep; eauto.
Qed.

(** ** [sorted] *)

Section SortedFacts.
Context {A : Type}.
Variable ltb : A -> A -> bool.

Lemma insert_sorted_In (x y : A) (xs : list A) :
  In y (insert_sorted ltb x xs) <-> y = x \/ In y xs.
Proof.
  induction xs as [|z zs IH]; simpl.
  - intuition.
  - destruct (ltb z x); simpl; rewrite ?IH; intuition.
Qed.

Lemma sorted_In (y : A) (xs : list A) : In y (sorted ltb xs) <-> In y xs.
Proof.
  induction xs as [|x xs IH]; simpl; [tauto|].
  rewrite insert_sorted_In, IH. intuition.
Qed.


Lemma insert_sorted_perm (x : A) (xs : list A) :
  Permutation (insert_sorted ltb x xs) (x :: xs).
Proof.
  induction xs as [|y ys IH]; simpl; [reflexivity|].
  destruct (ltb y x); [|reflexivity].
  rewrite IH. apply perm_swap.
Qed.

Lemma sorted_perm (xs : list A) : Permutation (sorted ltb xs) xs.
Proof.
  induction xs as [|x xs IH]; simpl; [reflexivity|].
  rewrite insert_sorted_perm. constructor. exact IH.
Qed.

Hypothesis ltb_asym : forall x y, ltb x y = true -> ltb y x = false.

Lemma insert_sorted_Sorted (x : A) (xs : list A) :
  Sorted (not_after ltb) xs -> Sorted (not_after ltb) (insert_sorted ltb x xs).
Proof.
  induction xs as [|y ys IH]; simpl; intros H.
  - repeat constructor.
  - inversion H as [|? ? Hys Hhd]; subst.
    destruct (ltb y x) eqn:E.
    + constructor; [apply IH, Hys|].
      destruct ys as [|z zs]; simpl.
      * constructor. apply ltb_asym, E.
      * destruct (ltb z x); constructor.
        -- inversion Hhd; assumption.
        -- apply ltb_asym, E.
    + constructor; [exact H|]. constructor. exact E.
Qed.

Lemma sorted_Sorted (xs : list A) : Sorted (not_after ltb) (sorted ltb xs).
Proof.
  induction xs as [|x xs IH]; simpl; [constructor|].
  apply insert_sorted_Sorted, IH.
Qed.
End SortedFacts.

Section AscendingKeys.
Context {K V : Type}.
Variable ltb : K -> K -> bool.
Hypothesis ltb_asym : forall x y, ltb x y = true -> ltb y x = false.
Hypothesis ltb_total : forall x y, ltb x y = false -> ltb y x = false -> x = y.

Lemma Sorted_NoDup_ascending (items : list (K * V)) :
  Sorted (not_after (by_key ltb)) items -> NoDup (map fst items) ->
  ascending ltb (map fst items).
Proof.
  induction items as [|[k v] items IH]; intros Hs Hnd i a b Ha Hb.
  - destruct i; discriminate.
  - inversion Hs as [|? ? Hs' Hhd]; subst.
    inversion Hnd as [|? ? Hnotin Hnd']; subst.
    destruct i as [|i].
    + simpl in Ha. injection Ha as <-.
      destruct items as [|[k' v'] items']; [discriminate|].
      simpl in Hb. injection Hb as <-.
      inversion Hhd as [|? ? Hle]; subst. unfold not_after, by_key in Hle.
      simpl in Hle. destruct (ltb k k') eqn:E; [reflexivity|].
      exfalso. apply Hnotin. left. apply ltb_total; assumption.
    + apply (IH Hs' Hnd' i); assumption.
Qed.

Lemma sorted_keys_ascending (items : list (K * V)) :
  NoDup (map fst items) -> ascending ltb (map fst (sorted (by_key ltb) items)).
Proof.
  intros Hnd. apply Sorted_NoDup_ascending.
  - apply sorted_Sorted. intros x y. unfold by_key. apply ltb_asym.
  - eapply Permutation_NoDup; [|exact Hnd].
    apply Permutation_map, Permutation_sym, sorted_perm.
Qed.
End AscendingKeys.

(** ** Dictionaries *)

Section DictFacts.
Context {K V : Type}.
Variable keq : K -> K -> bool.

Lemma dict_set_values (Q : V -> Prop) (d : list (K * V)) (k : K) (v : V) :
  Forall (fun kv => Q (snd kv)) d -> Q v ->
  Forall (fun kv => Q (snd kv)) (dict_set keq d k v).
Proof.
  induction d as [|[k' v'] d IH]; simpl; intros Hd Hv.
  - constructor; auto.
  - inversion Hd; subst. destruct (keq k k'); constructor; auto.
Qed.

Lemma dict_default_values (Q : V -> Prop) (d : list (K * V)) (k : K) (dflt : V) :
  Forall (fun kv => Q (snd kv)) d -> Q dflt -> Q (dict_default keq d k dflt).
Proof.
  unfold dict_default. induction d as [|[k' v'] d IH]; simpl; intros Hd Hv; auto.
  inversion Hd; subst. destruct (keq k k'); auto.
Qed.

Hypothesis keq_eq : forall a b, keq a b = true <-> a = b.

Lemma dict_get_In (d : list (K * V)) (k : K) (v : V) :
  dict_get keq d k = Some v -> In (k, v) d.
Proof.
  induction d as [|[k' v'] d IH]; simpl; [discriminate|].
  destruct (keq k k') eqn:E.
  - intros H. injection H as ->. apply keq_eq in E. subst. auto.
  - auto.
Qed.

Lemma dict_get_None (d : list (K * V)) (k : K) :
  dict_get keq d k = None -> ~ In k (map fst d).
Proof.
  induction d as [|[k' v'] d IH]; simpl; [tauto|].
  destruct (keq k k') eqn:E; [discriminate|].
  intros H [Hk|Hk]; [|exact (IH H Hk)].
  subst k'. assert (keq k k = true) by (apply keq_eq; reflexivity). congruence.
Qed.

Lemma dict_set_keys_In (d : list (K * V)) (k : K) (v : V) (x : K) :
  In x (map fst (dict_set keq d k v)) <-> x = k \/ In x (map fst d).
Proof.
  induction d as [|[k' v'] d IH]; simpl; [intuition|].
  destruct (keq k k') eqn:E; simpl.
  - apply keq_eq in E. subst. intuition.
  - rewrite IH. intuition.
Qed.

Lemma dict_set_NoDup (d : list (K * V)) (k : K) (v : V) :
  NoDup (map fst d) -> NoDup (map fst (dict_set keq d k v)).
Proof.
  induction d as [|[k' v'] d IH]; simpl; intros H.
  - constructor; [intros []|constructor].
  - inversion H as [|? ? Hnotin Hnd]; subst.
    destruct (keq k k') eqn:E; simpl.
    + constructor; assumption.
    + constructor; [|apply IH, Hnd].
      rewrite dict_set_keys_In. intros [->|Hin]; [|exact (Hnotin Hin)].
      assert (keq k k = true) by (apply keq_eq; reflexivity). congruence.
Qed.
End DictFacts.

Lemma week_key_eqb_eq (a b : week_key) : week_key_eqb a b = true <-> a = b.
Proof.
  destruct a as [y w], b as [y' w']. unfold week_key_eqb. simpl.
  rewrite andb_true_iff, !Z.eqb_eq. split.
  - intros [-> ->]. reflexivity.
  - intros H. injection H as -> ->. auto.
Qed.



(** ** C10: a sheet without the header marker *)

Lemma find_header_none (rows : list (list string)) :
  (forall row cell, In row rows -> In cell row -> contains "Entry ID" cell = false) ->
  forall i, competitor_buying.find_header i rows = None.
Proof.
  induction rows as [|row rows IH]; simpl; intros H i; [reflexivity|].
  assert (Hrow : competitor_buying.is_header row = false).
  { unfold competitor_buying.is_header.
    destruct (existsb (contains "Entry ID") row) eqn:E; [|reflexivity].
    apply existsb_exists in E. destruct E as (cell & Hin & Hc).
    rewrite (H row cell) in Hc; auto; discriminate. }
  rewrite Hrow. apply IH. intros; eauto.
Qed.

(** C10.  When no cell of any row of the competitor-buying sheet contains the
    text "Entry ID", [fetch_buying_data] returns the empty record list (it
    does not raise and reads no row), and the buying step of [main] does not
    build the report from that empty list, whatever the change check says. *)
Theorem C10_no_header_no_records (current_year : Z) (rows : list (list string)) :
  (forall row cell, In row rows -> In cell row -> contains "Entry ID" cell = false) ->
  competitor_buying.fetch_buying_data current_year rows = Ok []
  /\ forall changed, dashboard.buying_step changed [] <> dashboard.Built.
Proof.
  intros H. split.
  - unfold competitor_buying.fetch_buying_data.
    rewrite (find_header_none rows H 0). reflexivity.
  - intros [|]; simpl; discriminate.
Qed.

Lemma C10_no_header_no_records_witness :
  competitor_buying.fetch_buying_data 2025 c10_rows = Ok []
  /\ forall changed, dashboard.buying_step changed [] <> dashboard.Built.
Proof.
  apply (C10_no_header_no_records 2025 c10_rows).
  intros row cell Hrow Hcell.
  repeat (destruct Hrow as [<-|Hrow];
          [repeat (destruct Hcell as [<-|Hcell]; [reflexivity|]); destruct Hcell|]).
  destruct Hrow.
Defined.

(** ** Floats *)

Lemma fdiv_truthy (x y : pyfloat) : truthy y = true -> exists q, fdiv x y = Ok q.
Proof.
  unfold fdiv. destruct y as [b| |]; simpl; intros H; eauto.
  destruct (q_is_zero b); [discriminate|eauto].
Qed.

Lemma fdiv_by_count (x : pyfloat) (n : Z) : 1 <= n -> exists q, fdiv x (of_int n) = Ok q.
Proof.
  intros Hn. apply fdiv_truthy. unfold of_int, truthy, q_is_zero. simpl.
  destruct (Z.eqb_spec n 0); [lia|reflexivity].
Qed.

Lemma pct_diff_truthy (a b : pyfloat) : truthy b = true -> exists p, pct_diff a b = Ok p.
Proof.
  intros H. unfold pct_diff. destruct (fdiv_truthy (fsub a b) b H) as (q & ->).
  rewrite bind_ret. eauto.
Qed.

Lemma rounded_mean_nonempty (xs : list pyfloat) (n : nat) :
  xs <> [] -> exists m, rounded_mean xs n = Ok m.
Proof.
  intros H. unfold rounded_mean.
  destruct (fdiv_by_count (fsum xs) (Z.of_nat (List.length xs))) as (q & ->).
  - destruct xs; [congruence|]. simpl List.length. lia.
  - rewrite bind_ret. eauto.
Qed.

(** ** Dates *)

Lemma dt_eqb_eq (a b : datetime) : dt_eqb a b = true <-> a = b.
Proof.
  destruct a as [y m d], b as [y' m' d']. unfold dt_eqb. simpl.
  rewrite !andb_true_iff, !Z.eqb_eq. split.
  - intros [[-> ->] ->]. reflexivity.
  - intros H. injection H as -> -> ->. auto.
Qed.

Lemma distinct_dates_In (d : datetime) (xs : list datetime) :
  In d (distinct_dates xs) <-> In d xs.
Proof.
  induction xs as [|x xs IH]; simpl; [tauto|].
  destruct (existsb (dt_eqb x) (distinct_dates xs)) eqn:E; simpl; rewrite IH.
  - split; [auto|]. intros [<-|H]; [|exact H].
    apply existsb_exists in E. destruct E as (y & Hy & Heq).
    apply dt_eqb_eq in Heq. subst y. apply IH, Hy.
  - tauto.
Qed.

Lemma distinct_dates_NoDup (xs : list datetime) : NoDup (distinct_dates xs).
Proof.
  induction xs as [|x xs IH]; simpl; [constructor|].
  destruct (existsb (dt_eqb x) (distinct_dates xs)) eqn:E; [exact IH|].
  constructor; [|exact IH]. intros Hin.
  assert (existsb (dt_eqb x) (distinct_dates xs) = true); [|congruence].
  apply existsb_exists. exists x. split; [exact Hin|]. apply dt_eqb_eq. reflexivity.
Qed.

Lemma distinct_dates_count (xs : list datetime) :
  xs <> [] -> 1 <= Z.of_nat (List.length (distinct_dates xs)).
Proof.
  intros H. destruct xs as [|x xs]; [congruence|].
  assert (Hin : In x (distinct_dates (x :: xs))) by (apply distinct_dates_In; left; reflexivity).
  destruct (distinct_dates (x :: xs)); [destruct Hin|]. simpl List.length. lia.
Qed.

Lemma dt_min_nonempty (xs : list datetime) :
  xs <> [] -> exists d, dt_min xs = Ok d /\ In d xs.
Proof.
  destruct xs as [|x xs]; [congruence|]. intros _. simpl dt_min.
  eexists. split; [reflexivity|].
  revert x. induction xs as [|y ys IH]; simpl; intros m; [auto|].
  destruct (dt_ltb y m).
  - destruct (IH y) as [<-|H]; auto.
  - destruct (IH m) as [<-|H]; auto.
Qed.

Lemma dt_max_nonempty (xs : list datetime) :
  xs <> [] -> exists d, dt_max xs = Ok d /\ In d xs.
Proof.
  destruct xs as [|x xs]; [congruence|]. intros _. simpl dt_max.
  eexists. split; [reflexivity|].
  revert x. induction xs as [|y ys IH]; simpl; intros m; [auto|].
  destruct (dt_ltb m y).
  - destruct (IH y) as [<-|H]; auto.
  - destruct (IH m) as [<-|H]; auto.
Qed.



(** ** weekly_purchase.py: the three loops *)

(** What one pass of the first loop does when it does not raise: it skips the
    row, or it adds the row to the bucket of its ISO week. *)
Lemma weekly_step_ok (cy : Z) (weeks weeks' : weekly_purchase.weeks_t) (row : list string) :
  weekly_purchase.weekly_step cy weeks row = Ok weeks' ->
  weeks' = weeks
  \/ exists cell dt b ch gz,
      nth_error row 0 = Some cell
      /\ parse_date (PyStr cell) = Ok (Some dt)
      /\ year dt = cy
      /\ weeks' =
         let key := (fst (fst (isocalendar dt)), snd (fst (isocalendar dt))) in
         let w := dict_default week_key_eqb weeks key weekly_purchase.week_default in
         dict_set week_key_eqb weeks key
           (weekly_purchase.mkacc
              (weekly_purchase.acc_birds w + b)
              (fadd (weekly_purchase.acc_chicken_wt w) ch)
              (fadd (weekly_purchase.acc_gizzard_wt w) gz)
              (weekly_purchase.acc_dates w ++ [dt])).
Proof.
  unfold weekly_purchase.weekly_step. intros H.
  inv_bind H. inv_bind H.
  destruct a0 as [dt|]; [|inv_ok; auto].
  destruct (Z.eqb_spec (year dt) cy) as [Hy|Hy]; simpl in H; [|inv_ok; auto].
  destruct (isocalendar dt) as [[iy iw] wd] eqn:Eiso.
  inv_bind H. inv_bind H. inv_bind H. inv_bind H. inv_bind H. inv_bind H.
  inv_ok. right. exists a, dt, a1, a3, a5.
  unfold py_index, weekly_purchase.COL_DATE in Ha.
  destruct (nth_error row 0) as [c|] eqn:E0; [|discriminate]. inv_ok.
  rewrite Eiso. simpl. auto.
Qed.


Lemma weekly_emit_week_ok (kv : week_key * weekly_purchase.week_acc) :
  weekly_purchase.acc_dates (snd kv) <> [] ->
  exists w, weekly_purchase.emit_week kv = Ok w
            /\ weekly_purchase.purchase_days w
               = Z.of_nat (List.length (distinct_dates (weekly_purchase.acc_dates (snd kv))))
            /\ 1 <= weekly_purchase.purchase_days w
            /\ In (weekly_purchase.w_start w) (weekly_purchase.acc_dates (snd kv))
            /\ In (weekly_purchase.w_end w) (weekly_purchase.acc_dates (snd kv)).
Proof.
  destruct kv as [[yr wk] vals]. cbn [snd]. intros Hne.
  pose proof (distinct_dates_count _ Hne) as Hcount.
  unfold weekly_purchase.emit_week.
  destruct (dt_min_nonempty _ Hne) as (mn & -> & Hmn).
  destruct (dt_max_nonempty _ Hne) as (mx & -> & Hmx).
  rewrite !bind_ret.
  destruct (fdiv_by_count (of_int (weekly_purchase.acc_birds vals)) _ Hcount) as (a & ->).
  destruct (fdiv_by_count
              (py_round (fadd (weekly_purchase.acc_chicken_wt vals)
                              (weekly_purchase.acc_gizzard_wt vals)) 2) _ Hcount) as (b & ->).
  rewrite !bind_ret. eexists. split; [reflexivity|]. simpl. auto.
Qed.



Lemma wow_pct_change (cur prev : pyfloat) (o : option pyfloat) :
  weekly_purchase.wow cur prev = Ok o -> pct_change cur prev o.
Proof.
  unfold weekly_purchase.wow, pct_change, pct_diff.
  destruct (truthy prev); intros H; [|inv_ok; reflexivity].
  inv_bind H. inv_bind Ha. inv_ok. eauto.
Qed.


Lemma weekly_add_wow_chained (ws : list weekly_purchase.week_stats) :
  forall prev rows,
    weekly_purchase.add_wow prev ws = Ok rows ->
    map weekly_purchase.stats rows = ws
    /\ chained weekly_purchase.stats purchase_wow_rule prev rows.
Proof.
  induction ws as [|w ws IH]; intros prev rows H; simpl in H.
  - inv_ok. split; [reflexivity|exact I].
  - inv_bind H. inv_bind H. inv_ok.
    destruct (IH _ _ Ha0) as (Hmap & Hch).
    assert (Hr : weekly_purchase.stats a = w /\ purchase_wow_rule prev a).
    { destruct prev as [p|].
      - inv_bind Ha. inv_bind Ha. inv_ok. simpl.
        split; [reflexivity|]. split; apply wow_pct_change; assumption.
      - inv_ok. simpl. auto. }
    destruct Hr as (Hst & Hrule). simpl. rewrite Hst, Hmap.
    split; [reflexivity|]. split; [exact Hrule|exact Hch].
Qed.






(** ** doc_price.py: the three loops *)

Lemma price_step_ok (cy : Z) (weeks weeks' : doc_price.weeks_t) (row : list string) :
  doc_price.price_step cy weeks row = Ok weeks' ->
  weeks' = weeks
  \/ exists cell dt p,
      nth_error row 0 = Some cell
      /\ parse_date (PyStr cell) = Ok (Some dt)
      /\ year dt = cy
      /\ weeks' =
         let key := (fst (fst (isocalendar dt)), snd (fst (isocalendar dt))) in
         let w := dict_default week_key_eqb weeks key doc_price.week_default in
         dict_set week_key_eqb weeks key
           (doc_price.mkacc (doc_price.acc_prices w ++ [p]) (doc_price.acc_dates w ++ [dt])).
Proof.
  unfold doc_price.price_step. intros H.
  inv_bind H. inv_bind H.
  destruct a0 as [dt|]; [|inv_ok; auto].
  destruct (Z.eqb_spec (year dt) cy) as [Hy|Hy]; simpl negb in H; cbv iota in H;
    [|inv_ok; auto].
  inv_bind H. destruct a0 as [|p0 ps]; [inv_ok; auto|].
  destruct (isocalendar dt) as [[iy iw] wd] eqn:Eiso.
  inv_bind H. inv_bind H. inv_bind H. inv_ok.
  right. exists a, dt, (doc_price.mkday a0 a1 a2).
  unfold py_index in Ha.
  destruct (nth_error row 0) as [c|] eqn:E0; [|discriminate]. inv_ok.
  rewrite Eiso. simpl. auto.
Qed.







Lemma price_add_wow_chained (ws : list doc_price.week_stats) :
  forall prev rows,
    doc_price.add_wow prev ws = Ok rows ->
    map doc_price.stats rows = ws
    /\ chained doc_price.stats price_wow_rule prev rows.
Proof.
  induction ws as [|w ws IH]; intros prev rows H; simpl in H.
  - inv_ok. split; [reflexivity|exact I].
  - inv_bind H. inv_bind H. inv_ok.
    destruct (IH _ _ Ha0) as (Hmap & Hch).
    assert (Hr : doc_price.stats a = w /\ price_wow_rule prev a).
    { destruct prev as [p|]; [|inv_ok; simpl; auto].
      unfold price_wow_rule, pct_change.
      destruct (truthy (doc_price.avg_price p)) eqn:E.
      - inv_bind Ha. inv_ok. unfold pct_diff in Ha1. inv_bind Ha1. inv_ok.
        simpl. eauto.
      - inv_ok. simpl. auto. }
    destruct Hr as (Hst & Hrule). simpl. rewrite Hst, Hmap.
    split; [reflexivity|]. split; [exact Hrule|exact Hch].
Qed.



(** ** helpers.py: what can be raised *)

Lemma strptime_raises (s fmt : string) (e : exn) :
  strptime s fmt = Raise e -> e = ValueError.
Proof.
  unfold strptime.
  destruct (compile_format fmt) as [ts|]; [|congruence].
  destruct (match_tokens ts s default_fields) as [[f [|c r]]|]; try congruence.
  destruct (valid_date (f_year f) (f_month f) (f_day f)); congruence.
Qed.

Lemma py_float_raises (s : string) (e : exn) : py_float s = Raise e -> e = ValueError.
Proof.
  unfold py_float.
  destruct (underscores_ok None s); [|congruence].
  destruct (read_inf_nan _); [congruence|].
  destruct (read_decimal _); congruence.
Qed.

(** [safe_float] returns on every value, and returns [0.0] exactly when
    [float()] refuses the cleaned text. *)
Lemma safe_float_total (v : pyval) :
  exists x, safe_float v = Ok x
            /\ (forall e, py_float (strip (remove_char "," (py_str v))) = Raise e -> x = Fin 0)
            /\ (forall y, py_float (strip (remove_char "," (py_str v))) = Ok y -> x = y).
Proof.
  unfold safe_float.
  destruct (py_float (strip (remove_char "," (py_str v)))) as [y|e] eqn:E.
  - exists y. simpl. repeat split; congruence.
  - apply py_float_raises in E. subst e. simpl.
    exists (Fin 0). repeat split; congruence.
Qed.

Lemma parse_date_from_str (fmts : list string) (s : string) :
  parse_date_from fmts (PyStr s)
  = match fmts with
    | [] => Ok None
    | fmt :: rest =>
        match strptime (strip s) fmt with
        | Ok d => Ok (Some d)
        | Raise _ => parse_date_from rest (PyStr s)
        end
    end.
Proof.
  destruct fmts as [|fmt rest]; [reflexivity|].
  simpl. destruct (strptime (strip s) fmt) as [d|e] eqn:E; [reflexivity|].
  apply strptime_raises in E. subst e. reflexivity.
Qed.

Lemma parse_date_from_total (fmts : list string) (s : string) :
  exists r, parse_date_from fmts (PyStr s) = Ok r.
Proof.
  induction fmts as [|fmt rest IH]; rewrite parse_date_from_str; [eauto|].
  destruct (strptime (strip s) fmt); eauto.
Qed.

Lemma parse_date_str_total (s : string) : exists r, parse_date (PyStr s) = Ok r.
Proof. apply parse_date_from_total. Qed.

Lemma parse_date_from_no_strip (fmts : list string) (v : pyval) :
  val_strip v = Raise AttributeError -> parse_date_from fmts v = Ok None.
Proof.
  intros H. induction fmts as [|fmt rest IH]; simpl; [reflexivity|].
  rewrite H. simpl. exact IH.
Qed.

Lemma positive_floats_total (cells : list string) :
  exists ps, positive_floats cells = Ok ps /\ Forall (fun p => fpos p = true) ps.
Proof.
  induction cells as [|c cells IH]; simpl.
  - eexists. split; [reflexivity|constructor].
  - destruct (safe_float_total (PyStr c)) as (x & -> & _).
    destruct IH as (ps & -> & Hps). rewrite !bind_ret.
    destruct (fpos x) eqn:E; eexists; (split; [reflexivity|]); auto.
Qed.










(** ** C9: every emitted bucket has a record behind it *)


(** ** The float operations on finite values are the rational ones *)

Lemma round_half_even_comp (q q' : Q) : (q == q')%Q -> round_half_even q = round_half_even q'.
Proof.
  intros H. unfold round_half_even.
  rewrite <- (Qfloor_comp _ _ H).
  assert (Hc : (q - inject_Z (Qfloor q) ?= 1 # 2)%Q = (q' - inject_Z (Qfloor q) ?= 1 # 2)%Q).
  { apply Qcompare_comp; [|apply Qeq_refl].
    unfold Qminus. apply Qplus_comp; [exact H|apply Qeq_refl]. }
  rewrite Hc. reflexivity.
Qed.

Lemma pct_diff_fin_eq (a b : Q) :
  q_is_zero b = false ->
  pct_diff (Fin a) (Fin b)
  = Ok (Fin (Qred (inject_Z (round_half_even
                               (Qred (Qred (Qred (a + Qred (- b)) / b) * inject_Z 100)
                                * inject_Z 10))
                   / inject_Z 10))).
Proof. intros H. unfold pct_diff, fdiv. rewrite H. reflexivity. Qed.

(** On finite values with a non-zero [b], [pct_diff a b] is
    [(a - b) / b * 100] rounded half-even at the first decimal. *)
Lemma pct_diff_finite (a b : Q) (p : pyfloat) :
  pct_diff (Fin a) (Fin b) = Ok p ->
  exists x, p = Fin x
            /\ (x == inject_Z (round_half_even ((a - b) / b * 100 * 10)) / 10)%Q.
Proof.
  destruct (q_is_zero b) eqn:E.
  - unfold pct_diff, fdiv. rewrite E. intros H. discriminate.
  - rewrite (pct_diff_fin_eq a b E). intros H.
    exists (Qred (inject_Z (round_half_even
                              (Qred (Qred (Qred (a + Qred (- b)) / b) * inject_Z 100)
                               * inject_Z 10))
                  / inject_Z 10)).
    split; [congruence|].
    rewrite Qred_correct.
    assert (E' : (Qred (Qred (Qred (a + Qred (- b)) / b) * inject_Z 100) * inject_Z 10
                  == (a - b) / b * 100 * 10)%Q).
    { rewrite !Qred_correct. reflexivity. }
    rewrite (round_half_even_comp _ _ E'). reflexivity.
Qed.

(** ** C3: week-over-week deltas *)




(** ** C6: the weekly-purchase scenario *)

(** What the second loop stores: [purchase_days] counts the distinct dates of
    the bucket and [avg_birds_day] divides the birds by that count. *)
Lemma emit_week_days (kv : week_key * weekly_purchase.week_acc) (w : weekly_purchase.week_stats) :
  weekly_purchase.emit_week kv = Ok w ->
  weekly_purchase.purchase_days w
  = Z.of_nat (List.length (distinct_dates (weekly_purchase.acc_dates (snd kv))))
  /\ exists a, fdiv (of_int (weekly_purchase.birds w))
                    (of_int (weekly_purchase.purchase_days w)) = Ok a
               /\ weekly_purchase.avg_birds_day w = py_round a 1.
Proof.
  destruct kv as [[yr wk] vals]. unfold weekly_purchase.emit_week. intros H.
  inv_bind H. inv_bind H. inv_bind H. inv_bind H. inv_ok. simpl. eauto.
Qed.

(** C6.  With 2025 as the current year, the rows for 2025-01-06 (100 birds,
    50.0 kg chicken, 10.0 kg gizzard) and 2025-01-08 (200 birds, 90.0 kg,
    15.0 kg) give exactly one bucket, ISO week 2 of 2025, with [birds = 300],
    [chicken_wt = 140.0], [gizzard_wt = 25.0], [purchase_days = 2] and
    [avg_birds_day = 150.0].  A further row for 6 January leaves
    [purchase_days] at 2: a day with several rows counts once, and the
    average divides by that count. *)
Theorem C6_weekly_purchase_scenario :
  (exists w,
      weekly_purchase.aggregate_weekly 2025 c6_rows = Ok [w]
      /\ weekly_purchase.w_year (weekly_purchase.stats w) = 2025
      /\ weekly_purchase.w_week (weekly_purchase.stats w) = 2
      /\ weekly_purchase.birds (weekly_purchase.stats w) = 300
      /\ weekly_purchase.chicken_wt (weekly_purchase.stats w) = Fin 140
      /\ weekly_purchase.gizzard_wt (weekly_purchase.stats w) = Fin 25
      /\ weekly_purchase.purchase_days (weekly_purchase.stats w) = 2
      /\ weekly_purchase.avg_birds_day (weekly_purchase.stats w) = Fin 150)
  /\ (exists w,
         weekly_purchase.aggregate_weekly 2025 c6_rows_repeated_day = Ok [w]
         /\ weekly_purchase.birds (weekly_purchase.stats w) = 360
         /\ weekly_purchase.purchase_days (weekly_purchase.stats w) = 2
         /\ weekly_purchase.avg_birds_day (weekly_purchase.stats w) = Fin 180).
Proof.
  split; eexists; (split; [vm_compute; reflexivity|]); repeat split.
Qed.

(** ** C7: the row filters *)

Lemma dt_min_In (xs : list datetime) (d : datetime) : dt_min xs = Ok d -> In d xs.
Proof.
  intros H. destruct xs as [|x xs]; [discriminate|].
  destruct (dt_min_nonempty (x :: xs)) as (d' & Hd & Hin); [discriminate|]. congruence.
Qed.

Lemma dt_max_In (xs : list datetime) (d : datetime) : dt_max xs = Ok d -> In d xs.
Proof.
  intros H. destruct xs as [|x xs]; [discriminate|].
  destruct (dt_max_nonempty (x :: xs)) as (d' & Hd & Hin); [discriminate|]. congruence.
Qed.

Lemma weekly_groups_dates (cy : Z) (data : list (list string))
  (weeks : weekly_purchase.weeks_t) :
  weekly_purchase.group_weeks cy data = Ok weeks ->
  Forall (fun kv => Forall (current_year_date cy data (fun _ => weekly_purchase.COL_DATE))
                           (weekly_purchase.acc_dates (snd kv))) weeks.
Proof.
  unfold weekly_purchase.group_weeks.
  apply (for_each_invariant
           (fun ws => Forall (fun kv => Forall (current_year_date cy data
                                                  (fun _ => weekly_purchase.COL_DATE))
                                               (weekly_purchase.acc_dates (snd kv))) ws)).
  - intros s row s' Hrow Hs Hstep.
    apply weekly_step_ok in Hstep.
    destruct Hstep as [->|(cell & dt & b & ch & gz & Hcell & Hparse & Hy & ->)]; [exact Hs|].
    cbv zeta.
    apply (dict_set_values week_key_eqb
             (fun v => Forall (current_year_date cy data (fun _ => weekly_purchase.COL_DATE))
                              (weekly_purchase.acc_dates v))); [exact Hs|].
    simpl. apply Forall_app. split.
    + apply (dict_default_values week_key_eqb
               (fun v => Forall (current_year_date cy data
                                   (fun _ => weekly_purchase.COL_DATE))
                                (weekly_purchase.acc_dates v))); [exact Hs|constructor].
    + constructor; [|constructor]. split; [exact Hy|]. exists row, cell. auto.
  - constructor.
Qed.

Lemma weekly_emit_weeks_In (items : list (week_key * weekly_purchase.week_acc)) :
  forall ws w, weekly_purchase.emit_weeks items = Ok ws -> In w ws ->
  exists kv, In kv items /\ weekly_purchase.emit_week kv = Ok w.
Proof.
  induction items as [|kv items IH]; simpl; intros ws w H Hin.
  - inv_ok. destruct Hin.
  - inv_bind H. inv_bind H. inv_ok. destruct Hin as [<-|Hin].
    + exists kv. auto.
    + destruct (IH _ _ Ha0 Hin) as (kv' & Hkv & He). exists kv'. auto.
Qed.

Lemma weekly_add_wow_stats (ws : list weekly_purchase.week_stats) :
  forall prev rows, weekly_purchase.add_wow prev ws = Ok rows ->
                    map weekly_purchase.stats rows = ws.
Proof. intros prev rows H. apply (weekly_add_wow_chained _ _ _ H). Qed.

Lemma weekly_rows_dates (cy : Z) (data : list (list string))
  (rows : list weekly_purchase.week_row) (r : weekly_purchase.week_row) :
  weekly_purchase.aggregate_weekly cy data = Ok rows -> In r rows ->
  current_year_date cy data (fun _ => weekly_purchase.COL_DATE)
                    (weekly_purchase.w_start (weekly_purchase.stats r))
  /\ current_year_date cy data (fun _ => weekly_purchase.COL_DATE)
                       (weekly_purchase.w_end (weekly_purchase.stats r)).
Proof.
  unfold weekly_purchase.aggregate_weekly. intros H Hin.
  inv_bind H. inv_bind H.
  apply weekly_add_wow_stats in H.
  assert (Hw : In (weekly_purchase.stats r) a0).
  { rewrite <- H. apply in_map, Hin. }
  destruct (weekly_emit_weeks_In _ _ _ Ha0 Hw) as (kv & Hkv & He).
  apply sorted_In in Hkv.
  pose proof (weekly_groups_dates _ _ _ Ha) as Hd.
  rewrite Forall_forall in Hd. specialize (Hd kv Hkv). rewrite Forall_forall in Hd.
  destruct kv as [[yr wk] vals]. unfold weekly_purchase.emit_week in He.
  inv_bind He. inv_bind He. inv_bind He. inv_bind He. inv_ok.
  rewrite <- He. simpl.
  split; apply Hd; [eapply dt_min_In|eapply dt_max_In]; eassumption.
Qed.

Lemma price_groups_dates (cy : Z) (data : list (list string)) (weeks : doc_price.weeks_t) :
  doc_price.group_weeks cy data = Ok weeks ->
  Forall (fun kv => Forall (current_year_date cy data (fun _ => 0%nat))
                           (doc_price.acc_dates (snd kv))) weeks.
Proof.
  unfold doc_price.group_weeks.
  apply (for_each_invariant
           (fun ws => Forall (fun kv => Forall (current_year_date cy data (fun _ => 0%nat))
                                               (doc_price.acc_dates (snd kv))) ws)).
  - intros s row s' Hrow Hs Hstep.
    apply price_step_ok in Hstep.
    destruct Hstep as [->|(cell & dt & p & Hcell & Hparse & Hy & ->)]; [exact Hs|].
    cbv zeta.
    apply (dict_set_values week_key_eqb
             (fun v => Forall (current_year_date cy data (fun _ => 0%nat))
                              (doc_price.acc_dates v))); [exact Hs|].
    simpl. apply Forall_app. split.
    + apply (dict_default_values week_key_eqb
               (fun v => Forall (current_year_date cy data (fun _ => 0%nat))
                                (doc_price.acc_dates v))); [exact Hs|constructor].
    + constructor; [|constructor]. split; [exact Hy|]. exists row, cell. auto.
  - constructor.
Qed.

(** What one pass of the loop of [fetch_buying_data] does when it does not
    raise: it skips the row, or it appends the row's record. *)
Lemma buying_step_ok (cy : Z) (col_map : list (string * nat))
  (records records' : list competitor_buying.record) (row : list string) :
  competitor_buying.fetch_step cy col_map records row = Ok records' ->
  records' = records
  \/ exists r cell c_comp,
      records' = records ++ [r]
      /\ nth_error row (col_get col_map "Date" 1) = Some cell
      /\ parse_date (PyStr cell) = Ok (Some (competitor_buying.date r))
      /\ year (competitor_buying.date r) = cy
      /\ nth_error row (col_get col_map "Competitor Name" 5) = Some c_comp
      /\ competitor_buying.competitor r = strip c_comp
      /\ nonempty (competitor_buying.competitor r) = true.
Proof.
  unfold competitor_buying.fetch_step. intros H.
  inv_bind H. inv_bind H.
  destruct a0 as [dt|]; [|inv_ok; auto].
  destruct (Z.eqb_spec (year dt) cy) as [Hy|Hy]; simpl negb in H; cbv iota in H;
    [|inv_ok; auto].
  do 8 inv_bind H.
  destruct (nonempty (strip a0)) eqn:En; simpl negb in H; cbv iota in H; [|inv_ok; auto].
  inv_ok. right.
  unfold py_index in Ha, Ha1.
  destruct (nth_error row (col_get col_map "Date" 1)) as [c|] eqn:E0; [|discriminate].
  destruct (nth_error row (col_get col_map "Competitor Name" 5)) as [c5|] eqn:E5;
    [|discriminate].
  inv_ok. eexists. exists a, a0. simpl. repeat split; auto.
Qed.

Lemma skipn_In {A : Type} (n : nat) (xs : list A) (x : A) : In x (skipn n xs) -> In x xs.
Proof.
  revert xs. induction n as [|n IH]; intros [|y xs]; simpl; auto.
Qed.

Lemma buying_records_filtered (cy : Z) (rows : list (list string))
  (records : list competitor_buying.record) :
  competitor_buying.fetch_buying_data cy rows = Ok records ->
  exists col_map,
    Forall (fun r =>
              current_year_date cy rows (fun _ => col_get col_map "Date" 1)
                                (competitor_buying.date r)
              /\ nonempty (competitor_buying.competitor r) = true
              /\ exists row c_comp,
                   In row rows
                   /\ nth_error row (col_get col_map "Competitor Name" 5) = Some c_comp
                   /\ competitor_buying.competitor r = strip c_comp) records.
Proof.
  unfold competitor_buying.fetch_buying_data.
  destruct (competitor_buying.find_header 0 rows) as [idx|].
  - intros H. inv_bind H. exists (col_map_of a). revert H.
    apply for_each_invariant; [|constructor].
    intros s row s' Hrow Hs Hstep.
    apply skipn_In in Hrow.
    apply buying_step_ok in Hstep.
    destruct Hstep as [->|(r & cell & c & -> & Hcell & Hparse & Hy & Hc & Hcomp & Hne)];
      [exact Hs|].
    apply Forall_app. split; [exact Hs|]. constructor; [|constructor].
    split; [|split].
    + split; [exact Hy|]. exists row, cell. auto.
    + exact Hne.
    + exists row, c. auto.
  - intros H. inv_ok. exists []. constructor.
Qed.

(** The same for the loop of [fetch_competitor_data] over one tab. *)
Lemma selling_step_ok (cy : Z) (loc : string) (col_map : list (string * nat))
  (records records' : list competitor_selling.record) (row : list string) :
  competitor_selling.fetch_step cy loc col_map records row = Ok records' ->
  records' = records
  \/ exists r cell c_brand,
      records' = records ++ [r]
      /\ nth_error row 0 = Some cell
      /\ parse_date (PyStr cell) = Ok (Some (competitor_selling.date r))
      /\ year (competitor_selling.date r) = cy
      /\ nth_error row 1 = Some c_brand
      /\ competitor_selling.brand r = strip c_brand
      /\ nonempty (competitor_selling.brand r) = true.
Proof.
  unfold competitor_selling.fetch_step. intros H.
  inv_bind H. inv_bind H.
  destruct a0 as [dt|]; [|inv_ok; auto].
  destruct (Z.eqb_spec (year dt) cy) as [Hy|Hy]; simpl negb in H; cbv iota in H;
    [|inv_ok; auto].
  inv_bind H.
  destruct (nonempty a0) eqn:En; simpl negb in H; cbv iota in H; [|inv_ok; auto].
  inv_bind H. inv_bind H. inv_ok. right.
  unfold py_index in Ha.
  destruct (nth_error row 0) as [c|] eqn:E0; [|discriminate]. inv_ok.
  destruct (1 <? List.length row)%nat.
  - inv_bind Ha1. inv_ok. unfold py_index in Ha.
    destruct (nth_error row 1) as [c1|] eqn:E1; [|discriminate]. inv_ok.
    do 3 eexists. split; [reflexivity|]. simpl. repeat split; auto.
  - inv_ok. discriminate.
Qed.

Lemma selling_tab_filtered (cy : Z) (tab : string * list (list string))
  (P : competitor_selling.record -> Prop) (acc records : list competitor_selling.record) :
  (forall r, year (competitor_selling.date r) = cy ->
             nonempty (competitor_selling.brand r) = true ->
             (exists row cell, In row (snd tab) /\ nth_error row 0 = Some cell
                               /\ parse_date (PyStr cell)
                                  = Ok (Some (competitor_selling.date r))) ->
             P r) ->
  Forall P acc ->
  competitor_selling.fetch_tab cy acc tab = Ok records -> Forall P records.
Proof.
  destruct tab as [tab_name rows]. unfold competitor_selling.fetch_tab. simpl snd.
  intros HP Hacc.
  destruct (negb (nonempty (strip tab_name))); [intros H; inv_ok; exact Hacc|].
  intros H. inv_bind H. revert H.
  apply for_each_invariant; [|exact Hacc].
  intros s row s' Hrow Hs Hstep.
  apply selling_step_ok in Hstep.
  destruct Hstep as [->|(r & cell & c & -> & Hcell & Hparse & Hy & Hc & Hb & Hne)];
    [exact Hs|].
  apply Forall_app. split; [exact Hs|]. constructor; [|constructor].
  apply HP; auto. exists row, cell. split; [|auto].
  destruct rows; [destruct Hrow|]. right. exact Hrow.
Qed.

Lemma nonempty_true (s : string) : nonempty s = true <-> s <> EmptyString.
Proof. destruct s; simpl; split; congruence. Qed.

(** C7.  A source row contributes to aggregation only if its date cell
    parses and the parsed date's year is the current year, and, where the
    row has an identifying field (competitor name, brand), only if that field
    is not blank.  So every date of every bucket of [aggregate_weekly] and
    [aggregate_weekly_prices], the first and last date of every emitted
    weekly-purchase bucket, and the date of every record fetched for
    competitor buying and selling is the parse of a date cell of a source row
    and lies in the current year; a fetched record's competitor or brand is
    the stripped, non-empty text of its cell. *)
Theorem C7_row_filter (current_year : Z) :
  (forall data weeks key acc d,
      weekly_purchase.group_weeks current_year data = Ok weeks ->
      In (key, acc) weeks -> In d (weekly_purchase.acc_dates acc) ->
      current_year_date current_year data (fun _ => weekly_purchase.COL_DATE) d)
  /\ (forall data rows r,
         weekly_purchase.aggregate_weekly current_year data = Ok rows -> In r rows ->
         current_year_date current_year data (fun _ => weekly_purchase.COL_DATE)
                           (weekly_purchase.w_start (weekly_purchase.stats r))
         /\ current_year_date current_year data (fun _ => weekly_purchase.COL_DATE)
                              (weekly_purchase.w_end (weekly_purchase.stats r)))
  /\ (forall data weeks key acc d,
         doc_price.group_weeks current_year data = Ok weeks ->
         In (key, acc) weeks -> In d (doc_price.acc_dates acc) ->
         current_year_date current_year data (fun _ => 0%nat) d)
  /\ (forall rows records r,
         competitor_buying.fetch_buying_data current_year rows = Ok records ->
         In r records ->
         exists col_map,
           current_year_date current_year rows (fun _ => col_get col_map "Date" 1)
                             (competitor_buying.date r)
           /\ competitor_buying.competitor r <> EmptyString
           /\ exists row c_comp,
                In row rows
                /\ nth_error row (col_get col_map "Competitor Name" 5) = Some c_comp
                /\ competitor_buying.competitor r = strip c_comp)
  /\ (forall tabs records r,
         competitor_selling.fetch_competitor_data current_year tabs = Ok records ->
         In r records ->
         year (competitor_selling.date r) = current_year
         /\ competitor_selling.brand r <> EmptyString
         /\ exists tab row cell,
              In tab tabs /\ In row (snd tab) /\ nth_error row 0 = Some cell
              /\ parse_date (PyStr cell) = Ok (Some (competitor_selling.date r))).
Proof.
  split; [|split; [|split; [|split]]].
  - intros data weeks key acc d H Hin Hd.
    apply weekly_groups_dates in H. rewrite Forall_forall in H.
    specialize (H _ Hin). rewrite Forall_forall in H. apply (H d Hd).
  - intros data rows r H Hin. eapply weekly_rows_dates; eassumption.
  - intros data weeks key acc d H Hin Hd.
    apply price_groups_dates in H. rewrite Forall_forall in H.
    specialize (H _ Hin). rewrite Forall_forall in H. apply (H d Hd).
  - intros rows records r H Hin.
    destruct (buying_records_filtered _ _ _ H) as (col_map & Hall).
    rewrite Forall_forall in Hall. destruct (Hall r Hin) as (Hd & Hne & Hrow).
    exists col_map. split; [exact Hd|]. split; [apply nonempty_true, Hne|exact Hrow].
  - intros tabs records r H Hin.
    assert (Hall : Forall (fun r =>
                     year (competitor_selling.date r) = current_year
                     /\ competitor_selling.brand r <> EmptyString
                     /\ exists tab row cell,
                          In tab tabs /\ In row (snd tab) /\ nth_error row 0 = Some cell
                          /\ parse_date (PyStr cell)
                             = Ok (Some (competitor_selling.date r))) records).
    { revert H. unfold competitor_selling.fetch_competitor_data.
      apply for_each_invariant; [|constructor].
      intros s tab s' Htab Hs Hstep.
      eapply selling_tab_filtered; [|exact Hs|exact Hstep].
      intros r0 Hy Hne (row & cell & Hrow & Hcell & Hparse).
      split; [exact Hy|]. split; [apply nonempty_true, Hne|].
      exists tab, row, cell. auto. }
    rewrite Forall_forall in Hall. exact (Hall r Hin).
Qed.

(** The filter on a sample competitor-buying sheet: of four data rows only
    the first is kept. *)
Lemma C7_row_filter_witness :
  exists r,
    competitor_buying.fetch_buying_data 2025 c7_rows = Ok [r]
    /\ year (competitor_buying.date r) = 2025
    /\ competitor_buying.competitor r <> EmptyString.
Proof.
  destruct (competitor_buying.fetch_buying_data 2025 c7_rows) as [records|e] eqn:E;
    [|vm_compute in E; discriminate E].
  assert (Hr : exists r, records = [r]).
  { vm_compute in E. injection E as <-. eauto. }
  destruct Hr as (r & ->). exists r. split; [reflexivity|].
  destruct (C7_row_filter 2025) as (_ & _ & _ & Hbuy & _).
  destruct (Hbuy c7_rows [r] r E (or_introl eq_refl)) as (col_map & (Hy & _) & Hne & _).
  split; [exact Hy|exact Hne].
Defined.

(** ** competitor_selling.py: grouping by date and location *)

Lemma group_key_eqb_eq (a b : competitor_selling.group_key) :
  competitor_selling.group_key_eqb a b = true <-> a = b.
Proof.
  destruct a as [d l], b as [d' l']. unfold competitor_selling.group_key_eqb. simpl.
  rewrite andb_true_iff, dt_eqb_eq, String.eqb_eq. split.
  - intros [-> ->]. reflexivity.
  - intros H. injection H as -> ->. auto.
Qed.

Section DictLookup.
Context {K V : Type}.
Variable keq : K -> K -> bool.
Hypothesis keq_eq : forall a b, keq a b = true <-> a = b.

Lemma keq_refl (k : K) : keq k k = true.
Proof. apply keq_eq. reflexivity. Qed.

Lemma dict_default_set (d : list (K * V)) (k k' : K) (v dflt : V) :
  dict_default keq (dict_set keq d k v) k' dflt
  = if keq k' k then v else dict_default keq d k' dflt.
Proof.
  unfold dict_default. induction d as [|[k0 v0] d IH]; simpl.
  - destruct (keq k' k); reflexivity.
  - destruct (keq k k0) eqn:E; simpl.
    + apply keq_eq in E. subst k0. destruct (keq k' k); reflexivity.
    + destruct (keq k' k0) eqn:E'.
      * apply keq_eq in E'. subst k0.
        destruct (keq k' k) eqn:E2; [|reflexivity].
        apply keq_eq in E2. subst k'. rewrite keq_refl in E. discriminate.
      * exact IH.
Qed.

Lemma dict_default_In (d : list (K * V)) (k : K) (v dflt : V) :
  NoDup (map fst d) -> In (k, v) d -> dict_default keq d k dflt = v.
Proof.
  unfold dict_default. induction d as [|[k0 v0] d IH]; simpl; intros Hnd Hin; [tauto|].
  inversion Hnd as [|? ? Hnotin Hnd']; subst.
  destruct Hin as [Heq|Hin].
  - injection Heq as -> ->. rewrite keq_refl. reflexivity.
  - destruct (keq k k0) eqn:E; [|apply IH; assumption].
    apply keq_eq in E. subst k0. exfalso. apply Hnotin.
    apply (in_map fst) in Hin. exact Hin.
Qed.
End DictLookup.

Lemma add_price_lookup (r : competitor_selling.record) (groups : competitor_selling.groups_t)
  (p : competitor_selling.product) (key : competitor_selling.group_key) :
  dict_default competitor_selling.group_key_eqb
    (competitor_selling.add_price r groups p) key competitor_selling.group_default
  = let g := dict_default competitor_selling.group_key_eqb groups key
                          competitor_selling.group_default in
    match competitor_selling.price r p with
    | None => g
    | Some x =>
        if competitor_selling.group_key_eqb
             key (competitor_selling.date r, competitor_selling.location r)
        then if competitor_selling.is_pullus r
             then competitor_selling.mkgroup
                    (competitor_selling.append_at (competitor_selling.pullus g) p x)
                    (competitor_selling.competitors g) (competitor_selling.comp_brands g)
             else competitor_selling.mkgroup
                    (competitor_selling.pullus g)
                    (competitor_selling.append_at (competitor_selling.competitors g) p x)
                    (competitor_selling.set_add (competitor_selling.brand r)
                                                (competitor_selling.comp_brands g))
        else g
    end.
Proof.
  unfold competitor_selling.add_price. cbv zeta.
  destruct (competitor_selling.price r p) as [x|]; [|reflexivity].
  rewrite (dict_default_set _ group_key_eqb_eq).
  destruct (competitor_selling.group_key_eqb
              key (competitor_selling.date r, competitor_selling.location r)) eqn:E;
    [|reflexivity].
  apply group_key_eqb_eq in E. subst key. reflexivity.
Qed.

Lemma add_price_NoDup (r : competitor_selling.record) (groups : competitor_selling.groups_t)
  (p : competitor_selling.product) :
  NoDup (map fst groups) -> NoDup (map fst (competitor_selling.add_price r groups p)).
Proof.
  unfold competitor_selling.add_price. intros H.
  destruct (competitor_selling.price r p); [|exact H].
  apply dict_set_NoDup; [apply group_key_eqb_eq|exact H].
Qed.

(** The lists a bucket holds after one record has gone through the loop over
    [PRODUCTS]: the record's present prices are appended where its key and
    brand put them. *)
Lemma add_record_lookup (r : competitor_selling.record) (groups : competitor_selling.groups_t)
  (key : competitor_selling.group_key) (p : competitor_selling.product) :
  let g' := dict_default competitor_selling.group_key_eqb
              (fold_left (competitor_selling.add_price r) competitor_selling.PRODUCTS groups)
              key competitor_selling.group_default in
  let g := dict_default competitor_selling.group_key_eqb groups key
                        competitor_selling.group_default in
  competitor_selling.pullus g' p = competitor_selling.pullus g p ++ contributing [r] key true p
  /\ competitor_selling.competitors g' p
     = competitor_selling.competitors g p ++ contributing [r] key false p.
Proof.
  cbv zeta. unfold competitor_selling.PRODUCTS, contributing. simpl fold_left.
  rewrite !add_price_lookup. cbv zeta. simpl flat_map. rewrite !app_nil_r.
  destruct p;
    destruct (competitor_selling.group_key_eqb
                key (competitor_selling.date r, competitor_selling.location r));
    destruct (competitor_selling.is_pullus r);
    destruct (competitor_selling.price r competitor_selling.WholeChicken);
    destruct (competitor_selling.price r competitor_selling.Gizzard);
    unfold competitor_selling.append_at; simpl; rewrite ?app_nil_r; auto.
Qed.

Lemma contributing_app (xs ys : list competitor_selling.record)
  (key : competitor_selling.group_key) (own : bool) (p : competitor_selling.product) :
  contributing (xs ++ ys) key own p = contributing xs key own p ++ contributing ys key own p.
Proof. unfold contributing. apply flat_map_app. Qed.

Lemma group_records_snoc (records : list competitor_selling.record)
  (r : competitor_selling.record) :
  competitor_selling.group_records (records ++ [r])
  = fold_left (competitor_selling.add_price r) competitor_selling.PRODUCTS
              (competitor_selling.group_records records).
Proof. unfold competitor_selling.group_records. rewrite fold_left_app. reflexivity. Qed.

Lemma group_records_lookup (records : list competitor_selling.record) :
  NoDup (map fst (competitor_selling.group_records records))
  /\ forall key p,
       let g := dict_default competitor_selling.group_key_eqb
                  (competitor_selling.group_records records) key
                  competitor_selling.group_default in
       competitor_selling.pullus g p = contributing records key true p
       /\ competitor_selling.competitors g p = contributing records key false p.
Proof.
  induction records as [|r records IH] using rev_ind.
  - split; [constructor|]. intros key p. split; reflexivity.
  - rewrite group_records_snoc.
    destruct IH as (Hnd & IH). split.
    + unfold competitor_selling.PRODUCTS. simpl fold_left.
      apply add_price_NoDup, add_price_NoDup, Hnd.
    + intros key p. cbv zeta.
      destruct (add_record_lookup r (competitor_selling.group_records records) key p)
        as (Hp & Hc).
      rewrite Hp, Hc, !contributing_app.
      destruct (IH key p) as (-> & ->). auto.
Qed.

(** ** Floats that are not negative *)

Lemma fnonneg_fin (q : Q) : fnonneg (Fin q) = true <-> (0 <= q)%Q.
Proof. simpl. apply Qle_bool_iff. Qed.

Lemma fadd_nonneg (x y : pyfloat) :
  fnonneg x = true -> fnonneg y = true -> fnonneg (fadd x y) = true.
Proof.
  unfold fadd. destruct x as [a|s|], y as [b|t|]; try (simpl; congruence).
  - rewrite !fnonneg_fin. intros Ha Hb. rewrite (Qred_correct (a + b)). lra.
  - simpl. destruct s, t; simpl; congruence.
Qed.

Lemma fsum_nonneg (xs : list pyfloat) :
  Forall (fun x => fnonneg x = true) xs -> fnonneg (fsum xs) = true.
Proof.
  unfold fsum. assert (H0 : fnonneg (Fin 0) = true) by reflexivity.
  revert H0. generalize (Fin 0).
  induction xs as [|x xs IH]; simpl; intros acc Hacc Hxs; [exact Hacc|].
  inversion Hxs; subst. apply IH; [apply fadd_nonneg|]; assumption.
Qed.

Lemma fdiv_count_nonneg (x q : pyfloat) (n : Z) :
  1 <= n -> fnonneg x = true -> fdiv x (of_int n) = Ok q -> fnonneg q = true.
Proof.
  intros Hn Hx.
  assert (Hpos : (0 < inject_Z n)%Q).
  { unfold Qlt. simpl. lia. }
  assert (Hz : q_is_zero (inject_Z n) = false).
  { unfold q_is_zero. simpl. destruct (Z.eqb_spec n 0); [lia|reflexivity]. }
  assert (Hneg : q_is_neg (inject_Z n) = false).
  { unfold q_is_neg. simpl. destruct (Z.ltb_spec n 0); [lia|reflexivity]. }
  unfold fdiv, of_int. rewrite Hz.
  destruct x as [a|s|]; [| |discriminate]; intros H; inv_ok.
  - apply fnonneg_fin in Hx. apply fnonneg_fin. rewrite Qred_correct.
    unfold Qdiv. apply Qmult_le_0_compat; [exact Hx|].
    apply Qinv_le_0_compat. apply Qlt_le_weak, Hpos.
  - rewrite Hneg. destruct s; [discriminate|reflexivity].
Qed.

Lemma round_half_even_nonneg (q : Q) : (0 <= q)%Q -> 0 <= round_half_even q.
Proof.
  intros H. unfold round_half_even.
  assert (Hf : 0 <= Qfloor q).
  { change 0 with (Qfloor 0). apply Qfloor_resp_le, H. }
  destruct (q - inject_Z (Qfloor q) ?= 1 # 2)%Q; [destruct (Z.even (Qfloor q))| |]; lia.
Qed.

Lemma py_round_nonneg (x : pyfloat) (n : nat) :
  fnonneg x = true -> fnonneg (py_round x n) = true.
Proof.
  destruct x as [q|s|]; unfold py_round; auto.
  rewrite !fnonneg_fin. intros Hq. rewrite Qred_correct.
  assert (Hp : (0 < inject_Z (10 ^ Z.of_nat n))%Q).
  { unfold Qlt. simpl. assert (0 < 10 ^ Z.of_nat n) by (apply Z.pow_pos_nonneg; lia). lia. }
  unfold Qdiv. apply Qmult_le_0_compat.
  - assert (Hr : 0 <= round_half_even (q * inject_Z (10 ^ Z.of_nat n))).
    { apply round_half_even_nonneg. apply Qmult_le_0_compat; [exact Hq|].
      apply Qlt_le_weak, Hp. }
    unfold Qle. simpl. lia.
  - apply Qinv_le_0_compat, Qlt_le_weak, Hp.
Qed.

Lemma fpos_nonneg (x : pyfloat) : fpos x = true -> fnonneg x = true.
Proof.
  unfold fpos, flt. destruct x as [q|s|]; simpl; auto.
  destruct (0 ?= q)%Q eqn:E; try discriminate. intros _.
  apply Qle_bool_iff, Qlt_le_weak. exact E.
Qed.


Lemma rounded_mean_nonneg (xs : list pyfloat) (m : pyfloat) (n : nat) :
  Forall (fun x => fnonneg x = true) xs -> rounded_mean xs n = Ok m -> fnonneg m = true.
Proof.
  intros Hxs. unfold rounded_mean. intros H. inv_bind H. inv_ok.
  apply py_round_nonneg.
  destruct xs as [|x xs].
  - unfold fdiv, of_int in Ha. simpl in Ha. discriminate.
  - eapply fdiv_count_nonneg; [|apply fsum_nonneg, Hxs|exact Ha].
    simpl List.length. lia.
Qed.

(** ** competitor_selling.py: the output rows *)

Lemma mean_or_none_claimed (xs : list pyfloat) :
  exists o, mean_or_none xs = Ok o /\ claimed_mean xs o.
Proof.
  unfold mean_or_none, claimed_mean. destruct xs as [|x xs]; [eauto|].
  destruct (rounded_mean_nonempty (x :: xs) 0) as (m & Hm); [discriminate|].
  rewrite Hm, bind_ret. eauto.
Qed.


(** The three columns of a product: both means as the claim words them, and
    the differential under the guard of the source. *)
Lemma product_cols_of_total (pullus_prices comp_prices : list pyfloat) :
  exists c,
    competitor_selling.product_cols_of pullus_prices comp_prices = Ok c
    /\ claimed_mean pullus_prices (competitor_selling.pullus_price c)
    /\ claimed_mean comp_prices (competitor_selling.comp_avg c)
    /\ match competitor_selling.pullus_price c, competitor_selling.comp_avg c with
       | Some a, Some b =>
           if truthy a && truthy b && fpos b
           then differential a b (competitor_selling.diff_pct c)
           else competitor_selling.diff_pct c = None
       | _, _ => competitor_selling.diff_pct c = None
       end.
Proof.
  unfold competitor_selling.product_cols_of.
  destruct (mean_or_none_claimed pullus_prices) as (op & -> & Hp).
  destruct (mean_or_none_claimed comp_prices) as (oc & -> & Hc).
  rewrite !bind_ret.
  destruct op as [a|], oc as [b|];
    try (rewrite bind_ret; eexists; split; [reflexivity|]; simpl; auto; fail).
  destruct (truthy a && truthy b && fpos b) eqn:E.
  - assert (Eb : truthy b = true).
    { apply andb_true_iff in E. destruct E as (E & _).
      apply andb_true_iff in E. apply E. }
    destruct (pct_diff_truthy a b Eb) as (x & Hx). rewrite Hx, !bind_ret.
    eexists. split; [reflexivity|]. simpl.
    split; [exact Hp|]. split; [exact Hc|]. rewrite E.
    unfold pct_diff in Hx. inv_bind Hx. inv_ok. unfold differential. eauto.
  - rewrite bind_ret. eexists. split; [reflexivity|]. simpl. rewrite E. auto.
Qed.

Lemma selling_emit_rows_total
  (items : list (competitor_selling.group_key * competitor_selling.group)) :
  exists rows,
    competitor_selling.emit_rows items = Ok rows
    /\ forall row, In row rows ->
                   exists kv, In kv items /\ competitor_selling.emit_row kv = Ok row.
Proof.
  induction items as [|kv items IH]; simpl.
  - eexists. split; [reflexivity|]. intros row [].
  - destruct IH as (rows & Hrows & Hall).
    assert (Hkv : exists row, competitor_selling.emit_row kv = Ok row).
    { destruct kv as [[dt loc] vals]. unfold competitor_selling.emit_row.
      destruct (product_cols_of_total
                  (competitor_selling.pullus vals competitor_selling.WholeChicken)
                  (competitor_selling.competitors vals competitor_selling.WholeChicken))
        as (wc & -> & _).
      destruct (product_cols_of_total
                  (competitor_selling.pullus vals competitor_selling.Gizzard)
                  (competitor_selling.competitors vals competitor_selling.Gizzard))
        as (gz & -> & _).
      rewrite !bind_ret. eauto. }
    destruct Hkv as (row & Hrow). rewrite Hrow, Hrows, !bind_ret.
    eexists. split; [reflexivity|].
    intros row' [<-|Hin]; [exists kv; auto|].
    destruct (Hall row' Hin) as (kv' & Hkv' & He). exists kv'. auto.
Qed.

Lemma selling_emit_row_cols (kv : competitor_selling.group_key * competitor_selling.group)
  (row : competitor_selling.agg_row) (p : competitor_selling.product) :
  competitor_selling.emit_row kv = Ok row ->
  (competitor_selling.a_date row, competitor_selling.a_location row) = fst kv
  /\ competitor_selling.product_cols_of (competitor_selling.pullus (snd kv) p)
                                        (competitor_selling.competitors (snd kv) p)
     = Ok (competitor_selling.cols row p).
Proof.
  destruct kv as [[dt loc] vals]. unfold competitor_selling.emit_row. intros H.
  inv_bind H. inv_bind H. inv_ok. simpl. split; [reflexivity|].
  destruct p; assumption.
Qed.

(** [aggregate_by_date_location] always returns, and in every row each
    product's two means are taken over exactly the present prices of the
    bucket's Pullus records and of its competitor records. *)
Lemma selling_aggregate_rows (records : list competitor_selling.record) :
  exists rows,
    competitor_selling.aggregate_by_date_location records = Ok rows
    /\ forall row p,
         In row rows ->
         let key := (competitor_selling.a_date row, competitor_selling.a_location row) in
         competitor_selling.product_cols_of (contributing records key true p)
                                            (contributing records key false p)
         = Ok (competitor_selling.cols row p).
Proof.
  unfold competitor_selling.aggregate_by_date_location.
  destruct (selling_emit_rows_total
              (sorted (by_key competitor_selling.group_key_ltb)
                      (competitor_selling.group_records records)))
    as (rows & Hrows & Hall).
  exists rows. split; [exact Hrows|].
  intros row p Hin. cbv zeta.
  destruct (Hall row Hin) as ([key g] & Hkv & He).
  apply sorted_In in Hkv.
  destruct (selling_emit_row_cols _ _ p He) as (Hkey & Hcols).
  simpl in Hkey, Hcols. rewrite Hkey.
  destruct (group_records_lookup records) as (Hnd & Hlook).
  specialize (Hlook key p). cbv zeta in Hlook.
  rewrite (dict_default_In _ group_key_eqb_eq _ _ _ _ Hnd Hkv) in Hlook.
  destruct Hlook as (<- & <-). exact Hcols.
Qed.


(** ** competitor_buying.py: the summary *)

Lemma truthy_prices_dressed (field : competitor_buying.record -> option pyfloat)
  (records : list competitor_buying.record) :
  competitor_buying.truthy_prices field
    (filter (fun r => String.eqb (competitor_buying.product_type r) "Dressed Birds") records)
  = dressed_prices field records.
Proof.
  unfold competitor_buying.truthy_prices, dressed_prices.
  induction records as [|r records IH]; simpl; [reflexivity|].
  destruct (String.eqb (competitor_buying.product_type r) "Dressed Birds"); simpl;
    rewrite IH; reflexivity.
Qed.

Lemma mean_or_zero_total (xs : list pyfloat) :
  exists m, competitor_buying.mean_or_zero xs = Ok m /\ zero_or_mean xs m.
Proof.
  unfold competitor_buying.mean_or_zero, zero_or_mean. destruct xs as [|x xs]; [eauto|].
  destruct (rounded_mean_nonempty (x :: xs) 0) as (m & Hm); [discriminate|]. eauto.
Qed.

(** [compute_summary] always returns; its two means are zero over no
    contributing price, and its differential is zero when the competitor
    mean is zero. *)
Lemma compute_summary_total (records : list competitor_buying.record) :
  exists s,
    competitor_buying.compute_summary records = Ok s
    /\ zero_or_mean (dressed_prices competitor_buying.pullus_price records)
                    (competitor_buying.avg_pullus s)
    /\ zero_or_mean (dressed_prices competitor_buying.comp_price records)
                    (competitor_buying.avg_comp s)
    /\ (if truthy (competitor_buying.avg_comp s)
        then differential (competitor_buying.avg_pullus s) (competitor_buying.avg_comp s)
                          (Some (competitor_buying.diff_pct s))
        else competitor_buying.diff_pct s = Fin 0).
Proof.
  unfold competitor_buying.compute_summary. cbv zeta.
  rewrite !truthy_prices_dressed.
  destruct (mean_or_zero_total (dressed_prices competitor_buying.pullus_price records))
    as (ap & -> & Hap).
  destruct (mean_or_zero_total (dressed_prices competitor_buying.comp_price records))
    as (ac & -> & Hac).
  rewrite !bind_ret.
  destruct (truthy ac) eqn:E.
  - destruct (pct_diff_truthy ap ac E) as (d & Hd). rewrite Hd, bind_ret.
    eexists. split; [reflexivity|]. simpl.
    split; [exact Hap|]. split; [exact Hac|]. rewrite E.
    unfold pct_diff in Hd. inv_bind Hd. inv_ok. unfold differential. eauto.
  - rewrite bind_ret. eexists. split; [reflexivity|]. simpl.
    split; [exact Hap|]. split; [exact Hac|]. rewrite E. reflexivity.
Qed.

(** ** Means of finite values are the rational means *)



(** ** The prices [parse_price] returns are not negative *)

Lemma positive_floats_pos (cells : list string) (ps : list pyfloat) :
  positive_floats cells = Ok ps -> Forall (fun p => fpos p = true) ps.
Proof.
  intros H. destruct (positive_floats_total cells) as (ps' & H' & Hall). congruence.
Qed.

Lemma mean_or_none_nonneg (parts : list pyfloat) (x : pyfloat) :
  Forall (fun p => fpos p = true) parts -> mean_or_none parts = Ok (Some x) ->
  fnonneg x = true.
Proof.
  intros Hall. unfold mean_or_none. destruct parts as [|p parts]; [discriminate|].
  intros H. inv_bind H. inv_ok.
  eapply rounded_mean_nonneg; [|exact Ha].
  eapply Forall_impl; [|exact Hall]. intros y. apply fpos_nonneg.
Qed.

Lemma positive_or_none_pos (val : string) (x : pyfloat) :
  positive_or_none val = Ok (Some x) -> fpos x = true.
Proof.
  unfold positive_or_none. intros H. inv_bind H.
  destruct (fpos a) eqn:E; inv_ok. exact E.
Qed.

Lemma parse_price_nonneg (val : string) (x : pyfloat) :
  competitor_selling.parse_price val = Ok (Some x) -> fnonneg x = true.
Proof.
  unfold competitor_selling.parse_price.
  destruct (negb (nonempty val) || negb (nonempty (strip val))); [discriminate|].
  destruct (contains "/" (strip val)).
  - intros H. inv_bind H.
    eapply mean_or_none_nonneg; [eapply positive_floats_pos|]; eassumption.
  - intros H. apply fpos_nonneg. eapply positive_or_none_pos, H.
Qed.




(** ** C1: the percentage differential *)




(** ** C2: means over the present values *)



(** ** Strings *)





Lemma all_chars_app (P : ascii -> bool) (a b : string) :
  all_chars P (a ++ b)%string = all_chars P a && all_chars P b.
Proof.
  induction a as [|c a IH]; simpl; [reflexivity|]. rewrite IH, andb_assoc. reflexivity.
Qed.


Lemma remove_char_app (x : ascii) (a b : string) :
  remove_char x (a ++ b)%string = (remove_char x a ++ remove_char x b)%string.
Proof.
  induction a as [|c a IH]; simpl; [reflexivity|].
  destruct (Ascii.eqb c x); simpl; rewrite IH; reflexivity.
Qed.

Lemma remove_char_absent (x : ascii) (s : string) :
  all_chars (fun c => negb (Ascii.eqb c x)) s = true -> remove_char x s = s.
Proof.
  induction s as [|c s IH]; simpl; [reflexivity|].
  rewrite andb_true_iff. intros [Hc Hs].
  destruct (Ascii.eqb c x); [discriminate|]. rewrite IH; auto.
Qed.

Lemma remove_char_clean (x : ascii) (s : string) :
  all_chars (fun c => negb (Ascii.eqb c x)) (remove_char x s) = true.
Proof.
  induction s as [|c s IH]; simpl; [reflexivity|].
  destruct (Ascii.eqb c x) eqn:E; [exact IH|]. simpl. rewrite E, IH. reflexivity.
Qed.

Lemma remove_char_idem (x : ascii) (s : string) :
  remove_char x (remove_char x s) = remove_char x s.
Proof. apply remove_char_absent, remove_char_clean. Qed.


(** *** Stripping *)

Section Strip.
Variable sp : ascii -> bool.

Lemma lstrip_nonspace (s : string) :
  (match s with String c _ => sp c = false | EmptyString => True end) ->
  lstrip_by sp s = s.
Proof. destruct s as [|c s]; simpl; [reflexivity|]. intros ->. reflexivity. Qed.



Lemma lstrip_rstrip_comm (s : string) :
  rstrip_by sp (lstrip_by sp s) = lstrip_by sp (rstrip_by sp s).
Proof.
  induction s as [|c s IH]; [reflexivity|].
  simpl lstrip_by at 1. destruct (sp c) eqn:Ec.
  - rewrite IH. simpl rstrip_by. destruct (rstrip_by sp s) as [|c' r] eqn:Er.
    + rewrite Ec. reflexivity.
    + simpl. rewrite Ec. reflexivity.
  - simpl rstrip_by. destruct (rstrip_by sp s) as [|c' r] eqn:Er.
    + rewrite Ec. simpl. rewrite Ec. reflexivity.
    + simpl. rewrite Ec. reflexivity.
Qed.

Variable x : ascii.
Hypothesis x_not_space : sp x = false.

Lemma space_not_x (c : ascii) : sp c = true -> Ascii.eqb c x = false.
Proof.
  intros Hc. destruct (Ascii.eqb_spec c x) as [->|]; [congruence|reflexivity].
Qed.

Lemma lstrip_remove_lstrip (s : string) :
  lstrip_by sp (remove_char x (lstrip_by sp s)) = lstrip_by sp (remove_char x s).
Proof.
  induction s as [|c s IH]; [reflexivity|].
  simpl lstrip_by at 2. destruct (sp c) eqn:Ec; [|reflexivity].
  rewrite IH. simpl. rewrite (space_not_x c Ec). simpl. rewrite Ec. reflexivity.
Qed.

Lemma rstrip_remove_rstrip (s : string) :
  rstrip_by sp (remove_char x (rstrip_by sp s)) = rstrip_by sp (remove_char x s).
Proof.
  induction s as [|c s IH]; [reflexivity|].
  simpl rstrip_by at 2. destruct (rstrip_by sp s) as [|c' r] eqn:Er.
  - simpl in IH. destruct (sp c) eqn:Ec.
    + simpl. rewrite (space_not_x c Ec). simpl. rewrite <- IH, Ec. reflexivity.
    + simpl. destruct (Ascii.eqb c x); [exact IH|].
      simpl. rewrite <- IH, Ec. reflexivity.
  - simpl remove_char. destruct (Ascii.eqb c x); [exact IH|].
    change (remove_char x (String c' r))
      with (if Ascii.eqb c' x then remove_char x r else String c' (remove_char x r)) in *.
    simpl rstrip_by. rewrite <- IH. reflexivity.
Qed.

Lemma strip_remove_strip (s : string) :
  rstrip_by sp (lstrip_by sp (remove_char x (rstrip_by sp (lstrip_by sp s))))
  = rstrip_by sp (lstrip_by sp (remove_char x s)).
Proof.
  rewrite (lstrip_rstrip_comm s).
  rewrite lstrip_remove_lstrip.
  rewrite lstrip_rstrip_comm, rstrip_remove_rstrip, <- lstrip_rstrip_comm.
  reflexivity.
Qed.
End Strip.

(** *** Containment and splitting *)






Section Split.
Variable c0 : ascii.
Variable sep' : string.



End Split.

(** ** C4: the price normalizers *)

Lemma safe_float_strip (s : string) : safe_float (PyStr (strip s)) = safe_float (PyStr s).
Proof.
  unfold safe_float, py_str, strip.
  rewrite (strip_remove_strip is_space "," eq_refl s). reflexivity.
Qed.

Lemma safe_float_remove (s : string) :
  safe_float (PyStr (remove_char "," s)) = safe_float (PyStr s).
Proof. unfold safe_float, py_str. rewrite remove_char_idem. reflexivity. Qed.
















(** ** C8: malformed dates and numbers *)


Lemma parse_date_from_all_fail (fmts : list string) (s : string) :
  (forall fmt, In fmt fmts -> exists e, strptime (strip s) fmt = Raise e) ->
  parse_date_from fmts (PyStr s) = Ok None.
Proof.
  induction fmts as [|fmt rest IH]; intros H; rewrite parse_date_from_str; [reflexivity|].
  destruct (H fmt (or_introl eq_refl)) as (e & ->).
  apply IH. intros f Hf. apply H. right. exact Hf.
Qed.

Lemma parse_date_from_found (fmts : list string) (s : string) (d : datetime) :
  parse_date_from fmts (PyStr s) = Ok (Some d) ->
  exists fmt, In fmt fmts /\ strptime (strip s) fmt = Ok d.
Proof.
  induction fmts as [|fmt rest IH]; rewrite parse_date_from_str; [discriminate|].
  destruct (strptime (strip s) fmt) as [d'|e] eqn:E.
  - intros H. inv_ok. exists fmt. split; [left; reflexivity|exact E].
  - intros H. destruct (IH H) as (f & Hf & Hd). exists f. split; [right; exact Hf|exact Hd].
Qed.






(** ** C5: writing a date and reading it back *)

(** *** Characters and their kinds *)

Lemma kind_of_digit (c : ascii) : is_digit c = true -> kind_of c = KDigit.
Proof. intros H. unfold kind_of. rewrite H. reflexivity. Qed.

Lemma kind_of_space (c : ascii) : is_space c = true -> kind_of c = KSpace.
Proof.
  destruct c as [[] [] [] [] [] [] [] []]; intros H; try discriminate H; reflexivity.
Qed.

Lemma kind_of_letter (c : ascii) : is_lower (lower_char c) = true -> kind_of c = KAlpha.
Proof.
  destruct c as [[] [] [] [] [] [] [] []]; intros H; try discriminate H; reflexivity.
Qed.

Lemma lower_char_lower (n : ascii) : is_lower n = true -> lower_char n = n.
Proof.
  destruct n as [[] [] [] [] [] [] [] []]; intros H; try discriminate H; reflexivity.
Qed.

Lemma lower_char_plain (a : ascii) :
  plain (lower_char a) = true -> lower_char a = a /\ kind_of a = KOther a.
Proof.
  destruct a as [[] [] [] [] [] [] [] []]; intros H; try discriminate H; split; reflexivity.
Qed.

Lemma plain_lower_char (c : ascii) : plain c = true -> lower_char c = c.
Proof.
  destruct c as [[] [] [] [] [] [] [] []]; intros H; try discriminate H; reflexivity.
Qed.

Lemma in_range_digit (lo hi : N) (c : ascii) :
  in_range lo hi c = true -> (48 <= lo)%N -> (hi <= 57)%N -> is_digit c = true.
Proof.
  unfold is_digit, in_range. intros H Hlo Hhi.
  apply andb_true_iff in H. destruct H as (H1 & H2).
  apply N.leb_le in H1, H2. apply andb_true_iff. split; apply N.leb_le; lia.
Qed.

Lemma digit19_digit (c : ascii) : is_digit19 c = true -> is_digit c = true.
Proof. intros H. apply (in_range_digit _ _ _ H); lia. Qed.

Lemma eqb_kind (a c : ascii) : Ascii.eqb a c = true -> kind_of a = kind_of c.
Proof. intros H. apply Ascii.eqb_eq in H. subst. reflexivity. Qed.

(** *** The shape matcher admits every match of the matcher *)

Lemma day_alts_shape (s : string) (v : Z) (r : string) :
  In (v, r) (day_alts s) -> In (shape r) (shape_alts (TDir DDay) (shape s)).
Proof.
  destruct s as [|a [|b r2]]; simpl day_alts.
  - intros [].
  - destruct (is_digit19 a) eqn:Ea; simpl; [|intros []].
    intros [[= <- <-]|[]]. rewrite (kind_of_digit a (digit19_digit a Ea)). left. reflexivity.
  - rewrite !in_app_iff.
    intros [[H|[H|H]]|[H|H]].
    + destruct (Ascii.eqb a "3" && in_range 48 49 b) eqn:E; [|destruct H].
      destruct H as [[= <- <-]|[]]. apply andb_true_iff in E. destruct E as (E1 & E2).
      simpl shape. rewrite (eqb_kind _ _ E1), (kind_of_digit b).
      * left. reflexivity.
      * apply (in_range_digit _ _ _ E2); lia.
    + destruct (in_range 49 50 a && is_digit b) eqn:E; [|destruct H].
      destruct H as [[= <- <-]|[]]. apply andb_true_iff in E. destruct E as (E1 & E2).
      simpl shape. rewrite (kind_of_digit a), (kind_of_digit b E2).
      * left. reflexivity.
      * apply (in_range_digit _ _ _ E1); lia.
    + destruct (Ascii.eqb a "0" && is_digit19 b) eqn:E; [|destruct H].
      destruct H as [[= <- <-]|[]]. apply andb_true_iff in E. destruct E as (E1 & E2).
      simpl shape. rewrite (eqb_kind _ _ E1), (kind_of_digit b (digit19_digit b E2)).
      left. reflexivity.
    + destruct (is_digit19 a) eqn:E; [|destruct H].
      destruct H as [[= <- <-]|[]].
      simpl shape. rewrite (kind_of_digit a (digit19_digit a E)).
      destruct (kind_of b); simpl; auto.
    + destruct (Ascii.eqb a " " && is_digit19 b) eqn:E; [|destruct H].
      destruct H as [[= <- <-]|[]]. apply andb_true_iff in E. destruct E as (E1 & E2).
      simpl shape. rewrite (eqb_kind _ _ E1), (kind_of_digit b (digit19_digit b E2)).
      left. reflexivity.
Qed.

Lemma month_alts_shape (s : string) (v : Z) (r : string) :
  In (v, r) (month_alts s) -> In (shape r) (shape_alts (TDir DMonth) (shape s)).
Proof.
  destruct s as [|a [|b r2]]; simpl month_alts.
  - intros [].
  - destruct (is_digit19 a) eqn:Ea; simpl; [|intros []].
    intros [[= <- <-]|[]]. rewrite (kind_of_digit a (digit19_digit a Ea)). left. reflexivity.
  - rewrite !in_app_iff.
    intros [[H|H]|H].
    + destruct (Ascii.eqb a "1" && in_range 48 50 b) eqn:E; [|destruct H].
      destruct H as [[= <- <-]|[]]. apply andb_true_iff in E. destruct E as (E1 & E2).
      simpl shape. rewrite (eqb_kind _ _ E1), (kind_of_digit b).
      * left. reflexivity.
      * apply (in_range_digit _ _ _ E2); lia.
    + destruct (Ascii.eqb a "0" && is_digit19 b) eqn:E; [|destruct H].
      destruct H as [[= <- <-]|[]]. apply andb_true_iff in E. destruct E as (E1 & E2).
      simpl shape. rewrite (eqb_kind _ _ E1), (kind_of_digit b (digit19_digit b E2)).
      left. reflexivity.
    + destruct (is_digit19 a) eqn:E; [|destruct H].
      destruct H as [[= <- <-]|[]].
      simpl shape. rewrite (kind_of_digit a (digit19_digit a E)).
      destruct (kind_of b); simpl; auto.
Qed.

Lemma year_alts_shape (s : string) (v : Z) (r : string) :
  In (v, r) (year_alts s) -> In (shape r) (shape_alts (TDir DYear) (shape s)).
Proof.
  destruct s as [|a [|b [|c [|d r4]]]]; simpl year_alts; try (intros []).
  destruct (is_digit a && is_digit b && is_digit c && is_digit d) eqn:E; [|intros []].
  intros [[= <- <-]|[]].
  apply andb_true_iff in E. destruct E as (E & Ed).
  apply andb_true_iff in E. destruct E as (E & Ec).
  apply andb_true_iff in E. destruct E as (Ea & Eb).
  simpl shape.
  rewrite (kind_of_digit a Ea), (kind_of_digit b Eb), (kind_of_digit c Ec), (kind_of_digit d Ed).
  left. reflexivity.
Qed.

Lemma ci_prefix_shape (name s r : string) :
  all_chars is_lower name = true -> ci_prefix name s = Some r ->
  drop_letters (String.length name) (shape s) = [shape r].
Proof.
  revert s. induction name as [|n name IH]; intros s Hn H.
  - simpl in H. inv_ok. reflexivity.
  - simpl in Hn. apply andb_true_iff in Hn. destruct Hn as (Hlow & Hn).
    destruct s as [|c s]; [discriminate H|]. simpl in H.
    destruct (Ascii.eqb (lower_char c) (lower_char n)) eqn:E; [|discriminate H].
    apply Ascii.eqb_eq in E. rewrite (lower_char_lower n Hlow) in E.
    simpl. rewrite (kind_of_letter c) by (rewrite E; exact Hlow).
    apply IH; assumption.
Qed.

Lemma name_alts_shape (names : list (string * Z)) (s : string) (v : Z) (r : string) :
  forallb (fun nv => all_chars is_lower (fst nv)) names = true ->
  In (v, r) (name_alts names s) -> In (shape r) (shape_names names (shape s)).
Proof.
  unfold name_alts, shape_names. intros Hn H.
  apply in_flat_map in H. destruct H as ((name & w) & Hin & H).
  apply in_flat_map. exists (name, w). split; [exact Hin|].
  destruct (ci_prefix name s) as [r'|] eqn:E; [|destruct H].
  destruct H as [[= <- <-]|[]].
  rewrite forallb_forall in Hn. specialize (Hn _ Hin). simpl in Hn.
  rewrite (ci_prefix_shape name s r' Hn E). left. reflexivity.
Qed.

Lemma space_alts_shape (s : string) (v : Z) (r : string) :
  In (v, r) (space_alts s) -> In (shape r) (shape_spaces (shape s)).
Proof.
  induction s as [|c s IH]; simpl; [intros []|].
  destruct (is_space c) eqn:E; [|intros []].
  rewrite (kind_of_space c E). rewrite !in_app_iff. intros [H|[[= <- <-]|[]]].
  - left. apply IH, H.
  - right. left. reflexivity.
Qed.

Lemma lit_alts_shape (c : ascii) (s : string) (v : Z) (r : string) :
  In (v, r) (lit_alts c s) -> In (shape r) (shape_alts (TLit c) (shape s)).
Proof.
  destruct s as [|a s]; simpl; [intros []|].
  destruct (Ascii.eqb (lower_char a) (lower_char c)) eqn:E; [|intros []].
  intros [[= <- <-]|[]].
  destruct (plain c) eqn:Hc; [|left; reflexivity].
  apply Ascii.eqb_eq in E. rewrite (plain_lower_char c Hc) in E.
  assert (Ha : plain (lower_char a) = true) by (rewrite E; exact Hc).
  destruct (lower_char_plain a Ha) as (Hl & Hk).
  rewrite Hk, <- E, Hl, Ascii.eqb_refl. left. reflexivity.
Qed.

Lemma alts_shape (t : token) (s : string) (v : Z) (r : string) :
  In (v, r) (alts t s) -> In (shape r) (shape_alts t (shape s)).
Proof.
  destruct t as [[]| |c].
  - apply day_alts_shape.
  - apply month_alts_shape.
  - apply year_alts_shape.
  - apply name_alts_shape. reflexivity.
  - apply name_alts_shape. reflexivity.
  - apply space_alts_shape.
  - apply lit_alts_shape.
Qed.

Lemma first_match_In (continue : string -> fields -> option (fields * string))
  (t : token) (f : fields) (al : list (Z * string)) (m : fields * string) :
  first_match continue t f al = Some m ->
  exists v r, In (v, r) al /\ continue r (store t v f) = Some m.
Proof.
  induction al as [|[v r] al IH]; simpl; [discriminate|].
  destruct (continue r (store t v f)) as [m'|] eqn:E.
  - intros H. inv_ok. exists v, r. auto.
  - intros H. destruct (IH H) as (v' & r' & Hin & Hc). exists v', r'. auto.
Qed.

Lemma match_tokens_shape (ts : list token) :
  forall s f m, match_tokens ts s f = Some m -> shape_match ts (shape s) = true.
Proof.
  induction ts as [|t ts IH]; intros s f m H; [reflexivity|].
  simpl in H. apply first_match_In in H. destruct H as (v & r & Hin & Hc).
  simpl. apply existsb_exists. exists (shape r). split.
  - apply (alts_shape t s v r Hin).
  - apply (IH _ _ _ Hc).
Qed.

(** A text whose shape the pattern cannot match is refused. *)
Lemma strptime_shape (s fmt : string) (ts : list token) :
  compile_format fmt = Some ts -> shape_match ts (shape s) = false ->
  strptime s fmt = Raise ValueError.
Proof.
  intros Hc Hm. unfold strptime. rewrite Hc.
  destruct (match_tokens ts s default_fields) as [[f r]|] eqn:E; [|reflexivity].
  apply match_tokens_shape in E. congruence.
Qed.

(** *** What [strftime] writes *)

Lemma valid_date_bounds (y m d : Z) :
  valid_date y m d = true -> 1 <= y <= 9999 /\ 1 <= m <= 12 /\ 1 <= d <= 31.
Proof.
  unfold valid_date, days_in_month. intros H.
  repeat (apply andb_true_iff in H; destruct H as (H & ?)).
  repeat match goal with
         | H : (_ <=? _) = true |- _ => apply Z.leb_le in H
         end.
  destruct (m =? 2); [destruct (is_leap y)|]; try lia.
  destruct ((m =? 4) || (m =? 6) || (m =? 9) || (m =? 11)); lia.
Qed.

Lemma digit_char_spec (k : Z) :
  0 <= k <= 9 ->
  is_digit (digit_char k) = true /\ digit_val (digit_char k) = k
  /\ is_space (digit_char k) = false.
Proof. intros H. zcases k 0 10%nat; repeat split; reflexivity. Qed.

Lemma shape_app (a b : string) : shape (a ++ b) = shape a ++ shape b.
Proof. induction a as [|c a IH]; simpl; [reflexivity|]. rewrite IH. reflexivity. Qed.

Lemma shape_two_digits (n : Z) : 0 <= n <= 99 -> shape (two_digits n) = [KDigit; KDigit].
Proof.
  intros H. unfold two_digits. simpl shape.
  rewrite !kind_of_digit; [reflexivity| |]; apply digit_char_spec;
    Z.div_mod_to_equations; lia.
Qed.

Lemma shape_four_digits (n : Z) :
  0 <= n <= 9999 -> shape (four_digits n) = [KDigit; KDigit; KDigit; KDigit].
Proof.
  intros H. unfold four_digits. simpl shape.
  rewrite !kind_of_digit; [reflexivity| | | |]; apply digit_char_spec;
    Z.div_mod_to_equations; lia.
Qed.

Lemma shape_month_abbr (m : Z) :
  1 <= m <= 12 -> shape (month_abbr m) = [KAlpha; KAlpha; KAlpha].
Proof. intros H. zcases m 1 12%nat; reflexivity. Qed.

Lemma shape_month_name (m : Z) :
  1 <= m <= 12 ->
  shape (month_name m) = repeat KAlpha (String.length (month_name m))
  /\ (3 <= String.length (month_name m) <= 9)%nat
  /\ (String.length (month_name m) = 3%nat -> m = 5).
Proof.
  intros H. zcases m 1 12%nat; (split; [reflexivity|split; [simpl; lia|]]);
    simpl; intros; try reflexivity; try discriminate.
Qed.

(** *** Trimming a text with no white space at its ends *)

Lemma kind_not_space (c : ascii) : kind_of c <> KSpace -> is_space c = false.
Proof.
  intros H. destruct (is_space c) eqn:E; [|reflexivity].
  exfalso. apply H, kind_of_space, E.
Qed.

Lemma rstrip_shape (s : string) :
  last (shape s) KDigit <> KSpace -> rstrip_by is_space s = s.
Proof.
  induction s as [|c s IH]; [reflexivity|].
  destruct s as [|c' s'].
  - simpl. intros H. rewrite (kind_not_space c H). reflexivity.
  - intros H. change (last (shape (String c (String c' s'))) KDigit)
      with (last (shape (String c' s')) KDigit) in H.
    change (rstrip_by is_space (String c (String c' s')))
      with (match rstrip_by is_space (String c' s') with
            | EmptyString => if is_space c then EmptyString else String c EmptyString
            | r => String c r
            end).
    rewrite (IH H). reflexivity.
Qed.

Lemma strip_shape (s : string) :
  hd KDigit (shape s) <> KSpace -> last (shape s) KDigit <> KSpace -> strip s = s.
Proof.
  intros Hh Hl. unfold strip. rewrite lstrip_nonspace.
  - apply rstrip_shape, Hl.
  - destruct s as [|c s]; [exact I|]. apply kind_not_space, Hh.
Qed.

(** *** The matcher on what [strftime] wrote *)

Lemma match_tokens_head (t : token) (ts : list token) (s r : string) (f : fields)
  (v : Z) (tl : list (Z * string)) (m : fields * string) :
  alts t s = (v, r) :: tl -> match_tokens ts r (store t v f) = Some m ->
  match_tokens (t :: ts) s f = Some m.
Proof. intros Ha Hm. simpl. rewrite Ha. simpl. rewrite Hm. reflexivity. Qed.

Lemma step_day (d : Z) (r : string) (ts : list token) (f : fields) (m : fields * string) :
  1 <= d <= 31 ->
  match_tokens ts r (store (TDir DDay) d f) = Some m ->
  match_tokens (TDir DDay :: ts) (two_digits d ++ r) f = Some m.
Proof.
  intros H Hm.
  assert (exists tl, day_alts (two_digits d ++ r) = (d, r) :: tl) as (tl & Ha)
    by (zcases d 1 31%nat; eexists; reflexivity).
  exact (match_tokens_head (TDir DDay) ts _ r f d tl m Ha Hm).
Qed.

Lemma step_month (k : Z) (r : string) (ts : list token) (f : fields) (m : fields * string) :
  1 <= k <= 12 ->
  match_tokens ts r (store (TDir DMonth) k f) = Some m ->
  match_tokens (TDir DMonth :: ts) (two_digits k ++ r) f = Some m.
Proof.
  intros H Hm.
  assert (exists tl, month_alts (two_digits k ++ r) = (k, r) :: tl) as (tl & Ha)
    by (zcases k 1 12%nat; eexists; reflexivity).
  exact (match_tokens_head (TDir DMonth) ts _ r f k tl m Ha Hm).
Qed.

Lemma year_alts_four_digits (y : Z) (r : string) :
  0 <= y <= 9999 -> year_alts (four_digits y ++ r) = [(y, r)].
Proof.
  intros H. unfold four_digits. cbn [String.append year_alts].
  destruct (digit_char_spec (y / 1000)) as (Da & Va & _); [Z.div_mod_to_equations; lia|].
  destruct (digit_char_spec (y / 100 mod 10)) as (Db & Vb & _); [Z.div_mod_to_equations; lia|].
  destruct (digit_char_spec (y / 10 mod 10)) as (Dc & Vc & _); [Z.div_mod_to_equations; lia|].
  destruct (digit_char_spec (y mod 10)) as (Dd & Vd & _); [Z.div_mod_to_equations; lia|].
  rewrite Da, Db, Dc, Dd, Va, Vb, Vc, Vd. cbn [andb]. do 2 f_equal.
  Z.div_mod_to_equations. lia.
Qed.

Lemma step_year (y : Z) (r : string) (ts : list token) (f : fields) (m : fields * string) :
  0 <= y <= 9999 ->
  match_tokens ts r (store (TDir DYear) y f) = Some m ->
  match_tokens (TDir DYear :: ts) (four_digits y ++ r) f = Some m.
Proof.
  intros H Hm.
  exact (match_tokens_head (TDir DYear) ts _ r f y [] m (year_alts_four_digits y r H) Hm).
Qed.

Lemma step_abbr (k : Z) (r : string) (ts : list token) (f : fields) (m : fields * string) :
  1 <= k <= 12 ->
  match_tokens ts r (store (TDir DAbbr) k f) = Some m ->
  match_tokens (TDir DAbbr :: ts) (month_abbr k ++ r) f = Some m.
Proof.
  intros H Hm.
  assert (exists tl, name_alts abbr_names (month_abbr k ++ r) = (k, r) :: tl) as (tl & Ha)
    by (zcases k 1 12%nat; eexists; reflexivity).
  exact (match_tokens_head (TDir DAbbr) ts _ r f k tl m Ha Hm).
Qed.

Lemma step_full (k : Z) (r : string) (ts : list token) (f : fields) (m : fields * string) :
  1 <= k <= 12 ->
  match_tokens ts r (store (TDir DFull) k f) = Some m ->
  match_tokens (TDir DFull :: ts) (month_name k ++ r) f = Some m.
Proof.
  intros H Hm.
  assert (exists tl, name_alts full_names (month_name k ++ r) = (k, r) :: tl) as (tl & Ha)
    by (zcases k 1 12%nat; eexists; reflexivity).
  exact (match_tokens_head (TDir DFull) ts _ r f k tl m Ha Hm).
Qed.

Lemma step_lit (c : ascii) (r : string) (ts : list token) (f : fields) (m : fields * string) :
  match_tokens ts r f = Some m ->
  match_tokens (TLit c :: ts) (String c r) f = Some m.
Proof.
  intros Hm. apply (match_tokens_head (TLit c) ts _ r f 0 [] m); [|exact Hm].
  simpl. rewrite Ascii.eqb_refl. reflexivity.
Qed.

(** One blank before text that starts with no white space. *)
Lemma step_space (r : string) (ts : list token) (f : fields) (m : fields * string) :
  hd KDigit (shape r) <> KSpace ->
  match_tokens ts r f = Some m ->
  match_tokens (TSpace :: ts) (String " " r) f = Some m.
Proof.
  intros Hr Hm. apply (match_tokens_head TSpace ts _ r f 0 [] m); [|exact Hm].
  simpl. destruct r as [|c r]; [reflexivity|].
  simpl. rewrite (kind_not_space c Hr). reflexivity.
Qed.

Lemma strptime_ok (s fmt : string) (ts : list token) (y m d : Z) :
  compile_format fmt = Some ts ->
  match_tokens ts s default_fields = Some (mkfields y m d, EmptyString) ->
  valid_date y m d = true ->
  strptime s fmt = Ok (mkdt y m d).
Proof.
  intros Hc Hm Hv. unfold strptime. rewrite Hc, Hm. simpl. rewrite Hv. reflexivity.
Qed.

Lemma parse_date_from_skip (fmt : string) (rest : list string) (s : string) :
  strptime (strip s) fmt = Raise ValueError ->
  parse_date_from (fmt :: rest) (PyStr s) = parse_date_from rest (PyStr s).
Proof. intros H. rewrite parse_date_from_str, H. reflexivity. Qed.

Lemma parse_date_from_hit (fmt : string) (rest : list string) (s : string) (dt : datetime) :
  strptime (strip s) fmt = Ok dt ->
  parse_date_from (fmt :: rest) (PyStr s) = Ok (Some dt).
Proof. intros H. rewrite parse_date_from_str, H. reflexivity. Qed.

(** The text each pattern writes. *)
Lemma strftime_eq (y m d : Z) :
  let dt := mkdt y m d in
  strftime "%d-%b-%Y" dt
  = (two_digits d ++ String "-" (month_abbr m ++ String "-" (four_digits y ++ "")))%string
  /\ strftime "%Y-%m-%d" dt
     = (four_digits y ++ String "-" (two_digits m ++ String "-" (two_digits d ++ "")))%string
  /\ strftime "%m/%d/%Y" dt
     = (two_digits m ++ String "/" (two_digits d ++ String "/" (four_digits y ++ "")))%string
  /\ strftime "%d/%m/%Y" dt
     = (two_digits d ++ String "/" (two_digits m ++ String "/" (four_digits y ++ "")))%string
  /\ strftime "%d %b %Y" dt
     = (two_digits d ++ String " " (month_abbr m ++ String " " (four_digits y ++ "")))%string
  /\ strftime "%b %d, %Y" dt
     = (month_abbr m
        ++ String " " (two_digits d ++ String "," (String " " (four_digits y ++ ""))))%string
  /\ strftime "%Y/%m/%d" dt
     = (four_digits y ++ String "/" (two_digits m ++ String "/" (two_digits d ++ "")))%string
  /\ strftime "%d-%m-%Y" dt
     = (two_digits d ++ String "-" (two_digits m ++ String "-" (four_digits y ++ "")))%string
  /\ strftime "%d %B %Y" dt
     = (two_digits d ++ String " " (month_name m ++ String " " (four_digits y ++ "")))%string
  /\ strftime "%B %d, %Y" dt
     = (month_name m
        ++ String " " (two_digits d ++ String "," (String " " (four_digits y ++ ""))))%string.
Proof. repeat split; reflexivity. Qed.

Lemma strftime_shape (y m d : Z) :
  0 <= y <= 9999 -> 1 <= m <= 12 -> 1 <= d <= 31 ->
  let dt := mkdt y m d in
  let D := KDigit in
  let A := KAlpha in
  let S := KSpace in
  let name := repeat KAlpha (String.length (month_name m)) in
  shape (strftime "%d-%b-%Y" dt) = [D; D; KOther "-"; A; A; A; KOther "-"; D; D; D; D]
  /\ shape (strftime "%Y-%m-%d" dt) = [D; D; D; D; KOther "-"; D; D; KOther "-"; D; D]
  /\ shape (strftime "%m/%d/%Y" dt) = [D; D; KOther "/"; D; D; KOther "/"; D; D; D; D]
  /\ shape (strftime "%d/%m/%Y" dt) = [D; D; KOther "/"; D; D; KOther "/"; D; D; D; D]
  /\ shape (strftime "%d %b %Y" dt) = [D; D; S; A; A; A; S; D; D; D; D]
  /\ shape (strftime "%b %d, %Y" dt) = [A; A; A; S; D; D; KOther ","; S; D; D; D; D]
  /\ shape (strftime "%Y/%m/%d" dt) = [D; D; D; D; KOther "/"; D; D; KOther "/"; D; D]
  /\ shape (strftime "%d-%m-%Y" dt) = [D; D; KOther "-"; D; D; KOther "-"; D; D; D; D]
  /\ shape (strftime "%d %B %Y" dt) = [D; D; S] ++ name ++ [S; D; D; D; D]
  /\ shape (strftime "%B %d, %Y" dt) = name ++ [S; D; D; KOther ","; S; D; D; D; D].
Proof.
  intros Hy Hm Hd dt D A S name.
  destruct (strftime_eq y m d) as (E1 & E2 & E3 & E4 & E5 & E6 & E7 & E8 & E9 & E10).
  fold dt in E1, E2, E3, E4, E5, E6, E7, E8, E9, E10.
  destruct (shape_month_name m Hm) as (Hname & _).
  rewrite E1, E2, E3, E4, E5, E6, E7, E8, E9, E10.
  cbn [shape]. rewrite !shape_app. cbn [shape]. rewrite ?shape_app. cbn [shape].
  rewrite ?shape_app. cbn [shape].
  rewrite !(shape_two_digits d), !(shape_two_digits m), !(shape_four_digits y),
    !(shape_month_abbr m), !Hname by lia.
  repeat split; reflexivity.
Qed.

Lemma hd_shape_app (a r : string) :
  hd KDigit (shape (a ++ r))
  = match shape a with k :: _ => k | [] => hd KDigit (shape r) end.
Proof. destruct a; reflexivity. Qed.

Lemma starts_two_digits (n : Z) (r : string) :
  0 <= n <= 99 -> hd KDigit (shape (two_digits n ++ r)) <> KSpace.
Proof. intros H. rewrite hd_shape_app, shape_two_digits by lia. discriminate. Qed.

Lemma starts_four_digits (n : Z) (r : string) :
  0 <= n <= 9999 -> hd KDigit (shape (four_digits n ++ r)) <> KSpace.
Proof. intros H. rewrite hd_shape_app, shape_four_digits by lia. discriminate. Qed.

Lemma starts_month_abbr (m : Z) (r : string) :
  1 <= m <= 12 -> hd KDigit (shape (month_abbr m ++ r)) <> KSpace.
Proof. intros H. rewrite hd_shape_app, shape_month_abbr by lia. discriminate. Qed.

Lemma starts_month_name (m : Z) (r : string) :
  1 <= m <= 12 -> hd KDigit (shape (month_name m ++ r)) <> KSpace.
Proof.
  intros H. rewrite hd_shape_app.
  destruct (shape_month_name m H) as (-> & Hlen & _).
  destruct (String.length (month_name m)); [lia|]. discriminate.
Qed.

(** *** [parse_date] on what [strftime] wrote *)

Lemma parse_date_from_refused (fmts rest : list string) (s : string) (sh : list kind) :
  strip s = s -> shape s = sh -> refused_by fmts sh = true ->
  parse_date_from (fmts ++ rest) (PyStr s) = parse_date_from rest (PyStr s).
Proof.
  intros Hs Hsh. induction fmts as [|fmt fmts IH]; intros H; [reflexivity|].
  simpl in H. apply andb_true_iff in H. destruct H as (Hfmt & H).
  change ((fmt :: fmts) ++ rest) with (fmt :: (fmts ++ rest)).
  rewrite parse_date_from_skip; [exact (IH H)|].
  rewrite Hs. unfold strptime.
  destruct (compile_format fmt) as [ts|] eqn:Ec; [|reflexivity].
  apply negb_true_iff in Hfmt. rewrite <- Hsh in Hfmt.
  destruct (match_tokens ts s default_fields) as [[f r]|] eqn:E; [|reflexivity].
  apply match_tokens_shape in E. congruence.
Qed.

(** The first [n] patterns refuse the text. *)
Lemma parse_date_skip (n : nat) (s : string) (sh : list kind) :
  strip s = s -> shape s = sh -> refused_by (firstn n FORMATS) sh = true ->
  parse_date (PyStr s) = parse_date_from (skipn n FORMATS) (PyStr s).
Proof.
  intros Hs Hsh H. unfold parse_date.
  rewrite <- (firstn_skipn n FORMATS) at 1.
  exact (parse_date_from_refused _ _ s sh Hs Hsh H).
Qed.

Lemma round_trip_textual_dash (y m d : Z) :
  valid_date y m d = true -> 1000 <= y ->
  parse_date (PyStr (strftime "%d-%b-%Y" (mkdt y m d))) = Ok (Some (mkdt y m d)).
Proof.
  intros Hv Hy. destruct (valid_date_bounds y m d Hv) as (By & Bm & Bd).
  destruct (strftime_shape y m d) as (S & _); [lia..|].
  destruct (strftime_eq y m d) as (E & _).
  cbv zeta in S, E.
  assert (Hs : strip (strftime "%d-%b-%Y" (mkdt y m d)) = strftime "%d-%b-%Y" (mkdt y m d))
    by (apply strip_shape; rewrite S; simpl; discriminate).
  apply parse_date_from_hit. rewrite Hs, E.
  eapply strptime_ok; [reflexivity| |exact Hv].
  apply step_day; [lia|]. apply step_lit. apply step_abbr; [lia|]. apply step_lit.
  apply step_year; [lia|]. reflexivity.
Qed.

Lemma round_trip_iso (y m d : Z) :
  valid_date y m d = true -> 1000 <= y ->
  parse_date (PyStr (strftime "%Y-%m-%d" (mkdt y m d))) = Ok (Some (mkdt y m d)).
Proof.
  intros Hv Hy. destruct (valid_date_bounds y m d Hv) as (By & Bm & Bd).
  destruct (strftime_shape y m d) as (_ & S & _); [lia..|].
  destruct (strftime_eq y m d) as (_ & E & _).
  cbv zeta in S, E.
  assert (Hs : strip (strftime "%Y-%m-%d" (mkdt y m d)) = strftime "%Y-%m-%d" (mkdt y m d))
    by (apply strip_shape; rewrite S; simpl; discriminate).
  rewrite (parse_date_skip 1 _ _ Hs S eq_refl).
  apply parse_date_from_hit. rewrite Hs, E.
  eapply strptime_ok; [reflexivity| |exact Hv].
  apply step_year; [lia|]. apply step_lit. apply step_month; [lia|]. apply step_lit.
  apply step_day; [lia|]. reflexivity.
Qed.

Lemma round_trip_us (y m d : Z) :
  valid_date y m d = true -> 1000 <= y ->
  parse_date (PyStr (strftime "%m/%d/%Y" (mkdt y m d))) = Ok (Some (mkdt y m d)).
Proof.
  intros Hv Hy. destruct (valid_date_bounds y m d Hv) as (By & Bm & Bd).
  destruct (strftime_shape y m d) as (_ & _ & S & _); [lia..|].
  destruct (strftime_eq y m d) as (_ & _ & E & _).
  cbv zeta in S, E.
  assert (Hs : strip (strftime "%m/%d/%Y" (mkdt y m d)) = strftime "%m/%d/%Y" (mkdt y m d))
    by (apply strip_shape; rewrite S; simpl; discriminate).
  rewrite (parse_date_skip 2 _ _ Hs S eq_refl).
  apply parse_date_from_hit. rewrite Hs, E.
  eapply strptime_ok; [reflexivity| |exact Hv].
  apply step_month; [lia|]. apply step_lit. apply step_day; [lia|]. apply step_lit.
  apply step_year; [lia|]. reflexivity.
Qed.

(** A day number above 12 is no month number. *)
Lemma day_first_not_us (d : Z) (r : string) :
  13 <= d <= 31 -> strptime (two_digits d ++ r) "%m/%d/%Y" = Raise ValueError.
Proof. intros H. zcases d 13 19%nat; reflexivity. Qed.

Lemma round_trip_day_first (y m d : Z) :
  valid_date y m d = true -> 1000 <= y -> 12 < d ->
  parse_date (PyStr (strftime "%d/%m/%Y" (mkdt y m d))) = Ok (Some (mkdt y m d)).
Proof.
  intros Hv Hy Hd. destruct (valid_date_bounds y m d Hv) as (By & Bm & Bd).
  destruct (strftime_shape y m d) as (_ & _ & _ & S & _); [lia..|].
  destruct (strftime_eq y m d) as (_ & _ & _ & E & _).
  cbv zeta in S, E.
  assert (Hs : strip (strftime "%d/%m/%Y" (mkdt y m d)) = strftime "%d/%m/%Y" (mkdt y m d))
    by (apply strip_shape; rewrite S; simpl; discriminate).
  rewrite (parse_date_skip 2 _ _ Hs S eq_refl).
  cbn [skipn FORMATS].
  rewrite parse_date_from_skip by (rewrite Hs, E; apply day_first_not_us; lia).
  apply parse_date_from_hit. rewrite Hs, E.
  eapply strptime_ok; [reflexivity| |exact Hv].
  apply step_day; [lia|]. apply step_lit. apply step_month; [lia|]. apply step_lit.
  apply step_year; [lia|]. reflexivity.
Qed.

Lemma valid_date_swapped (y m d : Z) :
  valid_date y m d = true -> d <= 12 -> valid_date y d m = true.
Proof.
  intros Hv Hd. destruct (valid_date_bounds y m d Hv) as (By & Bm & Bd).
  unfold valid_date, days_in_month.
  repeat (apply andb_true_iff; split); try (apply Z.leb_le; lia).
  apply Z.leb_le.
  destruct (d =? 2); [destruct (is_leap y); lia|].
  destruct ((d =? 4) || (d =? 6) || (d =? 9) || (d =? 11)); lia.
Qed.

(** Written day first with a day that is a month number, a date is read
    month first. *)
Lemma day_first_read_as_us (y m d : Z) :
  valid_date y m d = true -> 1000 <= y -> d <= 12 ->
  parse_date (PyStr (strftime "%d/%m/%Y" (mkdt y m d))) = Ok (Some (mkdt y d m)).
Proof.
  intros Hv Hy Hd. destruct (valid_date_bounds y m d Hv) as (By & Bm & Bd).
  destruct (strftime_shape y m d) as (_ & _ & _ & S & _); [lia..|].
  destruct (strftime_eq y m d) as (_ & _ & _ & E & _).
  cbv zeta in S, E.
  assert (Hs : strip (strftime "%d/%m/%Y" (mkdt y m d)) = strftime "%d/%m/%Y" (mkdt y m d))
    by (apply strip_shape; rewrite S; simpl; discriminate).
  rewrite (parse_date_skip 2 _ _ Hs S eq_refl).
  apply parse_date_from_hit. rewrite Hs, E.
  eapply strptime_ok; [reflexivity| |exact (valid_date_swapped y m d Hv Hd)].
  apply step_month; [lia|]. apply step_lit. apply step_day; [lia|]. apply step_lit.
  apply step_year; [lia|]. reflexivity.
Qed.

Lemma round_trip_textual (y m d : Z) :
  valid_date y m d = true -> 1000 <= y ->
  parse_date (PyStr (strftime "%d %b %Y" (mkdt y m d))) = Ok (Some (mkdt y m d)).
Proof.
  intros Hv Hy. destruct (valid_date_bounds y m d Hv) as (By & Bm & Bd).
  destruct (strftime_shape y m d) as (_ & _ & _ & _ & S & _); [lia..|].
  destruct (strftime_eq y m d) as (_ & _ & _ & _ & E & _).
  cbv zeta in S, E.
  assert (Hs : strip (strftime "%d %b %Y" (mkdt y m d)) = strftime "%d %b %Y" (mkdt y m d))
    by (apply strip_shape; rewrite S; simpl; discriminate).
  rewrite (parse_date_skip 4 _ _ Hs S eq_refl).
  apply parse_date_from_hit. rewrite Hs, E.
  eapply strptime_ok; [reflexivity| |exact Hv].
  apply step_day; [lia|]. apply step_space; [apply starts_month_abbr; lia|].
  apply step_abbr; [lia|]. apply step_space; [apply starts_four_digits; lia|].
  apply step_year; [lia|]. reflexivity.
Qed.

Lemma round_trip_textual_us (y m d : Z) :
  valid_date y m d = true -> 1000 <= y ->
  parse_date (PyStr (strftime "%b %d, %Y" (mkdt y m d))) = Ok (Some (mkdt y m d)).
Proof.
  intros Hv Hy. destruct (valid_date_bounds y m d Hv) as (By & Bm & Bd).
  destruct (strftime_shape y m d) as (_ & _ & _ & _ & _ & S & _); [lia..|].
  destruct (strftime_eq y m d) as (_ & _ & _ & _ & _ & E & _).
  cbv zeta in S, E.
  assert (Hs : strip (strftime "%b %d, %Y" (mkdt y m d)) = strftime "%b %d, %Y" (mkdt y m d))
    by (apply strip_shape; rewrite S; simpl; discriminate).
  rewrite (parse_date_skip 5 _ _ Hs S eq_refl).
  apply parse_date_from_hit. rewrite Hs, E.
  eapply strptime_ok; [reflexivity| |exact Hv].
  apply step_abbr; [lia|]. apply step_space; [apply starts_two_digits; lia|].
  apply step_day; [lia|]. apply step_lit. apply step_space; [apply starts_four_digits; lia|].
  apply step_year; [lia|]. reflexivity.
Qed.

Lemma round_trip_iso_slash (y m d : Z) :
  valid_date y m d = true -> 1000 <= y ->
  parse_date (PyStr (strftime "%Y/%m/%d" (mkdt y m d))) = Ok (Some (mkdt y m d)).
Proof.
  intros Hv Hy. destruct (valid_date_bounds y m d Hv) as (By & Bm & Bd).
  destruct (strftime_shape y m d) as (_ & _ & _ & _ & _ & _ & S & _); [lia..|].
  destruct (strftime_eq y m d) as (_ & _ & _ & _ & _ & _ & E & _).
  cbv zeta in S, E.
  assert (Hs : strip (strftime "%Y/%m/%d" (mkdt y m d)) = strftime "%Y/%m/%d" (mkdt y m d))
    by (apply strip_shape; rewrite S; simpl; discriminate).
  rewrite (parse_date_skip 6 _ _ Hs S eq_refl).
  apply parse_date_from_hit. rewrite Hs, E.
  eapply strptime_ok; [reflexivity| |exact Hv].
  apply step_year; [lia|]. apply step_lit. apply step_month; [lia|]. apply step_lit.
  apply step_day; [lia|]. reflexivity.
Qed.

Lemma round_trip_dash (y m d : Z) :
  valid_date y m d = true -> 1000 <= y ->
  parse_date (PyStr (strftime "%d-%m-%Y" (mkdt y m d))) = Ok (Some (mkdt y m d)).
Proof.
  intros Hv Hy. destruct (valid_date_bounds y m d Hv) as (By & Bm & Bd).
  destruct (strftime_shape y m d) as (_ & _ & _ & _ & _ & _ & _ & S & _); [lia..|].
  destruct (strftime_eq y m d) as (_ & _ & _ & _ & _ & _ & _ & E & _).
  cbv zeta in S, E.
  assert (Hs : strip (strftime "%d-%m-%Y" (mkdt y m d)) = strftime "%d-%m-%Y" (mkdt y m d))
    by (apply strip_shape; rewrite S; simpl; discriminate).
  rewrite (parse_date_skip 7 _ _ Hs S eq_refl).
  apply parse_date_from_hit. rewrite Hs, E.
  eapply strptime_ok; [reflexivity| |exact Hv].
  apply step_day; [lia|]. apply step_lit. apply step_month; [lia|]. apply step_lit.
  apply step_year; [lia|]. reflexivity.
Qed.

(** The long month names: May is its own abbreviation, and is read by the
    pattern of the abbreviations. *)
Lemma round_trip_long (y m d : Z) :
  valid_date y m d = true -> 1000 <= y ->
  parse_date (PyStr (strftime "%d %B %Y" (mkdt y m d))) = Ok (Some (mkdt y m d)).
Proof.
  intros Hv Hy. destruct (valid_date_bounds y m d Hv) as (By & Bm & Bd).
  destruct (strftime_shape y m d) as (_ & _ & _ & _ & _ & _ & _ & _ & S & _); [lia..|].
  destruct (strftime_eq y m d) as (_ & _ & _ & _ & _ & _ & _ & _ & E & _).
  cbv zeta in S, E.
  destruct (Z.eq_dec m 5) as [->|Hmay]; [exact (round_trip_textual y 5 d Hv Hy)|].
  zcases m 1 12%nat; try congruence;
    (assert (Hs : strip (strftime "%d %B %Y" (mkdt y _ d)) = strftime "%d %B %Y" (mkdt y _ d))
      by (apply strip_shape; rewrite S; simpl; discriminate));
    rewrite (parse_date_skip 8 _ _ Hs S eq_refl);
    apply parse_date_from_hit; rewrite Hs, E;
    (eapply strptime_ok; [reflexivity| |exact Hv]);
    (apply step_day; [lia|]); (apply step_space; [apply starts_month_name; lia|]);
    (apply step_full; [lia|]); (apply step_space; [apply starts_four_digits; lia|]);
    (apply step_year; [lia|]); reflexivity.
Qed.

Lemma round_trip_long_us (y m d : Z) :
  valid_date y m d = true -> 1000 <= y ->
  parse_date (PyStr (strftime "%B %d, %Y" (mkdt y m d))) = Ok (Some (mkdt y m d)).
Proof.
  intros Hv Hy. destruct (valid_date_bounds y m d Hv) as (By & Bm & Bd).
  destruct (strftime_shape y m d) as (_ & _ & _ & _ & _ & _ & _ & _ & _ & S); [lia..|].
  destruct (strftime_eq y m d) as (_ & _ & _ & _ & _ & _ & _ & _ & _ & E).
  cbv zeta in S, E.
  destruct (Z.eq_dec m 5) as [->|Hmay]; [exact (round_trip_textual_us y 5 d Hv Hy)|].
  zcases m 1 12%nat; try congruence;
    (assert (Hs : strip (strftime "%B %d, %Y" (mkdt y _ d)) = strftime "%B %d, %Y" (mkdt y _ d))
      by (apply strip_shape; rewrite S; simpl; discriminate));
    rewrite (parse_date_skip 9 _ _ Hs S eq_refl);
    apply parse_date_from_hit; rewrite Hs, E;
    (eapply strptime_ok; [reflexivity| |exact Hv]);
    (apply step_full; [lia|]); (apply step_space; [apply starts_two_digits; lia|]);
    (apply step_day; [lia|]); apply step_lit;
    (apply step_space; [apply starts_four_digits; lia|]);
    (apply step_year; [lia|]); reflexivity.
Qed.

(** C5, amended.  A valid date with a year of four digits, written by
    [strftime] with any pattern of [parse_date] other than [%d/%m/%Y], is
    read back by [parse_date] as the same date.  Written with [%d/%m/%Y] it
    is read back as the same date when its day is above 12, and with day and
    month exchanged when its day is at most 12.  A text that [strptime]
    refuses under each of the ten patterns gives [None], and so do [None]
    and an [int]. *)
Theorem C5_round_trip :
  (forall fmt dt,
      In fmt FORMATS -> fmt <> "%d/%m/%Y" -> encodable dt ->
      parse_date (PyStr (strftime fmt dt)) = Ok (Some dt))
  /\ (forall dt,
         encodable dt -> 12 < day dt ->
         parse_date (PyStr (strftime "%d/%m/%Y" dt)) = Ok (Some dt))
  /\ (forall dt,
         encodable dt -> day dt <= 12 ->
         parse_date (PyStr (strftime "%d/%m/%Y" dt))
         = Ok (Some (mkdt (year dt) (day dt) (month dt))))
  /\ (forall s,
         (forall fmt, In fmt FORMATS -> exists e, strptime (strip s) fmt = Raise e) ->
         parse_date (PyStr s) = Ok None)
  /\ parse_date PyNone = Ok None
  /\ (forall z, parse_date (PyInt z) = Ok None).
Proof.
  split; [|split; [|split; [|split; [|split]]]].
  - intros fmt [y m d] Hin Hne (Hv & Hy). simpl in Hv, Hy.
    unfold FORMATS in Hin. simpl in Hin.
    destruct Hin as [<-|[<-|[<-|[<-|[<-|[<-|[<-|[<-|[<-|[<-|[]]]]]]]]]]].
    + apply round_trip_textual_dash; assumption.
    + apply round_trip_iso; assumption.
    + apply round_trip_us; assumption.
    + contradiction Hne. reflexivity.
    + apply round_trip_textual; assumption.
    + apply round_trip_textual_us; assumption.
    + apply round_trip_iso_slash; assumption.
    + apply round_trip_dash; assumption.
    + apply round_trip_long; assumption.
    + apply round_trip_long_us; assumption.
  - intros [y m d] (Hv & Hy) Hd. simpl in Hv, Hy, Hd.
    apply round_trip_day_first; assumption.
  - intros [y m d] (Hv & Hy) Hd. simpl in Hv, Hy, Hd.
    apply day_first_read_as_us; assumption.
  - intros s H. apply parse_date_from_all_fail, H.
  - reflexivity.
  - reflexivity.
Qed.

(** 17 May 2025 in three patterns, and 1 February 2025 day first. *)
Lemma C5_round_trip_witness :
  parse_date (PyStr "17 May 2025") = Ok (Some c5_date_may)
  /\ parse_date (PyStr "2025/05/17") = Ok (Some c5_date_may)
  /\ parse_date (PyStr "17/05/2025") = Ok (Some c5_date_may)
  /\ parse_date (PyStr "01/02/2025") = Ok (Some (mkdt 2025 1 2)).
Proof.
  destruct C5_round_trip as (Hany & Hday & Hswap & _).
  assert (Hmay : encodable c5_date_may) by (split; [reflexivity|simpl; lia]).
  assert (Hfeb : encodable c5_date) by (split; [reflexivity|simpl; lia]).
  split; [|split; [|split]].
  - apply (Hany "%d %B %Y" c5_date_may); [simpl; tauto|discriminate|exact Hmay].
  - apply (Hany "%Y/%m/%d" c5_date_may); [simpl; tauto|discriminate|exact Hmay].
  - apply (Hday c5_date_may Hmay). simpl. lia.
  - apply (Hswap c5_date Hfeb). simpl. lia.
Defined.

(** C5 as stated fails: 1 February 2025 written with [%d/%m/%Y] is read by
    the earlier pattern [%m/%d/%Y] as 2 January 2025. *)
Lemma C5_counterexample :
  valid_date 2025 2 1 = true
  /\ In "%d/%m/%Y" FORMATS
  /\ strftime "%d/%m/%Y" c5_date = "01/02/2025"
  /\ strptime "01/02/2025" "%m/%d/%Y" = Ok (mkdt 2025 1 2)
  /\ parse_date (PyStr (strftime "%d/%m/%Y" c5_date)) = Ok (Some (mkdt 2025 1 2))
  /\ parse_date (PyStr (strftime "%d/%m/%Y" c5_date)) <> Ok (Some c5_date).
Proof.
  split; [reflexivity|].
  split; [simpl; tauto|].
  split; [reflexivity|].
  split; [vm_compute; reflexivity|].
  split; [vm_compute; reflexivity|].
  vm_compute. discriminate.
Qed.

(* ================================================================== *)
(** * Part III. Further properties of the code *)
(* ================================================================== *)

(** ** helpers.py: [safe_float] and [parse_date] on padded text *)

Lemma lstrip_idem (sp : ascii -> bool) (s : string) :
  lstrip_by sp (lstrip_by sp s) = lstrip_by sp s.
Proof.
  induction s as [|c s IH]; [reflexivity|].
  simpl. destruct (sp c) eqn:E; [exact IH|]. simpl. rewrite E. reflexivity.
Qed.

Lemma rstrip_idem (sp : ascii -> bool) (s : string) :
  rstrip_by sp (rstrip_by sp s) = rstrip_by sp s.
Proof.
  induction s as [|c s IH]; [reflexivity|].
  simpl. destruct (rstrip_by sp s) as [|c' r] eqn:E.
  - destruct (sp c) eqn:Ec; [reflexivity|]. simpl. rewrite Ec. reflexivity.
  - change (rstrip_by sp (String c (String c' r)))
      with (match rstrip_by sp (String c' r) with
            | EmptyString => if sp c then EmptyString else String c EmptyString
            | r' => String c r'
            end).
    rewrite IH. reflexivity.
Qed.

Lemma strip_idem (s : string) : strip (strip s) = strip s.
Proof.
  unfold strip.
  rewrite (lstrip_rstrip_comm is_space s), lstrip_idem.
  rewrite (lstrip_rstrip_comm is_space (rstrip_by is_space s)), rstrip_idem.
  reflexivity.
Qed.

Lemma lstrip_spaces (sp : ascii -> bool) (l s : string) :
  all_chars sp l = true -> lstrip_by sp (l ++ s) = lstrip_by sp s.
Proof.
  induction l as [|c l IH]; simpl; [reflexivity|].
  intros H. apply andb_true_iff in H. destruct H as (-> & H). exact (IH H).
Qed.

Lemma rstrip_all_spaces (sp : ascii -> bool) (r : string) :
  all_chars sp r = true -> rstrip_by sp r = EmptyString.
Proof.
  induction r as [|c r IH]; simpl; [reflexivity|].
  intros H. apply andb_true_iff in H. destruct H as (Hc & H).
  rewrite (IH H), Hc. reflexivity.
Qed.

Lemma rstrip_spaces (sp : ascii -> bool) (s r : string) :
  all_chars sp r = true -> rstrip_by sp (s ++ r) = rstrip_by sp s.
Proof.
  intros H. induction s as [|c s IH]; [exact (rstrip_all_spaces sp r H)|].
  simpl. rewrite IH. reflexivity.
Qed.

Lemma strip_padded (l s r : string) :
  all_chars is_space l = true -> all_chars is_space r = true ->
  strip (l ++ s ++ r) = strip s.
Proof.
  intros Hl Hr. unfold strip. rewrite (lstrip_spaces _ l _ Hl).
  rewrite (lstrip_rstrip_comm is_space (s ++ r)), (rstrip_spaces _ s r Hr).
  rewrite <- lstrip_rstrip_comm. reflexivity.
Qed.

Lemma parse_date_from_strip (fmts : list string) (s t : string) :
  strip s = strip t -> parse_date_from fmts (PyStr s) = parse_date_from fmts (PyStr t).
Proof.
  intros H. induction fmts as [|fmt rest IH]; [reflexivity|].
  rewrite !(parse_date_from_str (fmt :: rest)), H, IH. reflexivity.
Qed.

(** X1.  [safe_float] reads a text as it reads the text without its commas and
    without the white space around it: a comma anywhere in the text, and
    white space before and after it, do not change the number read. *)
Theorem safe_float_ignores_separators :
  (forall a b, safe_float (PyStr (a ++ "," ++ b)) = safe_float (PyStr (a ++ b)))
  /\ (forall l s r,
         all_chars is_space l = true -> all_chars is_space r = true ->
         safe_float (PyStr (l ++ s ++ r)) = safe_float (PyStr s))
  /\ (forall s, safe_float (PyStr (strip (remove_char "," s))) = safe_float (PyStr s)).
Proof.
  split; [|split].
  - intros a b. rewrite <- (safe_float_remove (a ++ "," ++ b)), <- (safe_float_remove (a ++ b)).
    rewrite !remove_char_app. reflexivity.
  - intros l s r Hl Hr.
    rewrite <- (safe_float_strip (l ++ s ++ r)), <- (safe_float_strip s).
    rewrite (strip_padded l s r Hl Hr). reflexivity.
  - intros s. rewrite safe_float_strip, safe_float_remove. reflexivity.
Qed.

(** X2.  [parse_date] reads a text as it reads the trimmed text: white space
    before and after a date does not change the date read. *)
Theorem parse_date_ignores_outer_space :
  (forall s, parse_date (PyStr (strip s)) = parse_date (PyStr s))
  /\ (forall l s r,
         all_chars is_space l = true -> all_chars is_space r = true ->
         parse_date (PyStr (l ++ s ++ r)) = parse_date (PyStr s)).
Proof.
  split.
  - intros s. apply parse_date_from_strip, strip_idem.
  - intros l s r Hl Hr. apply parse_date_from_strip, strip_padded; assumption.
Qed.

Lemma strptime_valid (s fmt : string) (d : datetime) :
  strptime s fmt = Ok d -> valid_date (year d) (month d) (day d) = true.
Proof.
  unfold strptime.
  destruct (compile_format fmt) as [ts|]; [|discriminate].
  destruct (match_tokens ts s default_fields) as [[f [|c r]]|]; try discriminate.
  destruct (valid_date (f_year f) (f_month f) (f_day f)) eqn:E; [|discriminate].
  intros H. inv_ok. exact E.
Qed.

Lemma parse_date_from_first (fmts : list string) (s : string) (d : datetime) :
  parse_date_from fmts (PyStr s) = Ok (Some d) <->
  exists pre fmt post,
    fmts = pre ++ fmt :: post
    /\ (forall f, In f pre -> strptime (strip s) f = Raise ValueError)
    /\ strptime (strip s) fmt = Ok d.
Proof.
  induction fmts as [|f0 rest IH]; rewrite parse_date_from_str.
  - split; [discriminate|]. intros (pre & fmt & post & H & _). destruct pre; discriminate.
  - destruct (strptime (strip s) f0) as [d0|e] eqn:E.
    + split.
      * intros H. inv_ok. exists [], f0, rest. split; [reflexivity|]. split; [intros f []|exact E].
      * intros ([|f1 pre] & fmt & post & H & Hpre & Hfmt).
        -- injection H as <- <-. congruence.
        -- injection H as <- _. rewrite (Hpre f0 (or_introl eq_refl)) in E. discriminate.
    + pose proof (strptime_raises _ _ _ E) as ->. rewrite IH. split.
      * intros (pre & fmt & post & -> & Hpre & Hfmt).
        exists (f0 :: pre), fmt, post. split; [reflexivity|]. split; [|exact Hfmt].
        intros f [<-|Hf]; [exact E|exact (Hpre f Hf)].
      * intros ([|f1 pre] & fmt & post & H & Hpre & Hfmt).
        -- injection H as <- <-. congruence.
        -- injection H as <- ->. exists pre, fmt, post. split; [reflexivity|].
           split; [|exact Hfmt]. intros f Hf. apply Hpre. right. exact Hf.
Qed.

(** X3.  [parse_date] returns a date exactly when some pattern accepts the
    trimmed text, and then it is the date read by the first such pattern in
    the order of the list; the date is a date of the calendar (month 1 to 12,
    day within the month's length, year 1 to 9999). *)
Theorem parse_date_first_pattern (s : string) (d : datetime) :
  (parse_date (PyStr s) = Ok (Some d) <->
   exists pre fmt post,
     FORMATS = pre ++ fmt :: post
     /\ (forall f, In f pre -> strptime (strip s) f = Raise ValueError)
     /\ strptime (strip s) fmt = Ok d)
  /\ (parse_date (PyStr s) = Ok (Some d) ->
      valid_date (year d) (month d) (day d) = true).
Proof.
  split; [apply parse_date_from_first|].
  intros H. apply parse_date_from_first in H.
  destruct H as (pre & fmt & post & _ & _ & H). exact (strptime_valid _ _ _ H).
Qed.

(** ** Dictionaries: entries and sums *)

Section DictEntries.
Context {K V : Type}.
Variable keq : K -> K -> bool.
Hypothesis keq_eq : forall a b, keq a b = true <-> a = b.

Lemma dict_set_entries (Q : K -> V -> Prop) (d : list (K * V)) (k : K) (v : V) :
  Forall (fun kv => Q (fst kv) (snd kv)) d -> Q k v ->
  Forall (fun kv => Q (fst kv) (snd kv)) (dict_set keq d k v).
Proof.
  induction d as [|[k' v'] d IH]; simpl; intros Hd Hv.
  - constructor; auto.
  - inversion Hd; subst. destruct (keq k k') eqn:E; constructor; auto.
    apply keq_eq in E. subst k'. exact Hv.
Qed.

Lemma dict_default_entry (Q : K -> V -> Prop) (d : list (K * V)) (k : K) (dflt : V) :
  Forall (fun kv => Q (fst kv) (snd kv)) d -> Q k dflt -> Q k (dict_default keq d k dflt).
Proof.
  unfold dict_default. induction d as [|[k' v'] d IH]; simpl; intros Hd Hv; auto.
  inversion Hd; subst. destruct (keq k k') eqn:E; auto.
  apply keq_eq in E. subst k'. assumption.
Qed.

Lemma dict_set_not_nil (d : list (K * V)) (k : K) (v : V) : dict_set keq d k v <> [].
Proof. destruct d as [|[k' v'] d]; simpl; [|destruct (keq k k')]; discriminate. Qed.

Variable measure : V -> Z.

Lemma dict_set_sum (d : list (K * V)) (k : K) (v dflt : V) :
  measure dflt = 0 ->
  Zsum (map (fun kv => measure (snd kv)) (dict_set keq d k v))
  = Zsum (map (fun kv => measure (snd kv)) d)
    - measure (dict_default keq d k dflt) + measure v.
Proof.
  intros H0. unfold dict_default. induction d as [|[k' v'] d IH]; simpl.
  - lia.
  - destruct (keq k k'); simpl; [lia|]. rewrite IH. lia.
Qed.
End DictEntries.

Lemma Zsum_perm (xs ys : list Z) : Permutation xs ys -> Zsum xs = Zsum ys.
Proof. induction 1; simpl; lia. Qed.

Lemma Zsum_app (xs ys : list Z) : Zsum (xs ++ ys) = Zsum xs + Zsum ys.
Proof. induction xs as [|x xs IH]; simpl; lia. Qed.

(** ** The order of dates *)

Lemma dt_ltb_spec (a b : datetime) :
  dt_ltb a b = true <->
  year a < year b
  \/ (year a = year b /\ (month a < month b \/ (month a = month b /\ day a < day b))).
Proof.
  unfold dt_ltb.
  rewrite orb_true_iff, andb_true_iff, orb_true_iff, andb_true_iff.
  rewrite !Z.ltb_lt, !Z.eqb_eq. tauto.
Qed.

Lemma dt_leb_spec (a b : datetime) :
  dt_leb a b = true <->
  year a < year b
  \/ (year a = year b /\ (month a < month b \/ (month a = month b /\ day a <= day b))).
Proof.
  unfold dt_leb. rewrite negb_true_iff, <- not_true_iff_false, dt_ltb_spec. lia.
Qed.

Lemma dt_leb_refl (a : datetime) : dt_leb a a = true.
Proof. apply dt_leb_spec. lia. Qed.

Lemma dt_leb_trans (a b c : datetime) :
  dt_leb a b = true -> dt_leb b c = true -> dt_leb a c = true.
Proof. rewrite !dt_leb_spec. lia. Qed.

Lemma dt_min_least (xs : list datetime) (mn : datetime) :
  dt_min xs = Ok mn -> forall d, In d xs -> dt_leb mn d = true.
Proof.
  destruct xs as [|x xs]; [discriminate|]. simpl dt_min. intros H. inv_ok.
  assert (G : forall m,
             dt_leb (fold_left (fun m y => if dt_ltb y m then y else m) xs m) m = true
             /\ forall d, In d xs ->
                  dt_leb (fold_left (fun m y => if dt_ltb y m then y else m) xs m) d = true).
  { induction xs as [|y ys IH]; intros m; simpl.
    - split; [apply dt_leb_refl|intros d []].
    - destruct (dt_ltb y m) eqn:E.
      + destruct (IH y) as (H1 & H2). split.
        * apply (dt_leb_trans _ y); [exact H1|].
          apply dt_leb_spec. apply dt_ltb_spec in E. lia.
        * intros d [<-|Hd]; [exact H1|exact (H2 d Hd)].
      + destruct (IH m) as (H1 & H2). split; [exact H1|].
        intros d [<-|Hd]; [|exact (H2 d Hd)].
        apply (dt_leb_trans _ m); [exact H1|]. unfold dt_leb. rewrite E. reflexivity. }
  destruct (G x) as (H1 & H2).
  intros d [<-|Hd]; [exact H1|exact (H2 d Hd)].
Qed.

Lemma dt_max_greatest (xs : list datetime) (mx : datetime) :
  dt_max xs = Ok mx -> forall d, In d xs -> dt_leb d mx = true.
Proof.
  destruct xs as [|x xs]; [discriminate|]. simpl dt_max. intros H. inv_ok.
  assert (G : forall m,
             dt_leb m (fold_left (fun m y => if dt_ltb m y then y else m) xs m) = true
             /\ forall d, In d xs ->
                  dt_leb d (fold_left (fun m y => if dt_ltb m y then y else m) xs m) = true).
  { induction xs as [|y ys IH]; intros m; simpl.
    - split; [apply dt_leb_refl|intros d []].
    - destruct (dt_ltb m y) eqn:E.
      + destruct (IH y) as (H1 & H2). split.
        * apply (dt_leb_trans _ y); [|exact H1].
          apply dt_leb_spec. apply dt_ltb_spec in E. lia.
        * intros d [<-|Hd]; [exact H1|exact (H2 d Hd)].
      + destruct (IH m) as (H1 & H2). split; [exact H1|].
        intros d [<-|Hd]; [|exact (H2 d Hd)].
        apply (dt_leb_trans _ m); [|exact H1]. unfold dt_leb. rewrite E. reflexivity. }
  destruct (G x) as (H1 & H2).
  intros d [<-|Hd]; [exact H1|exact (H2 d Hd)].
Qed.

(** ** weekly_purchase.py: what a row does to the buckets *)

(** A pass of the first loop that returns has passed the row over, or has
    added it to the bucket of the ISO week of its date; what it adds does
    not depend on the buckets. *)
Lemma weekly_step_cases (cy : Z) (weeks weeks' : weekly_purchase.weeks_t)
  (row : list string) :
  weekly_purchase.weekly_step cy weeks row = Ok weeks' ->
  (passed_over cy row /\ weeks' = weeks /\ weekly_purchase.weekly_step cy [] row = Ok [])
  \/ exists cell dt b ch gz,
      nth_error row 0 = Some cell
      /\ parse_date (PyStr cell) = Ok (Some dt)
      /\ year dt = cy
      /\ (forall ws,
            weekly_purchase.weekly_step cy ws row
            = let w := dict_default week_key_eqb ws (iso_week_of dt)
                         weekly_purchase.week_default in
              Ok (dict_set week_key_eqb ws (iso_week_of dt)
                    (weekly_purchase.mkacc
                       (weekly_purchase.acc_birds w + b)
                       (fadd (weekly_purchase.acc_chicken_wt w) ch)
                       (fadd (weekly_purchase.acc_gizzard_wt w) gz)
                       (weekly_purchase.acc_dates w ++ [dt])))).
Proof.
  intros H. unfold weekly_purchase.weekly_step in H.
  inv_bind H. pose proof Ha as Hidx. unfold py_index, weekly_purchase.COL_DATE in Ha.
  destruct (nth_error row 0) as [cell|] eqn:E0; [|discriminate].
  assert (cell = a) as -> by congruence. clear Ha.
  inv_bind H. destruct a0 as [dt|].
  - destruct (Z.eqb_spec (year dt) cy) as [Hy|Hy]; simpl in H.
    + right. unfold iso_week_of.
      destruct (isocalendar dt) as [[iy iw] wd] eqn:Eiso.
      inv_bind H. inv_bind H. inv_bind H. inv_bind H. inv_bind H. inv_bind H. inv_ok.
      exists a, dt, a1, a3, a5.
      split; [first [exact E0|reflexivity]|]. split; [exact Ha|]. split; [reflexivity|].
      intros ws. unfold weekly_purchase.weekly_step.
      rewrite Hidx, bind_ret, Ha, bind_ret, Z.eqb_refl, Eiso. cbn [negb fst snd]. cbv iota.
      rewrite Ha0, bind_ret, Ha1, bind_ret, Ha2, bind_ret, Ha3, bind_ret, Ha4, bind_ret,
        Ha5, bind_ret.
      reflexivity.
    + inv_ok. left. split; [|split; [reflexivity|]].
      * exists a. split; [first [exact E0|reflexivity]|]. intros d Hd. congruence.
      * unfold weekly_purchase.weekly_step. rewrite Hidx, bind_ret, Ha, bind_ret.
        destruct (Z.eqb_spec (year dt) cy) as [|_]; [contradiction|]. reflexivity.
  - inv_ok. left. split; [|split; [reflexivity|]].
    + exists a. split; [first [exact E0|reflexivity]|]. intros d Hd. congruence.
    + unfold weekly_purchase.weekly_step. rewrite Hidx, bind_ret, Ha, bind_ret. reflexivity.
Qed.

Lemma weekly_emit_week_fields (kv : week_key * weekly_purchase.week_acc)
  (w : weekly_purchase.week_stats) :
  weekly_purchase.emit_week kv = Ok w ->
  (weekly_purchase.w_year w, weekly_purchase.w_week w) = fst kv
  /\ dt_min (weekly_purchase.acc_dates (snd kv)) = Ok (weekly_purchase.w_start w)
  /\ dt_max (weekly_purchase.acc_dates (snd kv)) = Ok (weekly_purchase.w_end w)
  /\ weekly_purchase.birds w = weekly_purchase.acc_birds (snd kv).
Proof.
  destruct kv as [[yr wk] vals]. unfold weekly_purchase.emit_week. intros H.
  inv_bind H. inv_bind H. inv_bind H. inv_bind H. inv_ok. simpl. auto.
Qed.

Lemma weekly_groups_iso (cy : Z) (data : list (list string))
  (weeks : weekly_purchase.weeks_t) :
  weekly_purchase.group_weeks cy data = Ok weeks ->
  Forall (fun kv => Forall (fun d => iso_week_of d = fst kv)
                           (weekly_purchase.acc_dates (snd kv))) weeks.
Proof.
  unfold weekly_purchase.group_weeks.
  apply (for_each_invariant
           (fun ws => Forall (fun kv => Forall (fun d => iso_week_of d = fst kv)
                                               (weekly_purchase.acc_dates (snd kv))) ws));
    [|constructor].
  intros s row s' _ Hs Hstep.
  destruct (weekly_step_cases _ _ _ _ Hstep)
    as [(_ & -> & _)|(cell & dt & b & ch & gz & _ & _ & _ & Hall)]; [exact Hs|].
  rewrite (Hall s) in Hstep. cbv zeta in Hstep. inv_ok.
  apply (dict_set_entries week_key_eqb week_key_eqb_eq
           (fun k v => Forall (fun d => iso_week_of d = k) (weekly_purchase.acc_dates v)));
    [exact Hs|].
  simpl. apply Forall_app. split; [|constructor; [reflexivity|constructor]].
  apply (dict_default_entry week_key_eqb week_key_eqb_eq
           (fun k v => Forall (fun d => iso_week_of d = k) (weekly_purchase.acc_dates v)));
    [exact Hs|constructor].
Qed.

(** X4.  Every bucket of [aggregate_weekly] lies in one ISO week: its first and
    last date both have the ISO year and week the bucket is keyed by, and
    the first date is not after the last. *)
Theorem weekly_bucket_in_iso_week (cy : Z) (data : list (list string))
  (rows : list weekly_purchase.week_row) :
  weekly_purchase.aggregate_weekly cy data = Ok rows ->
  Forall (fun r =>
            let s := weekly_purchase.stats r in
            iso_week_of (weekly_purchase.w_start s)
            = (weekly_purchase.w_year s, weekly_purchase.w_week s)
            /\ iso_week_of (weekly_purchase.w_end s)
               = (weekly_purchase.w_year s, weekly_purchase.w_week s)
            /\ dt_leb (weekly_purchase.w_start s) (weekly_purchase.w_end s) = true) rows.
Proof.
  unfold weekly_purchase.aggregate_weekly. intros H.
  inv_bind H. inv_bind H. apply weekly_add_wow_stats in H.
  apply Forall_forall. intros r Hin. cbv zeta.
  assert (Hw : In (weekly_purchase.stats r) a0) by (rewrite <- H; apply in_map, Hin).
  destruct (weekly_emit_weeks_In _ _ _ Ha0 Hw) as (kv & Hkv & He).
  apply sorted_In in Hkv.
  pose proof (weekly_groups_iso _ _ _ Ha) as Hiso.
  rewrite Forall_forall in Hiso. specialize (Hiso kv Hkv). rewrite Forall_forall in Hiso.
  destruct (weekly_emit_week_fields _ _ He) as (Hkey & Hmn & Hmx & _).
  rewrite Hkey.
  split; [apply Hiso, (dt_min_In _ _ Hmn)|].
  split; [apply Hiso, (dt_max_In _ _ Hmx)|].
  apply (dt_min_least _ _ Hmn), (dt_max_In _ _ Hmx).
Qed.

Lemma weekly_bucket_in_iso_week_witness :
  exists rows,
    weekly_purchase.aggregate_weekly 2025 c6_rows_repeated_day = Ok rows
    /\ Forall (fun r =>
                 let s := weekly_purchase.stats r in
                 iso_week_of (weekly_purchase.w_start s)
                 = (weekly_purchase.w_year s, weekly_purchase.w_week s)
                 /\ iso_week_of (weekly_purchase.w_end s)
                    = (weekly_purchase.w_year s, weekly_purchase.w_week s)
                 /\ dt_leb (weekly_purchase.w_start s) (weekly_purchase.w_end s) = true)
              rows.
Proof.
  eexists. split; [vm_compute; reflexivity|].
  apply (weekly_bucket_in_iso_week 2025 c6_rows_repeated_day). vm_compute. reflexivity.
Defined.

(** *** The rows that count *)

Lemma weekly_rows_length (cy : Z) (data : list (list string))
  (weeks : weekly_purchase.weeks_t) (rows : list weekly_purchase.week_row) :
  weekly_purchase.group_weeks cy data = Ok weeks ->
  weekly_purchase.aggregate_weekly cy data = Ok rows ->
  List.length rows = List.length weeks
  /\ Zsum (map (fun r => weekly_purchase.birds (weekly_purchase.stats r)) rows)
     = Zsum (map (fun kv => weekly_purchase.acc_birds (snd kv)) weeks).
Proof.
  unfold weekly_purchase.aggregate_weekly. intros Hg H. rewrite Hg, bind_ret in H.
  inv_bind H. apply weekly_add_wow_stats in H.
  pose proof (sorted_perm (by_key week_key_ltb) weeks) as Hperm.
  assert (Hemit : forall items ws,
             weekly_purchase.emit_weeks items = Ok ws ->
             List.length ws = List.length items
             /\ map weekly_purchase.birds ws
                = map (fun kv => weekly_purchase.acc_birds (snd kv)) items).
  { induction items as [|kv items IH]; simpl; intros ws Hws.
    - inv_ok. auto.
    - inv_bind Hws. inv_bind Hws. inv_ok.
      destruct (IH _ Ha1) as (Hl & Hb).
      destruct (weekly_emit_week_fields _ _ Ha0) as (_ & _ & _ & Hbirds).
      simpl. rewrite Hl, Hb, Hbirds. auto. }
  destruct (Hemit _ _ Ha) as (Hl & Hb).
  split.
  - rewrite <- (Permutation_length Hperm), <- Hl, <- H, length_map. reflexivity.
  - rewrite <- (Zsum_perm _ _ (Permutation_map _ Hperm)), <- Hb, <- H, map_map.
    reflexivity.
Qed.

Lemma weekly_passed_over_step (cy : Z) (ws : weekly_purchase.weeks_t) (row : list string) :
  passed_over cy row -> weekly_purchase.weekly_step cy ws row = Ok ws.
Proof.
  intros (cell & Hcell & Hno). unfold weekly_purchase.weekly_step, py_index.
  unfold weekly_purchase.COL_DATE at 1. rewrite Hcell, bind_ret.
  destruct (parse_date_str_total cell) as ([d|] & Hd); rewrite Hd, bind_ret; [|reflexivity].
  destruct (Z.eqb_spec (year d) cy) as [Hy|Hy]; [|reflexivity].
  exfalso. exact (Hno d Hd Hy).
Qed.

Lemma weekly_groups_empty (cy : Z) (data : list (list string)) :
  forall s weeks,
    for_each (weekly_purchase.weekly_step cy) data s = Ok weeks ->
    (weeks = [] <-> s = [] /\ Forall (passed_over cy) data).
Proof.
  induction data as [|row data IH]; simpl; intros s weeks H.
  - inv_ok. split; [auto|tauto].
  - inv_bind H. rewrite (IH _ _ H).
    destruct (weekly_step_cases _ _ _ _ Ha)
      as [(Hp & -> & _)|(cell & dt & b & ch & gz & Hcell & Hd & Hy & Hall)].
    + split.
      * intros (-> & Hall). auto.
      * intros (-> & Hall). inversion Hall; subst. auto.
    + rewrite (Hall s) in Ha. cbv zeta in Ha. inv_ok. split.
      * intros (Hnil & _). exfalso. exact (dict_set_not_nil _ _ _ _ Hnil).
      * intros (_ & Hrows). inversion Hrows as [|? ? (cell' & Hcell' & Hno) _]; subst.
        exfalso. rewrite Hcell in Hcell'. inv_ok. exact (Hno dt Hd eq_refl).
Qed.

(** X5.  [aggregate_weekly] returns no bucket exactly when it passed every row
    over: when no row's date cell parses to a date of the current year. *)
Theorem weekly_empty_iff_all_passed_over (cy : Z) (data : list (list string))
  (rows : list weekly_purchase.week_row) :
  weekly_purchase.aggregate_weekly cy data = Ok rows ->
  (rows = [] <-> Forall (passed_over cy) data).
Proof.
  intros H. pose proof H as H'. unfold weekly_purchase.aggregate_weekly in H'.
  inv_bind H'. clear H'.
  destruct (weekly_rows_length _ _ _ _ Ha H) as (Hlen & _).
  pose proof (weekly_groups_empty cy data [] a Ha) as Hiff.
  split.
  - intros ->. destruct a; [|discriminate]. apply Hiff. reflexivity.
  - intros Hall. assert (a = []) as -> by (apply Hiff; auto).
    destruct rows; [reflexivity|discriminate].
Qed.

Lemma weekly_empty_iff_all_passed_over_witness :
  weekly_purchase.aggregate_weekly 2025 x_rows_other_year = Ok []
  /\ Forall (passed_over 2025) x_rows_other_year.
Proof.
  assert (H : weekly_purchase.aggregate_weekly 2025 x_rows_other_year = Ok [])
    by (vm_compute; reflexivity).
  split; [exact H|].
  apply (proj1 (weekly_empty_iff_all_passed_over 2025 x_rows_other_year [] H)).
  reflexivity.
Defined.

Lemma row_birds_passed_over (cy : Z) (row : list string) :
  weekly_purchase.weekly_step cy [] row = Ok [] -> row_birds cy row = 0.
Proof.
  intros H. unfold row_birds, weekly_purchase.aggregate_weekly, weekly_purchase.group_weeks.
  simpl for_each. rewrite H. reflexivity.
Qed.

Lemma row_birds_kept (cy : Z) (row : list string) (key : week_key)
  (acc : weekly_purchase.week_acc) :
  weekly_purchase.acc_dates acc <> [] ->
  weekly_purchase.weekly_step cy [] row = Ok [(key, acc)] ->
  row_birds cy row = weekly_purchase.acc_birds acc.
Proof.
  intros Hne H.
  unfold row_birds, weekly_purchase.aggregate_weekly, weekly_purchase.group_weeks.
  cbn [for_each]. rewrite H, !bind_ret.
  change (sorted (by_key week_key_ltb) [(key, acc)]) with [(key, acc)].
  cbn [weekly_purchase.emit_weeks].
  destruct (weekly_emit_week_ok (key, acc) Hne) as (w & Hw & _).
  rewrite Hw, !bind_ret. cbn [weekly_purchase.add_wow]. rewrite !bind_ret.
  cbn [weekly_purchase.stats].
  destruct (weekly_emit_week_fields _ _ Hw) as (_ & _ & _ & ->). reflexivity.
Qed.

Lemma weekly_groups_birds (cy : Z) (data : list (list string)) :
  forall s weeks,
    for_each (weekly_purchase.weekly_step cy) data s = Ok weeks ->
    Zsum (map (fun kv => weekly_purchase.acc_birds (snd kv)) weeks)
    = Zsum (map (fun kv => weekly_purchase.acc_birds (snd kv)) s)
      + Zsum (map (row_birds cy) data).
Proof.
  induction data as [|row data IH]; simpl; intros s weeks H.
  - inv_ok. lia.
  - inv_bind H. rewrite (IH _ _ H).
    destruct (weekly_step_cases _ _ _ _ Ha)
      as [(_ & -> & Hnil)|(cell & dt & b & ch & gz & _ & _ & _ & Hall)].
    + rewrite (row_birds_passed_over _ _ Hnil). lia.
    + pose proof (Hall []) as Hone. cbv zeta in Hone. cbn [dict_set] in Hone.
      apply row_birds_kept in Hone; [|simpl; discriminate]. rewrite Hone.
      rewrite (Hall s) in Ha. cbv zeta in Ha. inv_ok.
      rewrite (dict_set_sum week_key_eqb weekly_purchase.acc_birds s _ _
                 weekly_purchase.week_default eq_refl).
      simpl. lia.
Qed.

(** X6.  The birds of all buckets of [aggregate_weekly] add up to the birds the
    rows bring one by one: no row is counted twice and no row that counts
    is lost. *)
Theorem weekly_birds_additive (cy : Z) (data : list (list string))
  (rows : list weekly_purchase.week_row) :
  weekly_purchase.aggregate_weekly cy data = Ok rows ->
  Zsum (map (fun r => weekly_purchase.birds (weekly_purchase.stats r)) rows)
  = Zsum (map (row_birds cy) data).
Proof.
  intros H. pose proof H as H'. unfold weekly_purchase.aggregate_weekly in H'.
  inv_bind H'. clear H'.
  destruct (weekly_rows_length _ _ _ _ Ha H) as (_ & ->).
  rewrite (weekly_groups_birds cy data [] a Ha). reflexivity.
Qed.

Lemma weekly_birds_additive_witness :
  exists rows,
    weekly_purchase.aggregate_weekly 2025 c6_rows_repeated_day = Ok rows
    /\ Zsum (map (fun r => weekly_purchase.birds (weekly_purchase.stats r)) rows) = 360
    /\ Zsum (map (row_birds 2025) c6_rows_repeated_day) = 360.
Proof.
  eexists. split; [vm_compute; reflexivity|].
  split; [vm_compute; reflexivity|].
  rewrite <- (weekly_birds_additive 2025 c6_rows_repeated_day _ eq_refl).
  vm_compute. reflexivity.
Defined.

(** *** Rows cut short *)

Lemma for_each_app {T A : Type} (body : T -> A -> result T) (xs ys : list A) :
  forall s, for_each body (xs ++ ys) s = (s' <- for_each body xs s ;; for_each body ys s').
Proof.
  induction xs as [|x xs IH]; simpl; intros s; [reflexivity|].
  destruct (body s x) as [s1|e]; simpl; [apply IH|reflexivity].
Qed.

Lemma weekly_step_short (cy : Z) (ws : weekly_purchase.weeks_t) (row : list string)
  (cell : string) (d : datetime) :
  nth_error row 0 = Some cell -> parse_date (PyStr cell) = Ok (Some d) -> year d = cy ->
  (List.length row <= 5)%nat ->
  weekly_purchase.weekly_step cy ws row = Raise IndexError.
Proof.
  intros Hcell Hd Hy Hlen. unfold weekly_purchase.weekly_step, py_index.
  unfold weekly_purchase.COL_DATE at 1. rewrite Hcell, bind_ret, Hd, bind_ret.
  rewrite Hy, Z.eqb_refl. cbn [negb]. cbv iota.
  destruct (isocalendar d) as [[iy iw] wd].
  assert (E : nth_error row weekly_purchase.COL_BIRDS = None)
    by (apply nth_error_None; unfold weekly_purchase.COL_BIRDS; lia).
  rewrite E. reflexivity.
Qed.

(** X7.  A row with no cell at all, and a row of the current year with no birds
    cell (five cells or fewer), stop [aggregate_weekly] with an
    [IndexError], whatever the rows after it hold. *)
Theorem weekly_short_row_raises (cy : Z) (pre post : list (list string))
  (weeks : weekly_purchase.weeks_t) :
  weekly_purchase.group_weeks cy pre = Ok weeks ->
  weekly_purchase.aggregate_weekly cy (pre ++ [] :: post) = Raise IndexError
  /\ forall row cell d,
       nth_error row 0 = Some cell -> parse_date (PyStr cell) = Ok (Some d) ->
       year d = cy -> (List.length row <= 5)%nat ->
       weekly_purchase.aggregate_weekly cy (pre ++ row :: post) = Raise IndexError.
Proof.
  intros Hpre. unfold weekly_purchase.group_weeks in Hpre. split.
  - unfold weekly_purchase.aggregate_weekly, weekly_purchase.group_weeks.
    rewrite for_each_app, Hpre, bind_ret. reflexivity.
  - intros row cell d Hcell Hd Hy Hlen.
    unfold weekly_purchase.aggregate_weekly, weekly_purchase.group_weeks.
    rewrite for_each_app, Hpre, bind_ret. simpl for_each.
    rewrite (weekly_step_short cy weeks row cell d Hcell Hd Hy Hlen). reflexivity.
Qed.

Lemma weekly_short_row_raises_witness :
  weekly_purchase.aggregate_weekly 2025 x_rows_short = Raise IndexError.
Proof.
  destruct (weekly_purchase.group_weeks 2025 [hd [] x_rows_short]) as [weeks|e] eqn:E;
    [|vm_compute in E; discriminate E].
  apply (proj2 (weekly_short_row_raises 2025 [hd [] x_rows_short] [] weeks E)
           ["2025-01-07"; ""; ""] "2025-01-07" (mkdt 2025 1 7));
    [reflexivity|vm_compute; reflexivity|reflexivity|simpl; lia].
Defined.

(** ** The calendar: ordinals and ISO weeks *)

Lemma div_succ (y n : Z) :
  0 < n -> y / n = (y - 1) / n + (if y mod n =? 0 then 1 else 0).
Proof.
  intros Hn. destruct (Z.eqb_spec (y mod n) 0) as [E|E].
  - assert (H : y - 1 = n * (y / n - 1) + (n - 1)).
    { pose proof (Z.div_mod y n). nia. }
    assert (H' : (y - 1) / n = y / n - 1).
    { symmetry. apply (Z.div_unique_pos (y - 1) n (y / n - 1) (n - 1)); lia. }
    lia.
  - assert (H : y - 1 = n * (y / n) + (y mod n - 1)).
    { pose proof (Z.div_mod y n). lia. }
    assert (H' : (y - 1) / n = y / n).
    { symmetry. apply (Z.div_unique_pos (y - 1) n (y / n) (y mod n - 1)); [|exact H].
      pose proof (Z.mod_pos_bound y n Hn). lia. }
    lia.
Qed.

Lemma days_before_year_succ (y : Z) :
  days_before_year (y + 1) = days_before_year y + year_length y.
Proof.
  unfold days_before_year, year_length, is_leap. cbv zeta.
  replace (y + 1 - 1) with y by lia.
  rewrite (div_succ y 4), (div_succ y 100), (div_succ y 400) by lia.
  assert (H100 : y mod 100 = 0 -> y mod 4 = 0).
  { intros H. rewrite <- (Z.mod_mod_divide y 100 4) by (exists 25; reflexivity).
    rewrite H. reflexivity. }
  assert (H400 : y mod 400 = 0 -> y mod 100 = 0).
  { intros H. rewrite <- (Z.mod_mod_divide y 400 100) by (exists 4; reflexivity).
    rewrite H. reflexivity. }
  destruct (Z.eqb_spec (y mod 4) 0), (Z.eqb_spec (y mod 100) 0),
    (Z.eqb_spec (y mod 400) 0); cbn [andb orb negb]; try lia;
    exfalso; auto.
Qed.

Lemma year_length_pos (y : Z) : 365 <= year_length y.
Proof. unfold year_length. destruct (is_leap y); lia. Qed.

Lemma days_before_year_mono (y y' : Z) :
  y <= y' -> days_before_year y <= days_before_year y'.
Proof.
  intros H. replace y' with (y + Z.of_nat (Z.to_nat (y' - y))) by lia.
  induction (Z.to_nat (y' - y)) as [|n IH]; [replace (y + Z.of_nat 0) with y by lia; lia|].
  replace (y + Z.of_nat (S n)) with (y + Z.of_nat n + 1) by lia.
  rewrite days_before_year_succ. pose proof (year_length_pos (y + Z.of_nat n)). lia.
Qed.

Lemma valid_date_in_month (y m d : Z) :
  valid_date y m d = true ->
  1 <= y <= 9999 /\ 1 <= m <= 12 /\ 1 <= d <= days_in_month y m.
Proof. unfold valid_date. rewrite !andb_true_iff, !Z.leb_le. lia. Qed.

(** The days before a month and the month's own days, month by month. *)
Lemma days_before_month_cases (y m : Z) :
  1 <= m <= 12 ->
  let f := year_length y - 365 in
  (m = 1 /\ days_before_month y m = 0 /\ days_in_month y m = 31)
  \/ (m = 2 /\ days_before_month y m = 31 /\ days_in_month y m = 28 + f)
  \/ (m = 3 /\ days_before_month y m = 59 + f /\ days_in_month y m = 31)
  \/ (m = 4 /\ days_before_month y m = 90 + f /\ days_in_month y m = 30)
  \/ (m = 5 /\ days_before_month y m = 120 + f /\ days_in_month y m = 31)
  \/ (m = 6 /\ days_before_month y m = 151 + f /\ days_in_month y m = 30)
  \/ (m = 7 /\ days_before_month y m = 181 + f /\ days_in_month y m = 31)
  \/ (m = 8 /\ days_before_month y m = 212 + f /\ days_in_month y m = 31)
  \/ (m = 9 /\ days_before_month y m = 243 + f /\ days_in_month y m = 30)
  \/ (m = 10 /\ days_before_month y m = 273 + f /\ days_in_month y m = 31)
  \/ (m = 11 /\ days_before_month y m = 304 + f /\ days_in_month y m = 30)
  \/ (m = 12 /\ days_before_month y m = 334 + f /\ days_in_month y m = 31).
Proof.
  intros Hm. cbv zeta. unfold year_length.
  zcases m 1 12%nat; cbv - [is_leap]; destruct (is_leap y); cbv;
    repeat (first [left; repeat split; reflexivity | right]); repeat split; reflexivity.
Qed.

Lemma toordinal_bounds (d : datetime) :
  valid d ->
  days_before_year (year d) < toordinal d <= days_before_year (year d + 1).
Proof.
  unfold valid, toordinal. intros H. apply valid_date_in_month in H.
  destruct H as (_ & Hm & Hd). rewrite days_before_year_succ.
  pose proof (year_length_pos (year d)) as Hy.
  assert (Hf : year_length (year d) <= 366) by (unfold year_length; destruct is_leap; lia).
  destruct (days_before_month_cases (year d) (month d) Hm) as
    [H|[H|[H|[H|[H|[H|[H|[H|[H|[H|[H|H]]]]]]]]]]]; cbv zeta in H; lia.
Qed.

(** A later date has a larger ordinal. *)
Lemma toordinal_lt (a b : datetime) :
  valid a -> valid b -> dt_ltb a b = true -> toordinal a < toordinal b.
Proof.
  intros Ha Hb Hlt. apply dt_ltb_spec in Hlt.
  destruct Hlt as [Hy|(Hy & Hmd)].
  - pose proof (toordinal_bounds a Ha). pose proof (toordinal_bounds b Hb).
    pose proof (days_before_year_mono (year a + 1) (year b)). lia.
  - unfold valid in Ha, Hb. apply valid_date_in_month in Ha, Hb.
    destruct Ha as (_ & Hma & Hda), Hb as (_ & Hmb & Hdb).
    unfold toordinal. rewrite Hy in *.
    pose proof (year_length_pos (year b)) as Hlen.
    destruct (days_before_month_cases (year b) (month a) Hma) as
      [H|[H|[H|[H|[H|[H|[H|[H|[H|[H|[H|H]]]]]]]]]]];
      destruct (days_before_month_cases (year b) (month b) Hmb) as
      [G|[G|[G|[G|[G|[G|[G|[G|[G|[G|[G|G]]]]]]]]]]];
      cbv zeta in H, G; lia.
Qed.

Lemma dt_trichotomy (a b : datetime) :
  a = b \/ dt_ltb a b = true \/ dt_ltb b a = true.
Proof.
  rewrite !dt_ltb_spec. destruct a as [ya ma da], b as [yb mb db]. simpl.
  destruct (Z.lt_trichotomy ya yb) as [H|[H|H]]; [lia| |lia].
  destruct (Z.lt_trichotomy ma mb) as [G|[G|G]]; [lia| |lia].
  destruct (Z.lt_trichotomy da db) as [F|[F|F]]; [lia| |lia].
  left. congruence.
Qed.

Lemma toordinal_inj (a b : datetime) :
  valid a -> valid b -> toordinal a = toordinal b -> a = b.
Proof.
  intros Ha Hb E. destruct (dt_trichotomy a b) as [H|[H|H]]; [exact H| |].
  - pose proof (toordinal_lt a b Ha Hb H). lia.
  - pose proof (toordinal_lt b a Hb Ha H). lia.
Qed.

Lemma toordinal_le (a b : datetime) :
  valid a -> valid b -> dt_leb a b = true -> toordinal a <= toordinal b.
Proof.
  intros Ha Hb H. destruct (dt_trichotomy a b) as [->|[G|G]]; [lia| |].
  - pose proof (toordinal_lt a b Ha Hb G). lia.
  - unfold dt_leb in H. rewrite G in H. discriminate H.
Qed.

Lemma isoweek1monday_bounds (y : Z) :
  days_before_year y - 2 <= isoweek1monday y <= days_before_year y + 4.
Proof.
  unfold isoweek1monday. cbv zeta.
  pose proof (Z.mod_pos_bound (days_before_year y + 1 + 6) 7 ltac:(lia)) as H.
  destruct (Z.ltb_spec 3 ((days_before_year y + 1 + 6) mod 7)); lia.
Qed.

(** The days of an ISO week: the seven from its Monday on. *)
Lemma iso_week_range (d : datetime) (iy wk : Z) :
  valid d -> iso_week_of d = (iy, wk) ->
  let monday := isoweek1monday iy + 7 * (wk - 1) in
  monday <= toordinal d <= monday + 6.
Proof.
  intros Hv. unfold iso_week_of, isocalendar. cbv zeta.
  pose proof (toordinal_bounds d Hv) as Hb.
  pose proof (isoweek1monday_bounds (year d + 1)) as Hn.
  destruct (Z.ltb_spec ((toordinal d - isoweek1monday (year d)) / 7) 0) as [Hw|Hw].
  - cbn [fst snd]. intros E. injection E as <- <-.
    pose proof (Z.div_mod (toordinal d - isoweek1monday (year d - 1)) 7 ltac:(lia)).
    pose proof (Z.mod_pos_bound (toordinal d - isoweek1monday (year d - 1)) 7 ltac:(lia)).
    lia.
  - destruct (Z.leb_spec 52 ((toordinal d - isoweek1monday (year d)) / 7)) as [H52|H52];
      [destruct (Z.leb_spec (isoweek1monday (year d + 1)) (toordinal d)) as [Hm|Hm]|];
      cbn [andb fst snd]; intros E; injection E as <- <-.
    + lia.
    + pose proof (Z.div_mod (toordinal d - isoweek1monday (year d)) 7 ltac:(lia)).
      pose proof (Z.mod_pos_bound (toordinal d - isoweek1monday (year d)) 7 ltac:(lia)).
      lia.
    + pose proof (Z.div_mod (toordinal d - isoweek1monday (year d)) 7 ltac:(lia)).
      pose proof (Z.mod_pos_bound (toordinal d - isoweek1monday (year d)) 7 ltac:(lia)).
      lia.
Qed.

(** Distinct integers of a range are no more than the range holds. *)
Lemma range_count (xs : list Z) (lo hi : Z) :
  NoDup xs -> (forall x, In x xs -> lo <= x <= hi) -> lo <= hi + 1 ->
  Z.of_nat (List.length xs) <= hi - lo + 1.
Proof.
  intros Hnd Hin Hle.
  assert (Hincl : incl xs (map (fun i => lo + Z.of_nat i) (seq 0 (Z.to_nat (hi - lo + 1))))).
  { intros x Hx. specialize (Hin x Hx). apply in_map_iff.
    exists (Z.to_nat (x - lo)). split; [lia|]. apply in_seq. lia. }
  apply (NoDup_incl_length Hnd) in Hincl.
  rewrite length_map, length_seq in Hincl. lia.
Qed.

(** The distinct dates of a list of valid dates number at most the days
    from its earliest to its latest. *)
Lemma distinct_dates_span (xs : list datetime) (mn mx : datetime) :
  Forall valid xs -> dt_min xs = Ok mn -> dt_max xs = Ok mx ->
  1 <= Z.of_nat (List.length (distinct_dates xs)) <= toordinal mx - toordinal mn + 1.
Proof.
  intros Hv Hmn Hmx. rewrite Forall_forall in Hv.
  pose proof (dt_min_In _ _ Hmn) as Imn. pose proof (dt_max_In _ _ Hmx) as Imx.
  split.
  - apply distinct_dates_count. intros ->. destruct Imn.
  - rewrite <- (length_map toordinal). apply range_count.
    + apply NoDup_map_NoDup_ForallPairs; [|apply distinct_dates_NoDup].
      intros a b Ia Ib.
      apply -> distinct_dates_In in Ia. apply -> distinct_dates_In in Ib.
      apply toordinal_inj; auto.
    + intros x Hx. apply in_map_iff in Hx. destruct Hx as (d & <- & Hd).
      apply -> distinct_dates_In in Hd. split.
      * apply toordinal_le; auto. apply (dt_min_least _ _ Hmn), Hd.
      * apply toordinal_le; auto. apply (dt_max_greatest _ _ Hmx), Hd.
    + assert (toordinal mn <= toordinal mx); [|lia].
      apply toordinal_le; auto. apply (dt_min_least _ _ Hmn), Imx.
Qed.

(** ** weekly_purchase.py: the days of a bucket *)

Lemma parse_date_valid (s : string) (d : datetime) :
  parse_date (PyStr s) = Ok (Some d) -> valid d.
Proof.
  unfold parse_date. intros H. apply parse_date_from_first in H.
  destruct H as (pre & fmt & post & _ & _ & H). exact (strptime_valid _ _ _ H).
Qed.

Lemma weekly_groups_valid (cy : Z) (data : list (list string))
  (weeks : weekly_purchase.weeks_t) :
  weekly_purchase.group_weeks cy data = Ok weeks ->
  Forall (fun kv => Forall valid (weekly_purchase.acc_dates (snd kv))) weeks.
Proof.
  unfold weekly_purchase.group_weeks.
  apply (for_each_invariant
           (fun ws => Forall (fun kv => Forall valid (weekly_purchase.acc_dates (snd kv)))
                             ws));
    [|constructor].
  intros s row s' _ Hs Hstep.
  destruct (weekly_step_cases _ _ _ _ Hstep)
    as [(_ & -> & _)|(cell & dt & b & ch & gz & _ & Hp & _ & Hall)]; [exact Hs|].
  rewrite (Hall s) in Hstep. cbv zeta in Hstep. inv_ok.
  apply (dict_set_entries week_key_eqb week_key_eqb_eq
           (fun _ v => Forall valid (weekly_purchase.acc_dates v)));
    [exact Hs|].
  simpl. apply Forall_app. split; [|constructor; [exact (parse_date_valid _ _ Hp)|constructor]].
  apply (dict_default_entry week_key_eqb week_key_eqb_eq
           (fun _ v => Forall valid (weekly_purchase.acc_dates v)));
    [exact Hs|constructor].
Qed.

Lemma weekly_emit_week_days (kv : week_key * weekly_purchase.week_acc)
  (w : weekly_purchase.week_stats) :
  weekly_purchase.emit_week kv = Ok w ->
  weekly_purchase.purchase_days w
  = Z.of_nat (List.length (distinct_dates (weekly_purchase.acc_dates (snd kv)))).
Proof.
  destruct kv as [[yr wk] vals]. unfold weekly_purchase.emit_week. intros H.
  inv_bind H. inv_bind H. inv_bind H. inv_bind H. inv_ok. reflexivity.
Qed.

(** X8.  The purchase days of a week of [aggregate_weekly] are at least one and
    at most seven: they are no more than the days from the week's start to
    its end, both counted, and these are at most seven. *)
Theorem weekly_purchase_days (cy : Z) (data : list (list string))
  (rows : list weekly_purchase.week_row) :
  weekly_purchase.aggregate_weekly cy data = Ok rows ->
  Forall (fun r =>
            let s := weekly_purchase.stats r in
            let span := toordinal (weekly_purchase.w_end s)
                        - toordinal (weekly_purchase.w_start s) + 1 in
            1 <= weekly_purchase.purchase_days s <= span
            /\ span <= 7
            /\ weekly_purchase.purchase_days s <= 7) rows.
Proof.
  unfold weekly_purchase.aggregate_weekly. intros H.
  inv_bind H. inv_bind H. apply weekly_add_wow_stats in H.
  apply Forall_forall. intros r Hin. cbv zeta.
  assert (Hw : In (weekly_purchase.stats r) a0) by (rewrite <- H; apply in_map, Hin).
  destruct (weekly_emit_weeks_In _ _ _ Ha0 Hw) as (kv & Hkv & He).
  apply sorted_In in Hkv.
  pose proof (weekly_groups_iso _ _ _ Ha) as Hiso.
  pose proof (weekly_groups_valid _ _ _ Ha) as Hval.
  rewrite Forall_forall in Hiso, Hval.
  specialize (Hiso kv Hkv). specialize (Hval kv Hkv).
  destruct (weekly_emit_week_fields _ _ He) as (Hkey & Hmn & Hmx & _).
  rewrite (weekly_emit_week_days _ _ He).
  pose proof (distinct_dates_span _ _ _ Hval Hmn Hmx) as Hspan.
  rewrite Forall_forall in Hiso, Hval.
  pose proof (dt_min_In _ _ Hmn) as Imn. pose proof (dt_max_In _ _ Hmx) as Imx.
  destruct kv as [[iy wk] vals]. cbn [fst snd] in *.
  pose proof (iso_week_range _ iy wk (Hval _ Imn) (Hiso _ Imn)) as R1.
  pose proof (iso_week_range _ iy wk (Hval _ Imx) (Hiso _ Imx)) as R2.
  cbv zeta in R1, R2. lia.
Qed.

Lemma weekly_purchase_days_witness :
  exists rows,
    weekly_purchase.aggregate_weekly 2025 c6_rows_repeated_day = Ok rows
    /\ map (fun r => weekly_purchase.purchase_days (weekly_purchase.stats r)) rows = [2]
    /\ Forall (fun r =>
                 let s := weekly_purchase.stats r in
                 let span := toordinal (weekly_purchase.w_end s)
                             - toordinal (weekly_purchase.w_start s) + 1 in
                 1 <= weekly_purchase.purchase_days s <= span
                 /\ span <= 7
                 /\ weekly_purchase.purchase_days s <= 7) rows.
Proof.
  eexists. split; [|split].
  - vm_compute. reflexivity.
  - reflexivity.
  - apply (weekly_purchase_days 2025 c6_rows_repeated_day). vm_compute. reflexivity.
Defined.

(** ** The order of floats that are positive *)

Lemma flt_fin (a b : Q) : flt (Fin a) (Fin b) = true <-> (a < b)%Q.
Proof.
  unfold flt. rewrite Qlt_alt. destruct (a ?= b)%Q; split; congruence.
Qed.

Lemma flt_fin_false (a b : Q) : flt (Fin a) (Fin b) = false <-> (b <= a)%Q.
Proof.
  rewrite <- not_true_iff_false, flt_fin. split; [apply Qnot_lt_le|apply Qle_not_lt].
Qed.

Lemma fpos_cases (x : pyfloat) :
  fpos x = true -> (exists q, x = Fin q /\ (0 < q)%Q) \/ x = Inf false.
Proof.
  destruct x as [q|[|]|]; try discriminate.
  - intros H. left. exists q. split; [reflexivity|]. apply flt_fin, H.
  - auto.
Qed.

Lemma fle_refl (x : pyfloat) : flt x x = false.
Proof.
  destruct x as [q|[|]|]; try reflexivity. apply flt_fin_false. apply Qle_refl.
Qed.

Lemma fle_trans (x y z : pyfloat) :
  fpos x = true -> fpos y = true -> fpos z = true ->
  flt y x = false -> flt z y = false -> flt z x = false.
Proof.
  intros Hx Hy Hz.
  destruct (fpos_cases x Hx) as [(a & -> & _)| ->];
    destruct (fpos_cases y Hy) as [(b & -> & _)| ->];
    destruct (fpos_cases z Hz) as [(c & -> & _)| ->];
    try (simpl; congruence).
  rewrite !flt_fin_false. intros H1 H2. apply (Qle_trans _ b); assumption.
Qed.

Lemma flt_true_false (x y : pyfloat) : flt x y = true -> flt y x = false.
Proof.
  destruct x as [a|[|]|], y as [b|[|]|]; try (simpl; congruence).
  rewrite flt_fin, flt_fin_false. apply Qlt_le_weak.
Qed.

Lemma fmin_least (xs : list pyfloat) (m : pyfloat) :
  Forall (fun x => fpos x = true) xs -> fmin xs = Ok m ->
  In m xs /\ forall x, In x xs -> flt x m = false.
Proof.
  destruct xs as [|x0 xs]; [discriminate|]. simpl fmin. intros Hall H. inv_ok.
  inversion Hall as [|? ? H0 Hxs]; subst. clear Hall.
  revert x0 H0. induction xs as [|y ys IH]; intros m Hm; simpl.
  - split; [auto|]. intros x [<-|[]]. apply fle_refl.
  - inversion Hxs as [|? ? Hy Hys]; subst.
    destruct (flt y m) eqn:E.
    + destruct (IH Hys y Hy) as (Hin & Hle). split.
      * destruct Hin as [<-|Hin]; auto.
      * assert (Hr : fpos (fold_left (fun m0 y0 => if flt y0 m0 then y0 else m0) ys y) = true).
        { destruct Hin as [<-|Hin]; [exact Hy|].
          rewrite Forall_forall in Hys. apply Hys, Hin. }
        intros x [<-|[<-|Hx]].
        -- apply (fle_trans _ y _ Hr Hy Hm); [apply Hle; simpl; auto|apply flt_true_false, E].
        -- apply Hle. simpl. auto.
        -- apply Hle. simpl. auto.
    + destruct (IH Hys m Hm) as (Hin & Hle). split.
      * destruct Hin as [<-|Hin]; auto.
      * assert (Hr : fpos (fold_left (fun m0 y0 => if flt y0 m0 then y0 else m0) ys m) = true).
        { destruct Hin as [<-|Hin]; [exact Hm|].
          rewrite Forall_forall in Hys. apply Hys, Hin. }
        intros x [<-|[<-|Hx]].
        -- apply Hle. simpl. auto.
        -- apply (fle_trans _ m _ Hr Hm Hy); [apply Hle; simpl; auto|exact E].
        -- apply Hle. simpl. auto.
Qed.

Lemma fmax_greatest (xs : list pyfloat) (m : pyfloat) :
  Forall (fun x => fpos x = true) xs -> fmax xs = Ok m ->
  In m xs /\ forall x, In x xs -> flt m x = false.
Proof.
  destruct xs as [|x0 xs]; [discriminate|]. simpl fmax. intros Hall H. inv_ok.
  inversion Hall as [|? ? H0 Hxs]; subst. clear Hall.
  revert x0 H0. induction xs as [|y ys IH]; intros m Hm; simpl.
  - split; [auto|]. intros x [<-|[]]. apply fle_refl.
  - inversion Hxs as [|? ? Hy Hys]; subst.
    destruct (flt m y) eqn:E.
    + destruct (IH Hys y Hy) as (Hin & Hle). split.
      * destruct Hin as [<-|Hin]; auto.
      * assert (Hr : fpos (fold_left (fun m0 y0 => if flt m0 y0 then y0 else m0) ys y) = true).
        { destruct Hin as [<-|Hin]; [exact Hy|].
          rewrite Forall_forall in Hys. apply Hys, Hin. }
        intros x [<-|[<-|Hx]].
        -- apply (fle_trans _ y _ Hm Hy Hr); [apply flt_true_false, E|apply Hle; simpl; auto].
        -- apply Hle. simpl. auto.
        -- apply Hle. simpl. auto.
    + destruct (IH Hys m Hm) as (Hin & Hle). split.
      * destruct Hin as [<-|Hin]; auto.
      * assert (Hr : fpos (fold_left (fun m0 y0 => if flt m0 y0 then y0 else m0) ys m) = true).
        { destruct Hin as [<-|Hin]; [exact Hm|].
          rewrite Forall_forall in Hys. apply Hys, Hin. }
        intros x [<-|[<-|Hx]].
        -- apply Hle. simpl. auto.
        -- apply (fle_trans _ m _ Hy Hm Hr); [exact E|apply Hle; simpl; auto].
        -- apply Hle. simpl. auto.
Qed.

(** ** doc_price.py: what a row does to the buckets *)

Lemma price_step_cases (cy : Z) (weeks weeks' : doc_price.weeks_t) (row : list string) :
  doc_price.price_step cy weeks row = Ok weeks' ->
  (price_passed_over cy row /\ weeks' = weeks /\ doc_price.price_step cy [] row = Ok [])
  \/ exists cell dt ps a lo hi,
      nth_error row 0 = Some cell
      /\ parse_date (PyStr cell) = Ok (Some dt)
      /\ year dt = cy
      /\ positive_floats (tl row) = Ok ps /\ ps <> []
      /\ fdiv (fsum ps) (of_int (Z.of_nat (List.length ps))) = Ok a
      /\ fmin ps = Ok lo /\ fmax ps = Ok hi
      /\ (forall ws,
            doc_price.price_step cy ws row
            = let w := dict_default week_key_eqb ws (iso_week_of dt) doc_price.week_default in
              Ok (dict_set week_key_eqb ws (iso_week_of dt)
                    (doc_price.mkacc (doc_price.acc_prices w ++ [doc_price.mkday a lo hi])
                                     (doc_price.acc_dates w ++ [dt])))).
Proof.
  intros H. unfold doc_price.price_step in H.
  inv_bind H. pose proof Ha as Hidx. unfold py_index in Ha.
  destruct (nth_error row 0) as [cell|] eqn:E0; [|discriminate].
  assert (cell = a) as -> by congruence. clear Ha.
  inv_bind H. destruct a0 as [dt|].
  - destruct (Z.eqb_spec (year dt) cy) as [Hy|Hy]; simpl negb in H; cbv iota in H.
    + inv_bind H. destruct a0 as [|p0 ps].
      * inv_ok. left. split; [|split; [reflexivity|]].
        -- exists a. split; [first [exact E0|reflexivity]|]. intros d Hd _.
           assert (d = dt) by congruence. subst d. exact Ha0.
        -- unfold doc_price.price_step.
           rewrite Hidx, bind_ret, Ha, bind_ret, Z.eqb_refl. cbn [negb]. cbv iota.
           rewrite Ha0, bind_ret. reflexivity.
      * right. unfold iso_week_of.
        destruct (isocalendar dt) as [[iy iw] wd] eqn:Eiso.
        inv_bind H. inv_bind H. inv_bind H. inv_ok.
        exists a, dt, (p0 :: ps), a0, a1, a2.
        split; [first [exact E0|reflexivity]|]. split; [exact Ha|]. split; [reflexivity|].
        split; [exact Ha0|]. split; [discriminate|]. split; [exact Ha1|].
        split; [exact Ha2|]. split; [exact Ha3|].
        intros ws. unfold doc_price.price_step.
        rewrite Hidx, bind_ret, Ha, bind_ret, Z.eqb_refl. cbn [negb]. cbv iota.
        rewrite Ha0, bind_ret, Eiso. cbn [fst snd]. cbv iota.
        rewrite Ha1, bind_ret, Ha2, bind_ret, Ha3, bind_ret. reflexivity.
    + inv_ok. left. split; [|split; [reflexivity|]].
      * exists a. split; [first [exact E0|reflexivity]|]. intros d Hd Hyd. congruence.
      * unfold doc_price.price_step. rewrite Hidx, bind_ret, Ha, bind_ret.
        destruct (Z.eqb_spec (year dt) cy) as [|_]; [contradiction|]. reflexivity.
  - inv_ok. left. split; [|split; [reflexivity|]].
    + exists a. split; [first [exact E0|reflexivity]|]. intros d Hd. congruence.
    + unfold doc_price.price_step. rewrite Hidx, bind_ret, Ha, bind_ret. reflexivity.
Qed.

Lemma price_emit_week_fields (kv : week_key * doc_price.week_acc) (w : doc_price.week_stats) :
  doc_price.emit_week kv = Ok w ->
  (doc_price.w_year w, doc_price.w_week w) = fst kv
  /\ doc_price.entries w = Z.of_nat (List.length (doc_price.acc_prices (snd kv)))
  /\ rounded_mean (map doc_price.avg (doc_price.acc_prices (snd kv))) 0
     = Ok (doc_price.avg_price w)
  /\ fmin (map doc_price.min (doc_price.acc_prices (snd kv))) = Ok (doc_price.min_price w)
  /\ fmax (map doc_price.max (doc_price.acc_prices (snd kv))) = Ok (doc_price.max_price w)
  /\ doc_price.spread w
     = py_round (fsub (doc_price.max_price w) (doc_price.min_price w)) 0.
Proof.
  destruct kv as [[yr wk] vals]. unfold doc_price.emit_week. intros H.
  inv_bind H. inv_bind H. inv_bind H. inv_bind H. inv_bind H. inv_ok. simpl.
  repeat split; try assumption; reflexivity.
Qed.

Lemma price_emit_weeks_In (items : list (week_key * doc_price.week_acc)) :
  forall ws w, doc_price.emit_weeks items = Ok ws -> In w ws ->
  exists kv, In kv items /\ doc_price.emit_week kv = Ok w.
Proof.
  induction items as [|kv items IH]; simpl; intros ws w H Hin.
  - inv_ok. destruct Hin.
  - inv_bind H. inv_bind H. inv_ok. destruct Hin as [<-|Hin].
    + exists kv. auto.
    + destruct (IH _ _ Ha0 Hin) as (kv' & Hkv & He). exists kv'. auto.
Qed.

(** The daily entries of every bucket hold positive prices, the lowest not
    above the highest. *)
Lemma price_groups_bounds (cy : Z) (data : list (list string)) (weeks : doc_price.weeks_t) :
  doc_price.group_weeks cy data = Ok weeks ->
  Forall (fun kv =>
            Forall (fun p => fnonneg (doc_price.avg p) = true /\ fpos (doc_price.min p) = true
                             /\ fpos (doc_price.max p) = true
                             /\ flt (doc_price.max p) (doc_price.min p) = false)
                   (doc_price.acc_prices (snd kv))) weeks.
Proof.
  unfold doc_price.group_weeks.
  apply (for_each_invariant
           (fun ws =>
              Forall (fun kv =>
                        Forall (fun p => fnonneg (doc_price.avg p) = true
                                         /\ fpos (doc_price.min p) = true
                                         /\ fpos (doc_price.max p) = true
                                         /\ flt (doc_price.max p) (doc_price.min p) = false)
                               (doc_price.acc_prices (snd kv))) ws)); [|constructor].
  intros s row s' _ Hs Hstep.
  destruct (price_step_cases _ _ _ _ Hstep)
    as [(_ & -> & _)
       |(cell & dt & ps & a & lo & hi & _ & _ & _ & Hps & Hne & Havg & Hlo & Hhi & Hall)];
    [exact Hs|].
  rewrite (Hall s) in Hstep. cbv zeta in Hstep. inv_ok.
  apply (dict_set_values week_key_eqb
           (fun v => Forall (fun p => fnonneg (doc_price.avg p) = true
                                      /\ fpos (doc_price.min p) = true
                                      /\ fpos (doc_price.max p) = true
                                      /\ flt (doc_price.max p) (doc_price.min p) = false)
                            (doc_price.acc_prices v))); [exact Hs|].
  simpl. apply Forall_app. split.
  - apply (dict_default_values week_key_eqb
             (fun v => Forall (fun p => fnonneg (doc_price.avg p) = true
                                        /\ fpos (doc_price.min p) = true
                                        /\ fpos (doc_price.max p) = true
                                        /\ flt (doc_price.max p) (doc_price.min p) = false)
                              (doc_price.acc_prices v))); [exact Hs|constructor].
  - pose proof (positive_floats_pos _ _ Hps) as Hpos.
    destruct (fmin_least _ _ Hpos Hlo) as (Hlo_in & _).
    destruct (fmax_greatest _ _ Hpos Hhi) as (Hhi_in & Hhi_max).
    assert (Ha : fnonneg a = true).
    { apply (fdiv_count_nonneg (fsum ps) a (Z.of_nat (List.length ps))); [| |exact Havg].
      - destruct ps; [congruence|]. simpl List.length. lia.
      - apply fsum_nonneg. eapply Forall_impl; [|exact Hpos]. apply fpos_nonneg. }
    rewrite Forall_forall in Hpos.
    constructor; [|constructor]. simpl. auto.
Qed.

(** X9.  In every week of [aggregate_weekly_prices] the lowest and the highest
    price are positive, the lowest is not above the highest, the average is
    not negative, and the spread of finite prices is not negative. *)
Theorem price_week_bounds (cy : Z) (data : list (list string))
  (rows : list doc_price.week_row) :
  doc_price.aggregate_weekly_prices cy data = Ok rows ->
  Forall (fun r =>
            let s := doc_price.stats r in
            fnonneg (doc_price.avg_price s) = true
            /\ fpos (doc_price.min_price s) = true
            /\ fpos (doc_price.max_price s) = true
            /\ flt (doc_price.max_price s) (doc_price.min_price s) = false
            /\ (forall q, doc_price.max_price s = Fin q ->
                          fnonneg (doc_price.spread s) = true)) rows.
Proof.
  unfold doc_price.aggregate_weekly_prices. intros H.
  inv_bind H. inv_bind H. apply price_add_wow_chained in H. destruct H as (H & _).
  apply Forall_forall. intros r Hin. cbv zeta.
  assert (Hw : In (doc_price.stats r) a0) by (rewrite <- H; apply in_map, Hin).
  destruct (price_emit_weeks_In _ _ _ Ha0 Hw) as (kv & Hkv & He).
  apply sorted_In in Hkv.
  pose proof (price_groups_bounds _ _ _ Ha) as Hb.
  rewrite Forall_forall in Hb. specialize (Hb kv Hkv).
  destruct (price_emit_week_fields _ _ He) as (_ & _ & Havg & Hmin & Hmax & Hspread).
  assert (Hmins : Forall (fun x => fpos x = true)
                   (map doc_price.min (doc_price.acc_prices (snd kv)))).
  { apply Forall_map. eapply Forall_impl; [|exact Hb]. simpl. tauto. }
  assert (Hmaxs : Forall (fun x => fpos x = true)
                   (map doc_price.max (doc_price.acc_prices (snd kv)))).
  { apply Forall_map. eapply Forall_impl; [|exact Hb]. simpl. tauto. }
  destruct (fmin_least _ _ Hmins Hmin) as (Hmin_in & Hmin_le).
  destruct (fmax_greatest _ _ Hmaxs Hmax) as (Hmax_in & Hmax_ge).
  rewrite Forall_forall in Hmins, Hmaxs.
  pose proof (Hmins _ Hmin_in) as Hpmin. pose proof (Hmaxs _ Hmax_in) as Hpmax.
  assert (Hle : flt (doc_price.max_price (doc_price.stats r))
                    (doc_price.min_price (doc_price.stats r)) = false).
  { apply in_map_iff in Hmin_in. destruct Hmin_in as (p & Hp & Hpin).
    rewrite Forall_forall in Hb. destruct (Hb p Hpin) as (_ & Hp1 & Hp2 & Hp3).
    apply (fle_trans _ (doc_price.max p) _ Hpmin Hp2 Hpmax).
    - rewrite <- Hp. exact Hp3.
    - apply Hmax_ge, in_map, Hpin. }
  split.
  { eapply rounded_mean_nonneg; [|exact Havg].
    apply Forall_map. eapply Forall_impl; [|exact Hb]. simpl. tauto. }
  repeat split; try assumption.
  intros q Hq. rewrite Hspread. apply py_round_nonneg.
  rewrite Hq in *.
  destruct (fpos_cases _ Hpmin) as [(q0 & Emin & _)|Emin]; rewrite Emin in *.
  - unfold fsub, fneg, fadd. apply fnonneg_fin. apply flt_fin_false in Hle.
    rewrite !Qred_correct. lra.
  - discriminate Hle.
Qed.

Lemma price_week_bounds_witness :
  exists rows,
    doc_price.aggregate_weekly_prices 2025 x_price_rows = Ok rows
    /\ Forall (fun r =>
                 let s := doc_price.stats r in
                 fnonneg (doc_price.avg_price s) = true
                 /\ fpos (doc_price.min_price s) = true
                 /\ fpos (doc_price.max_price s) = true
                 /\ flt (doc_price.max_price s) (doc_price.min_price s) = false
                 /\ (forall q, doc_price.max_price s = Fin q ->
                               fnonneg (doc_price.spread s) = true)) rows.
Proof.
  eexists. split; [vm_compute; reflexivity|].
  apply (price_week_bounds 2025 x_price_rows). vm_compute. reflexivity.
Defined.

(** *** The rows that count *)

Lemma price_rows_length (cy : Z) (data : list (list string))
  (weeks : doc_price.weeks_t) (rows : list doc_price.week_row) :
  doc_price.group_weeks cy data = Ok weeks ->
  doc_price.aggregate_weekly_prices cy data = Ok rows ->
  List.length rows = List.length weeks
  /\ Zsum (map (fun r => doc_price.entries (doc_price.stats r)) rows)
     = Zsum (map (fun kv => Z.of_nat (List.length (doc_price.acc_prices (snd kv)))) weeks).
Proof.
  unfold doc_price.aggregate_weekly_prices. intros Hg H. rewrite Hg, bind_ret in H.
  inv_bind H. apply price_add_wow_chained in H. destruct H as (H & _).
  pose proof (sorted_perm (by_key week_key_ltb) weeks) as Hperm.
  assert (Hemit : forall items ws,
             doc_price.emit_weeks items = Ok ws ->
             List.length ws = List.length items
             /\ map doc_price.entries ws
                = map (fun kv => Z.of_nat (List.length (doc_price.acc_prices (snd kv)))) items).
  { induction items as [|kv items IH]; simpl; intros ws Hws.
    - inv_ok. auto.
    - inv_bind Hws. inv_bind Hws. inv_ok.
      destruct (IH _ Ha1) as (Hl & Hb).
      destruct (price_emit_week_fields _ _ Ha0) as (_ & He & _).
      simpl. rewrite Hl, Hb, He. auto. }
  destruct (Hemit _ _ Ha) as (Hl & Hb).
  split.
  - rewrite <- (Permutation_length Hperm), <- Hl, <- H, length_map. reflexivity.
  - rewrite <- (Zsum_perm _ _ (Permutation_map _ Hperm)), <- Hb, <- H, map_map.
    reflexivity.
Qed.

Lemma price_groups_empty (cy : Z) (data : list (list string)) :
  forall s weeks,
    for_each (doc_price.price_step cy) data s = Ok weeks ->
    (weeks = [] <-> s = [] /\ Forall (price_passed_over cy) data).
Proof.
  induction data as [|row data IH]; simpl; intros s weeks H.
  - inv_ok. split; [auto|tauto].
  - inv_bind H. rewrite (IH _ _ H).
    destruct (price_step_cases _ _ _ _ Ha)
      as [(Hp & -> & _)
         |(cell & dt & ps & a0 & lo & hi & Hcell & Hd & Hy & Hps & Hne & _ & _ & _ & Hall)].
    + split.
      * intros (-> & Hall). auto.
      * intros (-> & Hall). inversion Hall; subst. auto.
    + rewrite (Hall s) in Ha. cbv zeta in Ha. inv_ok. split.
      * intros (Hnil & _). exfalso. exact (dict_set_not_nil _ _ _ _ Hnil).
      * intros (_ & Hrows). inversion Hrows as [|? ? (cell' & Hcell' & Hno) _]; subst.
        exfalso. rewrite Hcell in Hcell'. inv_ok.
        rewrite (Hno dt Hd eq_refl) in Hps. inv_ok. congruence.
Qed.

(** X10.  [aggregate_weekly_prices] returns no week exactly when it passed every
    row over: when every row has a date cell that is no date of the current
    year, or has no price cell that reads as a positive number. *)
Theorem price_empty_iff_all_passed_over (cy : Z) (data : list (list string))
  (rows : list doc_price.week_row) :
  doc_price.aggregate_weekly_prices cy data = Ok rows ->
  (rows = [] <-> Forall (price_passed_over cy) data).
Proof.
  intros H. pose proof H as H'. unfold doc_price.aggregate_weekly_prices in H'.
  inv_bind H'. clear H'.
  destruct (price_rows_length _ _ _ _ Ha H) as (Hlen & _).
  pose proof (price_groups_empty cy data [] a Ha) as Hiff.
  split.
  - intros ->. destruct a; [|discriminate]. apply Hiff. reflexivity.
  - intros Hall. assert (a = []) as -> by (apply Hiff; auto).
    destruct rows; [reflexivity|discriminate].
Qed.

Lemma price_empty_iff_all_passed_over_witness :
  doc_price.aggregate_weekly_prices 2026 x_price_rows = Ok []
  /\ Forall (price_passed_over 2026) x_price_rows.
Proof.
  assert (H : doc_price.aggregate_weekly_prices 2026 x_price_rows = Ok [])
    by (vm_compute; reflexivity).
  split; [exact H|].
  apply (proj1 (price_empty_iff_all_passed_over 2026 x_price_rows [] H)).
  reflexivity.
Defined.






(** ** The price normalizers never raise *)

Lemma mean_or_none_total (parts : list pyfloat) : exists o, mean_or_none parts = Ok o.
Proof. destruct (mean_or_none_claimed parts) as (o & H & _). eauto. Qed.

Lemma positive_or_none_total (val : string) : exists o, positive_or_none val = Ok o.
Proof.
  unfold positive_or_none. destruct (safe_float_total (PyStr val)) as (x & -> & _).
  rewrite bind_ret. eauto.
Qed.

Lemma parse_price_total (val : string) : exists o, competitor_selling.parse_price val = Ok o.
Proof.
  unfold competitor_selling.parse_price.
  destruct (negb (nonempty val) || negb (nonempty (strip val))); [eauto|].
  destruct (contains "/" (strip val)); [|apply positive_or_none_total].
  destruct (positive_floats_total (split "/" (strip val))) as (ps & -> & _).
  rewrite bind_ret. apply mean_or_none_total.
Qed.

Lemma parse_buying_price_total (val : string) :
  exists o, competitor_buying.parse_buying_price val = Ok o.
Proof.
  unfold competitor_buying.parse_buying_price.
  destruct (negb (nonempty val) || negb (nonempty (strip val))); [eauto|].
  destruct (contains " - " (remove_char "," (strip val))); [|apply positive_or_none_total].
  destruct (positive_floats_total (split " - " (remove_char "," (strip val)))) as (ps & -> & _).
  rewrite bind_ret. apply mean_or_none_total.
Qed.

Lemma parse_buying_price_nonneg (val : string) (x : pyfloat) :
  competitor_buying.parse_buying_price val = Ok (Some x) -> fnonneg x = true.
Proof.
  unfold competitor_buying.parse_buying_price.
  destruct (negb (nonempty val) || negb (nonempty (strip val))); [discriminate|].
  destruct (contains " - " (remove_char "," (strip val))).
  - intros H. inv_bind H.
    eapply mean_or_none_nonneg; [eapply positive_floats_pos|]; eassumption.
  - intros H. apply fpos_nonneg. eapply positive_or_none_pos, H.
Qed.

(** X12.  [parse_price] and [parse_buying_price] return on every text, and what
    they return is [None] or a number that is not negative and not a NaN;
    without a separator in the text the number is positive. *)
Theorem price_normalizers_total :
  (forall val, exists o,
      competitor_selling.parse_price val = Ok o
      /\ (forall x, o = Some x -> fnonneg x = true)
      /\ (contains "/" (strip val) = false -> forall x, o = Some x -> fpos x = true))
  /\ (forall val, exists o,
         competitor_buying.parse_buying_price val = Ok o
         /\ (forall x, o = Some x -> fnonneg x = true)
         /\ (contains " - " (remove_char "," (strip val)) = false ->
             forall x, o = Some x -> fpos x = true)).
Proof.
  split; intros val.
  - destruct (parse_price_total val) as (o & Ho). exists o. split; [exact Ho|]. split.
    + intros x ->. exact (parse_price_nonneg _ _ Ho).
    + intros Hsep x ->. unfold competitor_selling.parse_price in Ho.
      destruct (negb (nonempty val) || negb (nonempty (strip val))); [discriminate|].
      rewrite Hsep in Ho. exact (positive_or_none_pos _ _ Ho).
  - destruct (parse_buying_price_total val) as (o & Ho). exists o. split; [exact Ho|]. split.
    + intros x ->. exact (parse_buying_price_nonneg _ _ Ho).
    + intros Hsep x ->. unfold competitor_buying.parse_buying_price in Ho.
      destruct (negb (nonempty val) || negb (nonempty (strip val))); [discriminate|].
      rewrite Hsep in Ho. exact (positive_or_none_pos _ _ Ho).
Qed.

(** ** competitor_selling.py: the rows of the output *)

Lemma dt_ltb_asym (a b : datetime) : dt_ltb a b = true -> dt_ltb b a = false.
Proof. rewrite <- not_true_iff_false, !dt_ltb_spec. lia. Qed.

Lemma dt_ltb_total (a b : datetime) : dt_ltb a b = false -> dt_ltb b a = false -> a = b.
Proof.
  rewrite <- !not_true_iff_false, !dt_ltb_spec. intros H1 H2.
  destruct a as [y m d], b as [y' m' d']. simpl in *.
  assert (y = y') by lia. assert (m = m') by lia. assert (d = d') by lia.
  subst. reflexivity.
Qed.

Lemma string_ltb_asym (a b : string) : String.ltb a b = true -> String.ltb b a = false.
Proof.
  unfold String.ltb. rewrite (String.compare_antisym a b).
  destruct (String.compare b a); simpl; congruence.
Qed.

Lemma string_ltb_total (a b : string) :
  String.ltb a b = false -> String.ltb b a = false -> a = b.
Proof.
  unfold String.ltb. rewrite (String.compare_antisym b a).
  destruct (String.compare a b) eqn:E; simpl; try congruence.
  intros _ _. apply String.compare_eq_iff, E.
Qed.

Lemma group_key_ltb_asym (a b : competitor_selling.group_key) :
  competitor_selling.group_key_ltb a b = true -> competitor_selling.group_key_ltb b a = false.
Proof.
  destruct a as [da la], b as [db lb]. unfold competitor_selling.group_key_ltb. simpl.
  rewrite orb_true_iff, andb_true_iff. intros [H|(He & H)].
  - rewrite (dt_ltb_asym _ _ H). simpl.
    destruct (dt_eqb db da) eqn:E; [|reflexivity].
    apply dt_eqb_eq in E. subst. rewrite (dt_ltb_asym _ _ H) in H. discriminate.
  - apply dt_eqb_eq in He. subst db.
    assert (Hirr : dt_ltb da da = false).
    { destruct (dt_ltb da da) eqn:E; [|reflexivity]. rewrite (dt_ltb_asym _ _ E) in E.
      discriminate. }
    rewrite Hirr, (string_ltb_asym _ _ H), andb_false_r. reflexivity.
Qed.

Lemma group_key_ltb_total (a b : competitor_selling.group_key) :
  competitor_selling.group_key_ltb a b = false ->
  competitor_selling.group_key_ltb b a = false -> a = b.
Proof.
  destruct a as [da la], b as [db lb]. unfold competitor_selling.group_key_ltb. simpl.
  rewrite !orb_false_iff. intros (H1 & H1') (H2 & H2').
  pose proof (dt_ltb_total _ _ H1 H2) as ->.
  assert (He : dt_eqb db db = true) by (apply dt_eqb_eq; reflexivity).
  rewrite He in H1', H2'. simpl in H1', H2'.
  rewrite (string_ltb_total _ _ H1' H2'). reflexivity.
Qed.

Lemma add_price_keys (r : competitor_selling.record) (groups : competitor_selling.groups_t)
  (p : competitor_selling.product) (key : competitor_selling.group_key) :
  In key (map fst (competitor_selling.add_price r groups p)) <->
  In key (map fst groups)
  \/ ((exists x, competitor_selling.price r p = Some x)
      /\ key = (competitor_selling.date r, competitor_selling.location r)).
Proof.
  unfold competitor_selling.add_price.
  destruct (competitor_selling.price r p) as [x|].
  - rewrite (dict_set_keys_In _ group_key_eqb_eq). split.
    + intros [->|H]; [right; split; [eauto|reflexivity]|auto].
    + intros [H|(_ & ->)]; auto.
  - split; [auto|]. intros [H|((x & Hx) & _)]; [exact H|discriminate].
Qed.

Lemma group_records_keys (records : list competitor_selling.record)
  (key : competitor_selling.group_key) :
  In key (map fst (competitor_selling.group_records records)) <->
  exists r, In r records
            /\ key = (competitor_selling.date r, competitor_selling.location r)
            /\ has_price r.
Proof.
  induction records as [|r records IH] using rev_ind.
  - simpl. split; [intros []|intros (r & [] & _)].
  - rewrite group_records_snoc. unfold competitor_selling.PRODUCTS. simpl fold_left.
    rewrite !add_price_keys, IH. split.
    + intros [[(r0 & Hin & Hk & Hp)|((x & Hx) & ->)]|((x & Hx) & ->)].
      * exists r0. split; [apply in_or_app; auto|auto].
      * exists r. split; [apply in_or_app; simpl; auto|]. split; [reflexivity|].
        exists competitor_selling.WholeChicken, x. exact Hx.
      * exists r. split; [apply in_or_app; simpl; auto|]. split; [reflexivity|].
        exists competitor_selling.Gizzard, x. exact Hx.
    + intros (r0 & Hin & Hk & Hp). apply in_app_or in Hin.
      destruct Hin as [Hin|[<-|[]]].
      * left. left. exists r0. auto.
      * destruct Hp as ([|] & x & Hx); [left; right|right]; split; eauto.
Qed.

Lemma selling_emit_rows_keys
  (items : list (competitor_selling.group_key * competitor_selling.group)) :
  forall rows, competitor_selling.emit_rows items = Ok rows ->
  map selling_key rows = map fst items
  /\ map competitor_selling.a_comp_brands rows
     = map (fun kv => Z.of_nat (List.length (competitor_selling.comp_brands (snd kv)))) items.
Proof.
  induction items as [|[[dt loc] vals] items IH]; simpl; intros rows H.
  - inv_ok. auto.
  - inv_bind H. inv_bind H. inv_ok. destruct (IH _ Ha0) as (Hk & Hb).
    unfold competitor_selling.emit_row in Ha. inv_bind Ha. inv_bind Ha. inv_ok.
    simpl. rewrite Hk, Hb. auto.
Qed.

(** X13.  The rows of [aggregate_by_date_location] come in strictly ascending
    order of (date, location), one row for each (date, location) of a record
    that has a price, and no other row. *)
Theorem selling_rows_sorted (records : list competitor_selling.record)
  (rows : list competitor_selling.agg_row) :
  competitor_selling.aggregate_by_date_location records = Ok rows ->
  ascending competitor_selling.group_key_ltb (map selling_key rows)
  /\ forall key,
       In key (map selling_key rows) <->
       exists r, In r records
                 /\ key = (competitor_selling.date r, competitor_selling.location r)
                 /\ has_price r.
Proof.
  unfold competitor_selling.aggregate_by_date_location. intros H.
  destruct (selling_emit_rows_keys _ _ H) as (Hk & _). rewrite Hk.
  destruct (group_records_lookup records) as (Hnd & _). split.
  - apply (sorted_keys_ascending _ group_key_ltb_asym group_key_ltb_total), Hnd.
  - intros key. rewrite <- group_records_keys. rewrite !in_map_iff. split.
    + intros (kv & <- & Hin). exists kv. split; [reflexivity|]. apply sorted_In in Hin.
      exact Hin.
    + intros (kv & <- & Hin). exists kv. split; [reflexivity|]. apply sorted_In. exact Hin.
Qed.

Lemma selling_rows_sorted_witness :
  exists rows,
    competitor_selling.aggregate_by_date_location x_selling_records = Ok rows
    /\ map selling_key rows
       = [(mkdt 2025 1 6, "Abuja"); (mkdt 2025 1 6, "Kano"); (mkdt 2025 1 7, "Kano")]
    /\ ascending competitor_selling.group_key_ltb (map selling_key rows).
Proof.
  eexists. split; [vm_compute; reflexivity|]. split; [reflexivity|].
  apply (selling_rows_sorted x_selling_records). vm_compute. reflexivity.
Defined.

(** *** The brands counted *)

Lemma set_add_In (x b : string) (s : list string) :
  In b (competitor_selling.set_add x s) <-> b = x \/ In b s.
Proof.
  unfold competitor_selling.set_add.
  destruct (existsb (String.eqb x) s) eqn:E.
  - split; [auto|]. intros [->|H]; [|exact H].
    apply existsb_exists in E. destruct E as (y & Hy & Hxy).
    apply String.eqb_eq in Hxy. subst. exact Hy.
  - rewrite in_app_iff. simpl. intuition.
Qed.

Lemma set_add_NoDup (x : string) (s : list string) :
  NoDup s -> NoDup (competitor_selling.set_add x s).
Proof.
  unfold competitor_selling.set_add. intros H.
  destruct (existsb (String.eqb x) s) eqn:E; [exact H|].
  apply NoDup_app; [exact H|constructor; [intros []|constructor]|].
  intros y Hy [Hxy|[]]. subst y.
  assert (existsb (String.eqb x) s = true).
  { apply existsb_exists. exists x. split; [exact Hy|apply String.eqb_refl]. }
  congruence.
Qed.

Lemma add_record_brands (r : competitor_selling.record) (groups : competitor_selling.groups_t)
  (key : competitor_selling.group_key) :
  let g' := dict_default competitor_selling.group_key_eqb
              (fold_left (competitor_selling.add_price r) competitor_selling.PRODUCTS groups)
              key competitor_selling.group_default in
  let g := dict_default competitor_selling.group_key_eqb groups key
                        competitor_selling.group_default in
  (NoDup (competitor_selling.comp_brands g) -> NoDup (competitor_selling.comp_brands g'))
  /\ forall b,
       In b (competitor_selling.comp_brands g') <->
       In b (competitor_selling.comp_brands g) \/ competitor_brand [r] key b.
Proof.
  cbv zeta. unfold competitor_selling.PRODUCTS. simpl fold_left.
  rewrite !add_price_lookup. cbv zeta.
  assert (Hb : forall b, competitor_brand [r] key b <->
                 (competitor_selling.date r, competitor_selling.location r) = key
                 /\ competitor_selling.brand r = b
                 /\ competitor_selling.is_pullus r = false
                 /\ has_price r).
  { intros b. unfold competitor_brand. split.
    - intros (r0 & [<-|[]] & H). exact H.
    - intros H. exists r. split; [simpl; auto|exact H]. }
  destruct (competitor_selling.group_key_eqb
              key (competitor_selling.date r, competitor_selling.location r)) eqn:Ek.
  - apply group_key_eqb_eq in Ek. subst key.
    destruct (competitor_selling.is_pullus r) eqn:Ep;
      destruct (competitor_selling.price r competitor_selling.WholeChicken) as [x|] eqn:Ew;
      destruct (competitor_selling.price r competitor_selling.Gizzard) as [y|] eqn:Eg;
      cbn [competitor_selling.comp_brands];
      (split; [intros Hnd; repeat apply set_add_NoDup; exact Hnd|]);
      intros b; rewrite ?set_add_In, Hb; unfold has_price;
      (split;
       [ intros H;
         repeat (destruct H as [H|H]);
         first [ left; exact H
               | right; subst b; repeat split; eauto ]
       | intros [H|(_ & Hbr & Hp & (p & z & Hz))];
         [ tauto
         | first [ congruence
                 | destruct p; congruence
                 | subst b; tauto ] ] ]).
  - assert (Hne : (competitor_selling.date r, competitor_selling.location r) <> key).
    { intros <-. assert (H : competitor_selling.group_key_eqb
                               (competitor_selling.date r, competitor_selling.location r)
                               (competitor_selling.date r, competitor_selling.location r)
                             = true) by (apply group_key_eqb_eq; reflexivity).
      congruence. }
    destruct (competitor_selling.price r competitor_selling.WholeChicken);
      destruct (competitor_selling.price r competitor_selling.Gizzard);
      (split; [auto|]); intros b; rewrite Hb; tauto.
Qed.

Lemma competitor_brand_app (xs ys : list competitor_selling.record)
  (key : competitor_selling.group_key) (b : string) :
  competitor_brand (xs ++ ys) key b <-> competitor_brand xs key b \/ competitor_brand ys key b.
Proof.
  unfold competitor_brand. split.
  - intros (r & Hin & H). apply in_app_or in Hin. destruct Hin; [left|right]; eauto.
  - intros [(r & Hin & H)|(r & Hin & H)]; exists r; (split; [apply in_or_app; auto|exact H]).
Qed.

Lemma group_records_brands (records : list competitor_selling.record)
  (key : competitor_selling.group_key) :
  let g := dict_default competitor_selling.group_key_eqb
             (competitor_selling.group_records records) key
             competitor_selling.group_default in
  NoDup (competitor_selling.comp_brands g)
  /\ forall b, In b (competitor_selling.comp_brands g) <-> competitor_brand records key b.
Proof.
  cbv zeta. induction records as [|r records IH] using rev_ind.
  - split; [constructor|]. intros b. simpl. split; [intros []|intros (r & [] & _)].
  - rewrite group_records_snoc. destruct IH as (Hnd & IH).
    destruct (add_record_brands r (competitor_selling.group_records records) key)
      as (Hnd' & Hin).
    split; [exact (Hnd' Hnd)|].
    intros b. rewrite Hin, IH, competitor_brand_app. reflexivity.
Qed.

Lemma selling_emit_rows_In
  (items : list (competitor_selling.group_key * competitor_selling.group)) :
  forall rows row, competitor_selling.emit_rows items = Ok rows -> In row rows ->
  exists kv, In kv items /\ competitor_selling.emit_row kv = Ok row.
Proof.
  induction items as [|kv items IH]; simpl; intros rows row H Hin.
  - inv_ok. destruct Hin.
  - inv_bind H. inv_bind H. inv_ok. destruct Hin as [<-|Hin].
    + exists kv. auto.
    + destruct (IH _ _ Ha0 Hin) as (kv' & Hkv & He). exists kv'. auto.
Qed.

(** X14.  The [comp_brands] of a row of [aggregate_by_date_location] is the number
    of different brands among the records of the row's date and location
    that have a price and are not Pullus' (in any letter case). *)
Theorem selling_comp_brands (records : list competitor_selling.record)
  (rows : list competitor_selling.agg_row) :
  competitor_selling.aggregate_by_date_location records = Ok rows ->
  forall row, In row rows ->
  exists brands,
    NoDup brands
    /\ competitor_selling.a_comp_brands row = Z.of_nat (List.length brands)
    /\ forall b, In b brands <-> competitor_brand records (selling_key row) b.
Proof.
  unfold competitor_selling.aggregate_by_date_location. intros H row Hin.
  destruct (selling_emit_rows_In _ _ _ H Hin) as ([[dt loc] vals] & Hkv & He).
  apply sorted_In in Hkv.
  destruct (group_records_lookup records) as (Hnd & _).
  pose proof (dict_default_In _ group_key_eqb_eq _ _ _ competitor_selling.group_default
                Hnd Hkv) as Hg.
  destruct (group_records_brands records (dt, loc)) as (Hnb & Hb).
  rewrite Hg in Hnb, Hb.
  assert (Hrow : selling_key row = (dt, loc)
                 /\ competitor_selling.a_comp_brands row
                    = Z.of_nat (List.length (competitor_selling.comp_brands vals))).
  { clear Hg. unfold competitor_selling.emit_row in He. inv_bind He. inv_bind He. inv_ok.
    split; reflexivity. }
  destruct Hrow as (-> & Hcount).
  exists (competitor_selling.comp_brands vals). auto.
Qed.

Lemma selling_comp_brands_witness :
  exists rows,
    competitor_selling.aggregate_by_date_location x_selling_records = Ok rows
    /\ map competitor_selling.a_comp_brands rows = [1; 0; 1]
    /\ forall row, In row rows ->
       exists brands,
         NoDup brands
         /\ competitor_selling.a_comp_brands row = Z.of_nat (List.length brands)
         /\ forall b, In b brands <-> competitor_brand x_selling_records (selling_key row) b.
Proof.
  eexists. split; [vm_compute; reflexivity|]. split; [reflexivity|].
  apply (selling_comp_brands x_selling_records). vm_compute. reflexivity.
Defined.

(** *** A product with no column *)

Lemma dict_get_set_other {V : Type} (d : list (string * V)) (k k' : string) (v : V) :
  k <> k' -> dict_get String.eqb (dict_set String.eqb d k v) k' = dict_get String.eqb d k'.
Proof.
  intros Hne. induction d as [|[k0 v0] d IH]; simpl.
  - destruct (String.eqb_spec k' k); [congruence|reflexivity].
  - destruct (String.eqb_spec k k0) as [->|Hk]; simpl.
    + destruct (String.eqb_spec k' k0); [congruence|reflexivity].
    + destruct (String.eqb k' k0); [reflexivity|exact IH].
Qed.

Lemma col_map_missing (header : list string) (name : string) :
  (forall h, In h header -> strip h <> name) ->
  dict_get String.eqb (col_map_of header) name = None.
Proof.
  unfold col_map_of. generalize 0%nat.
  assert (H0 : dict_get String.eqb (@nil (string * nat)) name = None) by reflexivity.
  revert H0. generalize (@nil (string * nat)).
  induction header as [|h header IH]; intros m Hm i Hall; simpl; [exact Hm|].
  apply IH.
  - rewrite dict_get_set_other; [exact Hm|]. apply Hall. simpl. auto.
  - intros h' Hh'. apply Hall. simpl. auto.
Qed.

Lemma selling_step_prices (cy : Z) (loc : string) (col_map : list (string * nat))
  (records records' : list competitor_selling.record) (row : list string) :
  competitor_selling.fetch_step cy loc col_map records row = Ok records' ->
  records' = records
  \/ exists r,
       records' = records ++ [r]
       /\ forall p, competitor_selling.product_cell col_map row p
                    = Ok (competitor_selling.price r p).
Proof.
  unfold competitor_selling.fetch_step. intros H.
  inv_bind H. inv_bind H. destruct a0 as [dt|]; [|inv_ok; auto].
  destruct (negb (year dt =? cy)); [inv_ok; auto|].
  inv_bind H. destruct (negb (nonempty a0)); [inv_ok; auto|].
  inv_bind H. inv_bind H. inv_ok. right. eexists. split; [reflexivity|].
  intros [|]; simpl; assumption.
Qed.

Lemma contributing_none (records : list competitor_selling.record)
  (p : competitor_selling.product) :
  (forall r, In r records -> competitor_selling.price r p = None) ->
  forall key own, contributing records key own p = [].
Proof.
  intros Hnone key own. unfold contributing.
  induction records as [|r records IH]; [reflexivity|]. simpl.
  rewrite IH by (intros r' Hr'; apply Hnone; simpl; auto).
  rewrite (Hnone r) by (simpl; auto).
  destruct (_ && _); reflexivity.
Qed.

(** X15.  When no header cell of any tab names a product, every fetched record
    has [None] for that product, and every row of
    [aggregate_by_date_location] has [None] for the product's Pullus price,
    competitor average and differential. *)
Theorem selling_missing_column (cy : Z) (tabs : list (string * list (list string)))
  (records : list competitor_selling.record) (p : competitor_selling.product) :
  competitor_selling.fetch_competitor_data cy tabs = Ok records ->
  (forall name rows header h,
      In (name, rows) tabs -> nth_error rows 0 = Some header -> In h header ->
      strip h <> competitor_selling.product_name p) ->
  (forall r, In r records -> competitor_selling.price r p = None)
  /\ exists rows,
       competitor_selling.aggregate_by_date_location records = Ok rows
       /\ forall row, In row rows ->
            competitor_selling.cols row p = competitor_selling.mkcols None None None.
Proof.
  intros Hfetch Hcols.
  assert (Hnone : forall r, In r records -> competitor_selling.price r p = None).
  { apply Forall_forall. revert Hfetch. unfold competitor_selling.fetch_competitor_data.
    apply for_each_invariant; [|constructor].
    intros acc [name rows] acc' Htab Hacc. unfold competitor_selling.fetch_tab.
    destruct (negb (nonempty (strip name))); [intros H; inv_ok; exact Hacc|].
    intros H. inv_bind H. unfold py_index in Ha.
    destruct (nth_error rows 0) as [header|] eqn:Eh; [|discriminate]. inv_ok.
    revert H. apply for_each_invariant; [|exact Hacc].
    intros s row s' _ Hs Hstep.
    destruct (selling_step_prices _ _ _ _ _ _ Hstep) as [->|(r & -> & Hr)]; [exact Hs|].
    apply Forall_app. split; [exact Hs|]. constructor; [|constructor].
    specialize (Hr p). unfold competitor_selling.product_cell in Hr.
    rewrite (col_map_missing a (competitor_selling.product_name p)) in Hr.
    - inv_ok. congruence.
    - intros h Hh. exact (Hcols name rows a h Htab Eh Hh). }
  split; [exact Hnone|].
  destruct (selling_aggregate_rows records) as (rows & Hrows & Hcolsof).
  exists rows. split; [exact Hrows|]. intros row Hrow.
  specialize (Hcolsof row p Hrow). cbv zeta in Hcolsof.
  rewrite !(contributing_none records p Hnone) in Hcolsof.
  change (competitor_selling.product_cols_of [] [])
    with (Ok (competitor_selling.mkcols None None None)) in Hcolsof.
  congruence.
Qed.

Lemma selling_missing_column_witness :
  exists records,
    competitor_selling.fetch_competitor_data 2025 x_selling_tabs = Ok records
    /\ List.length records = 2%nat
    /\ forall r, In r records ->
                 competitor_selling.price r competitor_selling.Gizzard = None.
Proof.
  eexists. split; [vm_compute; reflexivity|]. split; [reflexivity|].
  refine (proj1 (selling_missing_column 2025 x_selling_tabs _ competitor_selling.Gizzard
                   _ _)).
  - vm_compute. reflexivity.
  - intros name rows header h [Htab|[]] Hh Hin. injection Htab as <- <-.
    simpl in Hh. injection Hh as <-.
    destruct Hin as [<-|[<-|[<-|[]]]]; vm_compute; discriminate.
Defined.

(** ** competitor_selling.py: the records tab by tab *)

Section Appending.
Context {A X : Type}.
Variable body : list A -> X -> result (list A).
Hypothesis body_app : forall acc x, body acc x = (r <- body [] x ;; Ok (acc ++ r)).

(** A loop whose passes only append gives what it gives from the empty
    list, after what it started with. *)
Lemma for_each_appending (xs : list X) :
  forall acc, for_each body xs acc = (r <- for_each body xs [] ;; Ok (acc ++ r)).
Proof.
  induction xs as [|x xs IH]; intros acc; simpl.
  - rewrite app_nil_r. reflexivity.
  - rewrite (body_app acc x). destruct (body [] x) as [r|e]; simpl; [|reflexivity].
    rewrite (IH (acc ++ r)), (IH r).
    destruct (for_each body xs []) as [r2|e]; simpl; [|reflexivity].
    rewrite app_assoc. reflexivity.
Qed.
End Appending.

Lemma selling_step_app (cy : Z) (loc : string) (col_map : list (string * nat))
  (acc : list competitor_selling.record) (row : list string) :
  competitor_selling.fetch_step cy loc col_map acc row
  = (r <- competitor_selling.fetch_step cy loc col_map [] row ;; Ok (acc ++ r)).
Proof.
  unfold competitor_selling.fetch_step.
  destruct (py_index row 0) as [c|e]; simpl; [|reflexivity].
  destruct (parse_date (PyStr c)) as [[dt|]|e]; simpl;
    [|rewrite app_nil_r; reflexivity|reflexivity].
  destruct (negb (year dt =? cy)); [simpl; rewrite app_nil_r; reflexivity|].
  destruct (if (1 <? List.length row)%nat
            then c0 <- py_index row 1 ;; Ok (strip c0)
            else Ok EmptyString) as [brand|e]; simpl; [|reflexivity].
  destruct (negb (nonempty brand)); [simpl; rewrite app_nil_r; reflexivity|].
  destruct (competitor_selling.product_cell col_map row competitor_selling.WholeChicken)
    as [wc|e]; simpl; [|reflexivity].
  destruct (competitor_selling.product_cell col_map row competitor_selling.Gizzard)
    as [gz|e]; simpl; reflexivity.
Qed.

Lemma selling_tab_app (cy : Z) (acc : list competitor_selling.record)
  (tab : string * list (list string)) :
  competitor_selling.fetch_tab cy acc tab
  = (r <- competitor_selling.fetch_tab cy [] tab ;; Ok (acc ++ r)).
Proof.
  destruct tab as [name rows]. unfold competitor_selling.fetch_tab.
  destruct (negb (nonempty (strip name))); [simpl; rewrite app_nil_r; reflexivity|].
  destruct (py_index rows 0) as [header|e]; simpl; [|reflexivity].
  apply for_each_appending. intros acc' row. apply selling_step_app.
Qed.

(** X16.  [fetch_competitor_data] reads the tabs one after the other and each on
    its own: over two lists of tabs it gives the records of the first list
    and then those of the second, and it raises where the first of them
    raises. *)
Theorem selling_fetch_by_tab (cy : Z) (tabs1 tabs2 : list (string * list (list string))) :
  competitor_selling.fetch_competitor_data cy (tabs1 ++ tabs2)
  = (r1 <- competitor_selling.fetch_competitor_data cy tabs1 ;;
     r2 <- competitor_selling.fetch_competitor_data cy tabs2 ;;
     Ok (r1 ++ r2)).
Proof.
  unfold competitor_selling.fetch_competitor_data. rewrite for_each_app.
  destruct (for_each (competitor_selling.fetch_tab cy) tabs1 []) as [r1|e]; simpl;
    [|reflexivity].
  apply for_each_appending. intros acc tab. apply selling_tab_app.
Qed.

Lemma selling_step_location (cy : Z) (loc : string) (col_map : list (string * nat))
  (records records' : list competitor_selling.record) (row : list string) :
  competitor_selling.fetch_step cy loc col_map records row = Ok records' ->
  records' = records
  \/ exists r, records' = records ++ [r] /\ competitor_selling.location r = loc.
Proof.
  unfold competitor_selling.fetch_step. intros H.
  inv_bind H. inv_bind H.
  destruct a0 as [dt|]; [|inv_ok; auto].
  destruct (negb (year dt =? cy)); [inv_ok; auto|].
  inv_bind H.
  destruct (negb (nonempty a0)); [inv_ok; auto|].
  inv_bind H. inv_bind H. inv_ok. right. eexists. split; reflexivity.
Qed.

(** X17.  Every record [fetch_competitor_data] returns carries the display name
    of a tab with a name: the name [LOCATION_NAMES] lists for the trimmed
    tab name, or the trimmed tab name itself when it lists none. *)
Theorem selling_record_location (cy : Z) (tabs : list (string * list (list string)))
  (records : list competitor_selling.record) :
  competitor_selling.fetch_competitor_data cy tabs = Ok records ->
  Forall (fun r => exists tab,
              In tab tabs /\ strip (fst tab) <> EmptyString
              /\ competitor_selling.location r = tab_location (fst tab)) records.
Proof.
  unfold competitor_selling.fetch_competitor_data.
  apply for_each_invariant; [|constructor].
  intros s [name rows] s' Htab Hs. unfold competitor_selling.fetch_tab.
  destruct (nonempty (strip name)) eqn:En; simpl negb; cbv iota;
    [|intros H; inv_ok; exact Hs].
  intros H. inv_bind H. revert H. apply for_each_invariant; [|exact Hs].
  intros t row t' _ Ht Hstep.
  destruct (selling_step_location _ _ _ _ _ _ Hstep) as [->|(r & -> & Hloc)]; [exact Ht|].
  apply Forall_app. split; [exact Ht|]. constructor; [|constructor].
  exists (name, rows). split; [exact Htab|]. split; [|exact Hloc].
  simpl fst. apply nonempty_true, En.
Qed.

Lemma selling_record_location_witness :
  exists records,
    competitor_selling.fetch_competitor_data 2025 x_selling_tabs_more = Ok records
    /\ map competitor_selling.location records = ["Kano"; "Kano"; "Lagos"]
    /\ Forall (fun r => exists tab,
                   In tab x_selling_tabs_more /\ strip (fst tab) <> EmptyString
                   /\ competitor_selling.location r = tab_location (fst tab)) records.
Proof.
  eexists. split; [|split].
  - vm_compute. reflexivity.
  - reflexivity.
  - apply (selling_record_location 2025 x_selling_tabs_more). vm_compute. reflexivity.
Defined.

(** ** competitor_buying.py: the header row, the product type, the summary *)

Lemma find_header_app (pre : list (list string)) (header : list string)
  (data : list (list string)) :
  Forall (fun row => competitor_buying.is_header row = false) pre ->
  competitor_buying.is_header header = true ->
  forall i, competitor_buying.find_header i (pre ++ header :: data)
            = Some (i + List.length pre)%nat.
Proof.
  intros Hpre Hh. induction Hpre as [|row pre Hrow _ IH]; intros i; simpl.
  - rewrite Hh. f_equal. lia.
  - rewrite Hrow, IH. f_equal. lia.
Qed.

(** X18.  The rows above the first row with an "Entry ID" cell are not read,
    whatever they hold: [fetch_buying_data] takes its columns from that row
    and its records from the rows below it. *)
Theorem buying_header_row (cy : Z) (pre : list (list string)) (header : list string)
  (data : list (list string)) :
  Forall (fun row => competitor_buying.is_header row = false) pre ->
  competitor_buying.is_header header = true ->
  competitor_buying.fetch_buying_data cy (pre ++ header :: data)
  = for_each (competitor_buying.fetch_step cy (col_map_of header)) data [].
Proof.
  intros Hpre Hh. unfold competitor_buying.fetch_buying_data.
  rewrite (find_header_app pre header data Hpre Hh 0).
  assert (Hidx : py_index (pre ++ header :: data) (0 + List.length pre) = Ok header).
  { unfold py_index. simpl plus. rewrite nth_error_app2 by lia.
    rewrite Nat.sub_diag. reflexivity. }
  assert (Hskip : skipn (0 + List.length pre + 1) (pre ++ header :: data) = data).
  { replace (0 + List.length pre + 1)%nat with (List.length (pre ++ [header]))
      by (rewrite length_app; simpl; lia).
    change (pre ++ header :: data) with (pre ++ [header] ++ data).
    rewrite app_assoc, skipn_app, Nat.sub_diag, skipn_all. reflexivity. }
  rewrite Hidx, bind_ret. cbv zeta. rewrite Hskip. reflexivity.
Qed.

Lemma buying_header_row_witness :
  exists records,
    competitor_buying.fetch_buying_data 2025 x_buying_rows = Ok records
    /\ map competitor_buying.competitor records = ["Acme"; "Bolt"; "Core"].
Proof.
  eexists. split.
  - refine (eq_trans (buying_header_row 2025 (firstn 2 x_buying_rows)
                        (nth 2 x_buying_rows []) (skipn 3 x_buying_rows) _ _) _).
    + repeat constructor.
    + reflexivity.
    + vm_compute. reflexivity.
  - reflexivity.
Defined.

(** *** The product type *)

Lemma lower_char_case (c : ascii) :
  lower_char (lower_char c) = lower_char c
  /\ upper_char (lower_char c) = upper_char c
  /\ is_alpha (lower_char c) = is_alpha c.
Proof. destruct c as [[] [] [] [] [] [] [] []]; repeat split; reflexivity. Qed.

Lemma title_from_lower (s : string) :
  forall b, title_from b (lower s) = title_from b s.
Proof.
  unfold lower. induction s as [|c s IH]; intros b; simpl; [reflexivity|].
  destruct (lower_char_case c) as (Hl & Hu & Ha).
  rewrite Hl, Hu, Ha, IH. reflexivity.
Qed.

Lemma title_lower (s t : string) : lower s = lower t -> title s = title t.
Proof.
  intros H. unfold title.
  rewrite <- (title_from_lower s), <- (title_from_lower t), H. reflexivity.
Qed.

Lemma buying_step_type (cy : Z) (col_map : list (string * nat))
  (records records' : list competitor_buying.record) (row : list string) :
  competitor_buying.fetch_step cy col_map records row = Ok records' ->
  records' = records
  \/ exists r cell,
      records' = records ++ [r]
      /\ nth_error row (col_get col_map "Product Type" 6) = Some cell
      /\ competitor_buying.product_type r = title (strip cell).
Proof.
  unfold competitor_buying.fetch_step. intros H.
  inv_bind H. inv_bind H.
  destruct a0 as [dt|]; [|inv_ok; auto].
  destruct (negb (year dt =? cy)); [inv_ok; auto|].
  do 8 inv_bind H.
  destruct (negb (nonempty (strip a0))); [inv_ok; auto|].
  inv_ok. right. unfold py_index in Ha2.
  destruct (nth_error row (col_get col_map "Product Type" 6)) as [c|] eqn:E; [|discriminate].
  inv_ok. eexists. exists a1. split; [reflexivity|]. split; reflexivity.
Qed.

(** X19.  The product type of a fetched record is the title-cased trimmed text of
    its cell, so it does not depend on the letter case or the outer white
    space of the cell: a cell reading dressed birds or live birds in any
    letter case gives the type [compute_summary] looks for. *)
Theorem buying_product_type (cy : Z) (rows : list (list string))
  (records : list competitor_buying.record) :
  competitor_buying.fetch_buying_data cy rows = Ok records ->
  forall r, In r records ->
  exists row col cell,
    In row rows /\ nth_error row col = Some cell
    /\ competitor_buying.product_type r = title (strip cell)
    /\ (lower (strip cell) = "dressed birds" ->
        competitor_buying.product_type r = "Dressed Birds")
    /\ (lower (strip cell) = "live birds" ->
        competitor_buying.product_type r = "Live Birds").
Proof.
  unfold competitor_buying.fetch_buying_data. intros H.
  apply Forall_forall.
  destruct (competitor_buying.find_header 0 rows) as [idx|]; [|inv_ok; constructor].
  inv_bind H. revert H. apply for_each_invariant; [|constructor].
  intros s row s' Hrow Hs Hstep. apply skipn_In in Hrow.
  destruct (buying_step_type _ _ _ _ _ Hstep) as [->|(r & cell & -> & Hcell & Ht)];
    [exact Hs|].
  apply Forall_app. split; [exact Hs|]. constructor; [|constructor].
  exists row, (col_get (col_map_of a) "Product Type" 6), cell.
  split; [exact Hrow|]. split; [exact Hcell|]. split; [exact Ht|].
  rewrite Ht. split; intros Hl.
  - apply (title_lower (strip cell) "dressed birds"). exact Hl.
  - apply (title_lower (strip cell) "live birds"). exact Hl.
Qed.

Lemma buying_product_type_witness :
  exists records,
    competitor_buying.fetch_buying_data 2025 x_buying_rows = Ok records
    /\ map competitor_buying.product_type records
       = ["Dressed Birds"; "Live Birds"; "Frozen"]
    /\ forall r, In r records ->
       exists row col cell,
         In row x_buying_rows /\ nth_error row col = Some cell
         /\ competitor_buying.product_type r = title (strip cell)
         /\ (lower (strip cell) = "dressed birds" ->
             competitor_buying.product_type r = "Dressed Birds")
         /\ (lower (strip cell) = "live birds" ->
             competitor_buying.product_type r = "Live Birds").
Proof.
  eexists. split; [vm_compute; reflexivity|]. split; [reflexivity|].
  apply (buying_product_type 2025 x_buying_rows). vm_compute. reflexivity.
Defined.

(** *** The counts of the summary *)

Lemma filter_disjoint_length {A : Type} (f g : A -> bool) (xs : list A) :
  (forall x, f x = true -> g x = false) ->
  (List.length (filter f xs) + List.length (filter g xs) <= List.length xs)%nat.
Proof.
  intros H. induction xs as [|x xs IH]; simpl; [lia|].
  destruct (f x) eqn:Ef.
  - rewrite (H x Ef). simpl. lia.
  - destruct (g x); simpl; lia.
Qed.

Lemma truthy_prices_length (field : competitor_buying.record -> option pyfloat)
  (rs : list competitor_buying.record) :
  (List.length (competitor_buying.truthy_prices field rs) <= List.length rs)%nat
  /\ Forall (fun x => truthy x = true) (competitor_buying.truthy_prices field rs).
Proof.
  unfold competitor_buying.truthy_prices. induction rs as [|r rs (IHl & IHt)]; simpl.
  - split; [lia|constructor].
  - destruct (field r) as [x|]; [destruct (truthy x) eqn:E|]; simpl; split;
      try lia; try assumption.
    constructor; assumption.
Qed.

(** X20.  [compute_summary] returns on every list of records.  Its entry counts
    are those of the list: every record counts once in the total, a record
    counts as dressed or as live or as neither, never as both, and the live
    competitor prices are prices of live records that are not zero. *)
Theorem buying_summary_counts (records : list competitor_buying.record) :
  exists s,
    competitor_buying.compute_summary records = Ok s
    /\ competitor_buying.total_entries s = Z.of_nat (List.length records)
    /\ 0 <= competitor_buying.dressed_entries s
    /\ 0 <= competitor_buying.live_entries s
    /\ competitor_buying.dressed_entries s + competitor_buying.live_entries s
       <= competitor_buying.total_entries s
    /\ Z.of_nat (List.length (competitor_buying.live_comp_prices s))
       <= competitor_buying.live_entries s
    /\ Forall (fun x => truthy x = true) (competitor_buying.live_comp_prices s).
Proof.
  destruct (compute_summary_total records) as (s & Hs & _). exists s.
  split; [exact Hs|].
  unfold competitor_buying.compute_summary in Hs. cbv zeta in Hs.
  inv_bind Hs. inv_bind Hs. inv_bind Hs. inv_ok. simpl.
  pose proof (filter_disjoint_length
                (fun r => String.eqb (competitor_buying.product_type r) "Dressed Birds")
                (fun r => String.eqb (competitor_buying.product_type r) "Live Birds")
                records) as Hd.
  destruct (truthy_prices_length competitor_buying.comp_price
              (filter (fun r => String.eqb (competitor_buying.product_type r) "Live Birds")
                      records)) as (Hl & Ht).
  split; [reflexivity|]. split; [lia|]. split; [lia|]. split.
  - assert (forall x : competitor_buying.record,
               String.eqb (competitor_buying.product_type x) "Dressed Birds" = true ->
               String.eqb (competitor_buying.product_type x) "Live Birds" = false) as Hdis.
    { intros x Hx. apply String.eqb_eq in Hx. rewrite Hx. reflexivity. }
    specialize (Hd Hdis). lia.
  - split; [lia|exact Ht].
Qed.

(** ** dashboard.py: a run of [main] *)

Section MainRun.
Variable compute_hash : dashboard_run.payload -> string.
Variable current_year : Z.
Variable build_weekly_purchase : list weekly_purchase.week_row -> result unit.
Variable build_doc_price : list doc_price.week_row -> result unit.
Variable build_competitor_selling : list competitor_selling.agg_row -> result unit.
Variable build_competitor_buying : list competitor_buying.record -> result unit.

Lemma data_changed_hashes (ci : bool) (key : string) (d : dashboard_run.payload)
  (prev nh : dashboard_run.hashes) :
  snd (dashboard_run.data_changed compute_hash ci key d prev nh)
  = dict_set String.eqb nh key (compute_hash d).
Proof.
  unfold dashboard_run.data_changed. destruct ci; simpl; [|reflexivity].
  destruct (dict_get String.eqb prev key) as [h|]; [|reflexivity].
  destruct (negb (String.eqb (compute_hash d) h)); reflexivity.
Qed.

Lemma data_changed_same (key : string) (d : dashboard_run.payload)
  (prev nh : dashboard_run.hashes) :
  dict_get String.eqb prev key = Some (compute_hash d) ->
  dashboard_run.data_changed compute_hash true key d prev nh
  = (false, dict_set String.eqb nh key (compute_hash d)).
Proof.
  intros H. unfold dashboard_run.data_changed. simpl.
  rewrite H, String.eqb_refl. reflexivity.
Qed.

Lemma weekly_purchase_step_hashes (ci : bool) (sh : dashboard_run.sheets)
  (prev : dashboard_run.hashes) (st st' : dashboard_run.run_state) :
  dashboard_run.weekly_purchase_step compute_hash ci current_year build_weekly_purchase
    sh prev st = Ok st' ->
  exists raw,
    dashboard_run.fetch_raw_data (dashboard_run.purchase_rows sh) = Ok raw
    /\ dashboard_run.new_hashes st'
       = dict_set String.eqb (dashboard_run.new_hashes st) "weekly_purchase"
           (compute_hash (dashboard_run.RowData raw))
    /\ (ci = false ->
        exists weeks,
          weekly_purchase.aggregate_weekly current_year raw = Ok weeks
          /\ dashboard_run.updated st'
             = dashboard_run.updated st
               ++ match weeks with [] => [] | _ :: _ => ["Weekly Purchase"] end).
Proof.
  unfold dashboard_run.weekly_purchase_step. intros H. inv_bind H.
  exists a. split; [exact Ha|].
  pose proof (data_changed_hashes ci "weekly_purchase" (dashboard_run.RowData a) prev
                (dashboard_run.new_hashes st)) as Hh.
  assert (Hl : ci = false ->
               fst (dashboard_run.data_changed compute_hash ci "weekly_purchase"
                      (dashboard_run.RowData a) prev (dashboard_run.new_hashes st)) = true).
  { intros ->. reflexivity. }
  destruct (dashboard_run.data_changed compute_hash ci "weekly_purchase"
              (dashboard_run.RowData a) prev (dashboard_run.new_hashes st))
    as [changed nh]. simpl in Hh, Hl. subst nh.
  destruct changed.
  - inv_bind H. destruct a0 as [|w ws].
    + inv_ok. simpl. split; [reflexivity|]. intros _. exists [].
      split; [exact Ha0|]. symmetry. apply app_nil_r.
    + inv_bind H. inv_ok. simpl. split; [reflexivity|]. intros _. exists (w :: ws).
      split; [exact Ha0|reflexivity].
  - inv_ok. simpl. split; [reflexivity|]. intros Hci. specialize (Hl Hci). discriminate Hl.
Qed.

Lemma doc_price_step_hashes (ci : bool) (sh : dashboard_run.sheets)
  (prev : dashboard_run.hashes) (st st' : dashboard_run.run_state) :
  dashboard_run.doc_price_step compute_hash ci current_year build_doc_price
    sh prev st = Ok st' ->
  exists price,
    dashboard_run.fetch_price_data (dashboard_run.doc_price_rows sh) = Ok price
    /\ dashboard_run.new_hashes st'
       = dict_set String.eqb (dashboard_run.new_hashes st) "doc_price"
           (compute_hash (dashboard_run.RowData (fst price)))
    /\ (ci = false ->
        exists weeks,
          doc_price.aggregate_weekly_prices current_year (fst price) = Ok weeks
          /\ dashboard_run.updated st'
             = dashboard_run.updated st
               ++ match weeks with [] => [] | _ :: _ => ["DOC Price Trends"] end).
Proof.
  unfold dashboard_run.doc_price_step. intros H. inv_bind H. cbv zeta in H.
  exists a. split; [exact Ha|].
  pose proof (data_changed_hashes ci "doc_price" (dashboard_run.RowData (fst a)) prev
                (dashboard_run.new_hashes st)) as Hh.
  assert (Hl : ci = false ->
               fst (dashboard_run.data_changed compute_hash ci "doc_price"
                      (dashboard_run.RowData (fst a)) prev
                      (dashboard_run.new_hashes st)) = true).
  { intros ->. reflexivity. }
  destruct (dashboard_run.data_changed compute_hash ci "doc_price"
              (dashboard_run.RowData (fst a)) prev (dashboard_run.new_hashes st))
    as [changed nh]. simpl in Hh, Hl. subst nh.
  destruct changed.
  - inv_bind H. destruct a0 as [|w ws].
    + inv_ok. simpl. split; [reflexivity|]. intros _. exists [].
      split; [exact Ha0|]. symmetry. apply app_nil_r.
    + inv_bind H. inv_ok. simpl. split; [reflexivity|]. intros _. exists (w :: ws).
      split; [exact Ha0|reflexivity].
  - inv_ok. simpl. split; [reflexivity|]. intros Hci. specialize (Hl Hci). discriminate Hl.
Qed.

Lemma competitor_selling_step_hashes (ci : bool) (sh : dashboard_run.sheets)
  (prev : dashboard_run.hashes) (st st' : dashboard_run.run_state) :
  dashboard_run.competitor_selling_step compute_hash ci current_year
    build_competitor_selling sh prev st = Ok st' ->
  exists records,
    competitor_selling.fetch_competitor_data current_year (dashboard_run.selling_tabs sh)
    = Ok records
    /\ dashboard_run.new_hashes st'
       = dict_set String.eqb (dashboard_run.new_hashes st) "competitor_selling"
           (compute_hash (dashboard_run.SellingData records))
    /\ (ci = false ->
        exists aggregated,
          competitor_selling.aggregate_by_date_location records = Ok aggregated
          /\ dashboard_run.updated st'
             = dashboard_run.updated st
               ++ match aggregated with
                  | [] => []
                  | _ :: _ => ["Competitor Selling Prices"]
                  end).
Proof.
  unfold dashboard_run.competitor_selling_step. intros H. inv_bind H.
  exists a. split; [exact Ha|].
  pose proof (data_changed_hashes ci "competitor_selling" (dashboard_run.SellingData a)
                prev (dashboard_run.new_hashes st)) as Hh.
  assert (Hl : ci = false ->
               fst (dashboard_run.data_changed compute_hash ci "competitor_selling"
                      (dashboard_run.SellingData a) prev
                      (dashboard_run.new_hashes st)) = true).
  { intros ->. reflexivity. }
  destruct (dashboard_run.data_changed compute_hash ci "competitor_selling"
              (dashboard_run.SellingData a) prev (dashboard_run.new_hashes st))
    as [changed nh]. simpl in Hh, Hl. subst nh.
  destruct changed.
  - inv_bind H. destruct a0 as [|w ws].
    + inv_ok. simpl. split; [reflexivity|]. intros _. exists [].
      split; [exact Ha0|]. symmetry. apply app_nil_r.
    + inv_bind H. inv_ok. simpl. split; [reflexivity|]. intros _. exists (w :: ws).
      split; [exact Ha0|reflexivity].
  - inv_ok. simpl. split; [reflexivity|]. intros Hci. specialize (Hl Hci). discriminate Hl.
Qed.

Lemma competitor_buying_step_hashes (ci : bool) (sh : dashboard_run.sheets)
  (prev : dashboard_run.hashes) (st st' : dashboard_run.run_state) :
  dashboard_run.competitor_buying_step compute_hash ci current_year
    build_competitor_buying sh prev st = Ok st' ->
  exists records,
    competitor_buying.fetch_buying_data current_year (dashboard_run.buying_rows sh)
    = Ok records
    /\ dashboard_run.new_hashes st'
       = dict_set String.eqb (dashboard_run.new_hashes st) "competitor_buying"
           (compute_hash (dashboard_run.BuyingData records))
    /\ (ci = false ->
        dashboard_run.updated st'
        = dashboard_run.updated st
          ++ match records with [] => [] | _ :: _ => ["Competitor Buying Prices"] end).
Proof.
  unfold dashboard_run.competitor_buying_step. intros H. inv_bind H.
  exists a. split; [exact Ha|].
  pose proof (data_changed_hashes ci "competitor_buying" (dashboard_run.BuyingData a)
                prev (dashboard_run.new_hashes st)) as Hh.
  assert (Hl : ci = false ->
               fst (dashboard_run.data_changed compute_hash ci "competitor_buying"
                      (dashboard_run.BuyingData a) prev
                      (dashboard_run.new_hashes st)) = true).
  { intros ->. reflexivity. }
  destruct (dashboard_run.data_changed compute_hash ci "competitor_buying"
              (dashboard_run.BuyingData a) prev (dashboard_run.new_hashes st))
    as [changed nh]. simpl in Hh, Hl. subst nh.
  destruct changed.
  - destruct a as [|w ws].
    + inv_ok. simpl. split; [reflexivity|]. intros _. symmetry. apply app_nil_r.
    + inv_bind H. inv_ok. simpl. split; [reflexivity|]. intros _. reflexivity.
  - inv_ok. simpl. split; [reflexivity|]. intros Hci. specialize (Hl Hci). discriminate Hl.
Qed.

(** What a run that returns has fetched and filed. *)
Lemma main_fetched (ci : bool) (sh : dashboard_run.sheets)
  (hash_file hash_file' : option dashboard_run.hashes) (upd : list string) :
  dashboard_run.main compute_hash ci current_year build_weekly_purchase build_doc_price
    build_competitor_selling build_competitor_buying sh hash_file = Ok (upd, hash_file') ->
  exists f,
    fetch_all current_year sh = Ok f
    /\ hash_file' = (if ci then Some (hashes_of compute_hash f) else hash_file)
    /\ (ci = false ->
        exists weeks price_weeks aggregated,
          weekly_purchase.aggregate_weekly current_year (f_raw f) = Ok weeks
          /\ doc_price.aggregate_weekly_prices current_year (f_price_data f)
             = Ok price_weeks
          /\ competitor_selling.aggregate_by_date_location (f_comp_records f)
             = Ok aggregated
          /\ upd = match weeks with [] => [] | _ :: _ => ["Weekly Purchase"] end
                   ++ match price_weeks with [] => [] | _ :: _ => ["DOC Price Trends"] end
                   ++ match aggregated with
                      | [] => []
                      | _ :: _ => ["Competitor Selling Prices"]
                      end
                   ++ match f_buying_records f with
                      | [] => []
                      | _ :: _ => ["Competitor Buying Prices"]
                      end).
Proof.
  unfold dashboard_run.main. cbv zeta. intros H.
  inv_bind H. inv_bind H. inv_bind H. inv_bind H.
  apply weekly_purchase_step_hashes in Ha as (raw & F1 & N1 & U1).
  apply doc_price_step_hashes in Ha0 as (price & F2 & N2 & U2).
  apply competitor_selling_step_hashes in Ha1 as (comp & F3 & N3 & U3).
  apply competitor_buying_step_hashes in Ha2 as (buying & F4 & N4 & U4).
  exists (mkfetched raw (fst price) comp buying).
  split; [unfold fetch_all; rewrite F1, F2, F3, F4; reflexivity|].
  assert (E : (dashboard_run.updated a2,
               if ci then Some (dashboard_run.new_hashes a2) else hash_file)
              = (upd, hash_file')) by congruence.
  clear H. injection E as Eu Ef. split.
  - rewrite <- Ef. destruct ci; [|reflexivity].
    rewrite N4, N3, N2, N1. reflexivity.
  - intros Hci.
    destruct (U1 Hci) as (weeks & A1 & V1). destruct (U2 Hci) as (pw & A2 & V2).
    destruct (U3 Hci) as (ag & A3 & V3). specialize (U4 Hci).
    exists weeks, pw, ag. repeat (split; [assumption|]).
    rewrite <- Eu, U4, V3, V2, V1. simpl. rewrite <- !app_assoc. reflexivity.
Qed.

End MainRun.

(** X21.  In a local run ([IS_CI] false) the hash file is neither read nor
    written, every aggregation is run, and the sheets [main] reports as
    updated are, in the order of the steps, those whose aggregation (for the
    buying prices: whose records) is not empty. *)
Theorem main_local_run (compute_hash : dashboard_run.payload -> string) (current_year : Z)
  (build_weekly_purchase : list weekly_purchase.week_row -> result unit)
  (build_doc_price : list doc_price.week_row -> result unit)
  (build_competitor_selling : list competitor_selling.agg_row -> result unit)
  (build_competitor_buying : list competitor_buying.record -> result unit)
  (sh : dashboard_run.sheets) (hash_file hash_file' : option dashboard_run.hashes)
  (upd : list string) :
  dashboard_run.main compute_hash false current_year build_weekly_purchase build_doc_price
    build_competitor_selling build_competitor_buying sh hash_file = Ok (upd, hash_file') ->
  hash_file' = hash_file
  /\ exists f weeks price_weeks aggregated,
       fetch_all current_year sh = Ok f
       /\ weekly_purchase.aggregate_weekly current_year (f_raw f) = Ok weeks
       /\ doc_price.aggregate_weekly_prices current_year (f_price_data f) = Ok price_weeks
       /\ competitor_selling.aggregate_by_date_location (f_comp_records f) = Ok aggregated
       /\ upd = match weeks with [] => [] | _ :: _ => ["Weekly Purchase"] end
                ++ match price_weeks with [] => [] | _ :: _ => ["DOC Price Trends"] end
                ++ match aggregated with
                   | [] => []
                   | _ :: _ => ["Competitor Selling Prices"]
                   end
                ++ match f_buying_records f with
                   | [] => []
                   | _ :: _ => ["Competitor Buying Prices"]
                   end.
Proof.
  intros H. apply main_fetched in H as (f & Hf & Hfile & Hupd).
  split; [exact Hfile|].
  destruct (Hupd eq_refl) as (weeks & pw & ag & A1 & A2 & A3 & Hu).
  exists f, weeks, pw, ag. repeat (split; [assumption|]). exact Hu.
Qed.

Lemma main_local_run_witness :
  dashboard_run.main x_hash false 2025 x_build x_build x_build x_build x_sheets None
  = Ok (["Weekly Purchase"; "DOC Price Trends"; "Competitor Selling Prices";
         "Competitor Buying Prices"], None)
  /\ (@None dashboard_run.hashes = None
      /\ exists f weeks price_weeks aggregated,
           fetch_all 2025 x_sheets = Ok f
           /\ weekly_purchase.aggregate_weekly 2025 (f_raw f) = Ok weeks
           /\ doc_price.aggregate_weekly_prices 2025 (f_price_data f) = Ok price_weeks
           /\ competitor_selling.aggregate_by_date_location (f_comp_records f)
              = Ok aggregated
           /\ ["Weekly Purchase"; "DOC Price Trends"; "Competitor Selling Prices";
               "Competitor Buying Prices"]
              = match weeks with [] => [] | _ :: _ => ["Weekly Purchase"] end
                ++ match price_weeks with [] => [] | _ :: _ => ["DOC Price Trends"] end
                ++ match aggregated with
                   | [] => []
                   | _ :: _ => ["Competitor Selling Prices"]
                   end
                ++ match f_buying_records f with
                   | [] => []
                   | _ :: _ => ["Competitor Buying Prices"]
                   end).
Proof.
  split; [vm_compute; reflexivity|].
  apply (main_local_run x_hash 2025 x_build x_build x_build x_build x_sheets None None).
  vm_compute. reflexivity.
Defined.

(** X22.  In a run on the build server ([IS_CI] true) that returns, the hash file
    it leaves holds the digests of the four fetched data sets under their
    four keys and nothing else, whatever the file held before. *)
Theorem main_saves_hashes (compute_hash : dashboard_run.payload -> string)
  (current_year : Z)
  (build_weekly_purchase : list weekly_purchase.week_row -> result unit)
  (build_doc_price : list doc_price.week_row -> result unit)
  (build_competitor_selling : list competitor_selling.agg_row -> result unit)
  (build_competitor_buying : list competitor_buying.record -> result unit)
  (sh : dashboard_run.sheets) (hash_file hash_file' : option dashboard_run.hashes)
  (upd : list string) :
  dashboard_run.main compute_hash true current_year build_weekly_purchase build_doc_price
    build_competitor_selling build_competitor_buying sh hash_file = Ok (upd, hash_file') ->
  exists f,
    fetch_all current_year sh = Ok f
    /\ hash_file' = Some (hashes_of compute_hash f).
Proof.
  intros H. apply main_fetched in H as (f & Hf & Hfile & _).
  exists f. split; assumption.
Qed.

Lemma main_saves_hashes_witness :
  exists upd hash_file',
    dashboard_run.main x_hash true 2025 x_build x_build x_build x_build x_sheets
      (Some [("stale", "0"); ("doc_price", "1")]) = Ok (upd, hash_file')
    /\ map fst (dashboard_run.load_hashes hash_file')
       = ["weekly_purchase"; "doc_price"; "competitor_selling"; "competitor_buying"]
    /\ exists f,
         fetch_all 2025 x_sheets = Ok f
         /\ hash_file' = Some (hashes_of x_hash f).
Proof.
  eexists. eexists. split.
  - vm_compute. reflexivity.
  - split; [reflexivity|].
    eapply (main_saves_hashes x_hash 2025 x_build x_build x_build x_build x_sheets
              (Some [("stale", "0"); ("doc_price", "1")])).
    vm_compute. reflexivity.
Defined.

Section Rerun.
Variable compute_hash : dashboard_run.payload -> string.
Variable current_year : Z.
Variable build_weekly_purchase : list weekly_purchase.week_row -> result unit.
Variable build_doc_price : list doc_price.week_row -> result unit.
Variable build_competitor_selling : list competitor_selling.agg_row -> result unit.
Variable build_competitor_buying : list competitor_buying.record -> result unit.

(** With the digests of the fetched data on file, no step of [main] goes
    past [data_changed]. *)
Lemma main_unchanged (sh : dashboard_run.sheets) (f : fetched)
  (prev : dashboard_run.hashes) :
  fetch_all current_year sh = Ok f ->
  dict_get String.eqb prev "weekly_purchase"
  = Some (compute_hash (dashboard_run.RowData (f_raw f))) ->
  dict_get String.eqb prev "doc_price"
  = Some (compute_hash (dashboard_run.RowData (f_price_data f))) ->
  dict_get String.eqb prev "competitor_selling"
  = Some (compute_hash (dashboard_run.SellingData (f_comp_records f))) ->
  dict_get String.eqb prev "competitor_buying"
  = Some (compute_hash (dashboard_run.BuyingData (f_buying_records f))) ->
  dashboard_run.main compute_hash true current_year build_weekly_purchase build_doc_price
    build_competitor_selling build_competitor_buying sh (Some prev)
  = Ok ([], Some (hashes_of compute_hash f)).
Proof.
  unfold fetch_all. intros Hf H1 H2 H3 H4.
  inv_bind Hf. inv_bind Hf. inv_bind Hf. inv_bind Hf. inv_ok. simpl in H1, H2, H3, H4.
  unfold dashboard_run.main. cbv zeta. simpl dashboard_run.load_hashes. cbv iota.
  unfold dashboard_run.weekly_purchase_step. rewrite Ha. cbn [bind].
  rewrite (data_changed_same compute_hash _ _ _ _ H1). cbn [bind].
  unfold dashboard_run.doc_price_step. rewrite Ha0. cbn [bind]. cbv zeta.
  rewrite (data_changed_same compute_hash _ _ _ _ H2). cbn [bind].
  unfold dashboard_run.competitor_selling_step. rewrite Ha1. cbn [bind].
  rewrite (data_changed_same compute_hash _ _ _ _ H3). cbn [bind].
  unfold dashboard_run.competitor_buying_step. rewrite Ha2. cbn [bind].
  rewrite (data_changed_same compute_hash _ _ _ _ H4). cbn [bind].
  reflexivity.
Qed.

End Rerun.

(** X23.  On the build server, a run of [main] that follows a run that
    returned, over the same sheets in the same year, finds every digest on
    file: it updates nothing, reaches no [build_dashboard] (it returns
    whatever these would do) and leaves the hash file as it found it. *)
Theorem main_second_run_skips (compute_hash : dashboard_run.payload -> string)
  (current_year : Z)
  (build_weekly_purchase : list weekly_purchase.week_row -> result unit)
  (build_doc_price : list doc_price.week_row -> result unit)
  (build_competitor_selling : list competitor_selling.agg_row -> result unit)
  (build_competitor_buying : list competitor_buying.record -> result unit)
  (sh : dashboard_run.sheets) (hash_file hash_file' : option dashboard_run.hashes)
  (upd : list string) :
  dashboard_run.main compute_hash true current_year build_weekly_purchase build_doc_price
    build_competitor_selling build_competitor_buying sh hash_file = Ok (upd, hash_file') ->
  forall (build_weekly_purchase' : list weekly_purchase.week_row -> result unit)
         (build_doc_price' : list doc_price.week_row -> result unit)
         (build_competitor_selling' : list competitor_selling.agg_row -> result unit)
         (build_competitor_buying' : list competitor_buying.record -> result unit),
    dashboard_run.main compute_hash true current_year build_weekly_purchase'
      build_doc_price' build_competitor_selling' build_competitor_buying' sh hash_file'
    = Ok ([], hash_file').
Proof.
  intros H b1 b2 b3 b4. apply main_fetched in H as (f & Hf & -> & _).
  apply main_unchanged; [exact Hf| | | |]; reflexivity.
Qed.

Lemma main_second_run_skips_witness :
  exists hash_file',
    dashboard_run.main x_hash true 2025 x_build x_build x_build x_build x_sheets None
    = Ok (["Weekly Purchase"; "DOC Price Trends"; "Competitor Selling Prices";
           "Competitor Buying Prices"], hash_file')
    /\ dashboard_run.main x_hash true 2025 (fun _ => Raise ValueError)
         (fun _ => Raise ValueError) (fun _ => Raise ValueError)
         (fun _ => Raise ValueError) x_sheets hash_file'
       = Ok ([], hash_file').
Proof.
  eexists. split.
  - vm_compute. reflexivity.
  - eapply (main_second_run_skips x_hash 2025 x_build x_build x_build x_build x_sheets
              None).
    vm_compute. reflexivity.
Defined.
